(** * pi-mem: memory file model, checklist codec, context assembly,
      session scanning and search

    A shallow embedding of [lib.ts] (and of the [memory_write],
    [scratchpad] and [memory_read] tools of the extension entry point)
    together with the properties stated about them.

    Conventions of the embedding.
    - A JavaScript string is a sequence of UTF-16 code units.  The model
      takes the code units below 256 (Latin-1), that is the Standard
      Library's [string] of [ascii] characters.  Line feed is code 10,
      carriage return code 13, the no-break space code 160.
    - [undefined] and a thrown exception are made explicit: an absent
      value is [None], a function that may throw returns a [result].
    - The file system is a finite map from paths to file contents plus a
      map from directories to their entry names; the wall clock is passed
      in as a parameter.  Creating a directory and writing a file are the
      calls that complete: a call of [fs.mkdirSync] or [fs.writeFileSync]
      that throws is not in the model, and no statement says that a tool
      does not throw there.
    - A number is compared with a length only; it is a rational, an
      infinity or [NaN]. *)

From Stdlib Require Import Ascii String ZArith QArith Bool Lia DecimalString.
From stdpp Require Import base option list gmap strings sorting.

Local Open Scope Z_scope.
Local Open Scope nat_scope.

#[local] Arguments String.append !s1 s2 : simpl nomatch.

(** ** JavaScript strings *)

Module Js.

Definition LF : ascii := "010"%char.
Definition CR : ascii := "013"%char.
Definition nl : string := String LF EmptyString.

Definition code (c : ascii) : nat := nat_of_ascii c.

Definition between (lo hi : nat) (c : ascii) : bool :=
  (lo <=? code c) && (code c <=? hi).

(** [LineTerminator] of the language: the characters [.] never matches. *)
Definition isLineTerminator (c : ascii) : bool :=
  Ascii.eqb c LF || Ascii.eqb c CR.

(** [WhiteSpace] and [LineTerminator]: what [trim] strips and [\s] matches
    (tab, LF, VT, FF, CR, space, no-break space). *)
Definition isWhiteSpace (c : ascii) : bool :=
  between 9 13 c || (code c =? 32) || (code c =? 160).

(** [\w] is [[A-Za-z0-9_]]. *)
Definition isWordChar (c : ascii) : bool :=
  between 65 90 c || between 97 122 c || between 48 57 c || (code c =? 95).

(** [toLowerCase] on one code unit: A-Z, and the Latin-1 capitals
    192-222 except the multiplication sign 215. *)
Definition lowerChar (c : ascii) : ascii :=
  if between 65 90 c || (between 192 222 c && negb (code c =? 215))
  then ascii_of_nat (code c + 32) else c.

Fixpoint toLowerCase (s : string) : string :=
  match s with
  | EmptyString => EmptyString
  | String c s' => String (lowerChar c) (toLowerCase s')
  end.

Fixpoint all (p : ascii -> bool) (s : string) : bool :=
  match s with
  | EmptyString => true
  | String c s' => p c && all p s'
  end.

(** A string is truthy when it is not empty. *)
Definition nonEmpty (s : string) : bool :=
  match s with EmptyString => false | _ => true end.

Fixpoint trimStart (s : string) : string :=
  match s with
  | EmptyString => EmptyString
  | String c s' => if isWhiteSpace c then trimStart s' else s
  end.

Fixpoint trimEnd (s : string) : string :=
  match s with
  | EmptyString => EmptyString
  | String c s' =>
      match trimEnd s' with
      | EmptyString => if isWhiteSpace c then EmptyString else String c EmptyString
      | t => String c t
      end
  end.

Definition trim (s : string) : string := trimEnd (trimStart s).

(** [s.split(sep)] for a one-character separator: never empty. *)
Fixpoint split (sep : ascii) (s : string) : list string :=
  match s with
  | EmptyString => [EmptyString]
  | String c s' =>
      if Ascii.eqb c sep then EmptyString :: split sep s'
      else match split sep s' with
           | l :: ls => String c l :: ls
           | [] => [String c EmptyString]
           end
  end.

(** [parts.join(sep)]. *)
Fixpoint join (sep : string) (parts : list string) : string :=
  match parts with
  | [] => EmptyString
  | [p] => p
  | p :: ps => p +:+ sep +:+ join sep ps
  end.

Fixpoint startsWith (s p : string) {struct p} : bool :=
  match p, s with
  | EmptyString, _ => true
  | String a p', String b s' => Ascii.eqb a b && startsWith s' p'
  | String _ _, EmptyString => false
  end.

Fixpoint drop (n : nat) (s : string) : string :=
  match n, s with
  | O, _ => s
  | S n', String _ s' => drop n' s'
  | S _, EmptyString => EmptyString
  end.

Definition endsWith (s p : string) : bool :=
  (String.length p <=? String.length s) &&
  String.eqb (drop (String.length s - String.length p) s) p.

Fixpoint includes (s p : string) : bool :=
  startsWith s p ||
  match s with
  | EmptyString => false
  | String _ s' => includes s' p
  end.

(** [s.slice(0, n)]. *)
Fixpoint slice0 (n : nat) (s : string) : string :=
  match n, s with
  | S n', String c s' => String c (slice0 n' s')
  | _, _ => EmptyString
  end.

End Js.

(** ** Regular expressions

    The patterns of the source use literals, character classes, [.],
    alternation, [+] and [*], anchored with [^] (and some with [$]); none
    has the [m], [s], [i] or [u] flag.  They are kept as syntax and run by
    Brzozowski derivatives. *)

Module Re.

Inductive re : Type :=
  | Void : re
  | Eps : re
  | Cls : (ascii -> bool) -> re
  | Seq : re -> re -> re
  | Alt : re -> re -> re
  | Star : re -> re.

Definition Chr (c : ascii) : re := Cls (Ascii.eqb c).
Definition Plus (r : re) : re := Seq r (Star r).

(** [.] matches any character except a line terminator. *)
Definition Dot : re := Cls (fun c => negb (Js.isLineTerminator c)).
(** [\s] and [\w]. *)
Definition Space : re := Cls Js.isWhiteSpace.
Definition Word : re := Cls Js.isWordChar.

Fixpoint Lit (s : string) : re :=
  match s with
  | EmptyString => Eps
  | String c s' => Seq (Chr c) (Lit s')
  end.

Fixpoint OneOf (rs : list re) : re :=
  match rs with
  | [] => Void
  | [r] => r
  | r :: rs' => Alt r (OneOf rs')
  end.

Fixpoint nullable (r : re) : bool :=
  match r with
  | Void => false
  | Eps => true
  | Cls _ => false
  | Seq r1 r2 => nullable r1 && nullable r2
  | Alt r1 r2 => nullable r1 || nullable r2
  | Star _ => true
  end.

Fixpoint deriv (c : ascii) (r : re) : re :=
  match r with
  | Void => Void
  | Eps => Void
  | Cls p => if p c then Eps else Void
  | Seq r1 r2 =>
      Alt (Seq (deriv c r1) r2) (if nullable r1 then deriv c r2 else Void)
  | Alt r1 r2 => Alt (deriv c r1) (deriv c r2)
  | Star r1 => Seq (deriv c r1) (Star r1)
  end.

(** [/^r$/.test(s)]: the whole input is a word of [r]. *)
Fixpoint matches (r : re) (s : string) : bool :=
  match s with
  | EmptyString => nullable r
  | String c s' => matches (deriv c r) s'
  end.

(** [/^r/.test(s)]: some prefix of the input is a word of [r]. *)
Fixpoint test (r : re) (s : string) : bool :=
  nullable r ||
  match s with
  | EmptyString => false
  | String c s' => test (deriv c r) s'
  end.

(** The words of a pattern. *)
Inductive lang : re -> string -> Prop :=
  | lang_eps : lang Eps EmptyString
  | lang_cls p c : p c = true -> lang (Cls p) (String c EmptyString)
  | lang_seq r1 r2 s1 s2 :
      lang r1 s1 -> lang r2 s2 -> lang (Seq r1 r2) (s1 +:+ s2)
  | lang_alt_l r1 r2 s : lang r1 s -> lang (Alt r1 r2) s
  | lang_alt_r r1 r2 s : lang r2 s -> lang (Alt r1 r2) s
  | lang_star_nil r : lang (Star r) EmptyString
  | lang_star_cons r s1 s2 :
      lang r s1 -> lang (Star r) s2 -> lang (Star r) (s1 +:+ s2).

End Re.

(** ** Scratchpad (the checklist codec) *)

Record ScratchpadItem : Type := {
  done : bool;
  text : string;
  meta : string;
}.

(** [/^- \[([ xX])\] (.+)$/] *)
Definition itemRe : Re.re :=
  Re.Seq (Re.Lit "- [")
    (Re.Seq (Re.OneOf [Re.Chr " "; Re.Chr "x"; Re.Chr "X"])
       (Re.Seq (Re.Lit "] ") (Re.Plus Re.Dot))).

(** [/^<!--.*-->$/] *)
Definition commentRe : Re.re :=
  Re.Seq (Re.Lit "<!--") (Re.Seq (Re.Star Re.Dot) (Re.Lit "-->")).

(** [line.match(itemRe)]: the prefix before each group has a fixed length,
    so group 1 is the character at index 3 and group 2 starts at index 6. *)
Definition matchItem (line : string) : option (string * string) :=
  if Re.matches itemRe line
  then Some (Js.slice0 1 (Js.drop 3 line), Js.drop 6 line)
  else None.

(** One turn of the loop of [parseScratchpad] at index [i]. *)
Definition parseStep (lines : list string) (items : list ScratchpadItem)
    (i : nat) : list ScratchpadItem :=
  let line := nth i lines EmptyString in
  match matchItem line with
  | Some (g1, g2) =>
      let meta :=
        if (0 <? i) && Re.matches commentRe (nth (i - 1) lines EmptyString)
        then nth (i - 1) lines EmptyString
        else EmptyString in
      items ++ [{| done := String.eqb (Js.toLowerCase g1) "x";
                   text := g2;
                   meta := meta |}]
  | None => items
  end.

Definition parseScratchpad (content : string) : list ScratchpadItem :=
  let lines := Js.split Js.LF content in
  foldl (parseStep lines) [] (seq 0 (length lines)).

Definition itemLine (item : ScratchpadItem) : string :=
  let checkbox := if done item then "[x]" else "[ ]" in
  "- " +:+ checkbox +:+ " " +:+ text item.

Definition serializeStep (lines : list string) (item : ScratchpadItem)
    : list string :=
  let lines := if Js.nonEmpty (meta item) then lines ++ [meta item] else lines in
  lines ++ [itemLine item].

Definition serializeScratchpad (items : list ScratchpadItem) : string :=
  let lines := foldl serializeStep ["# Scratchpad"; EmptyString] items in
  Js.join Js.nl lines +:+ Js.nl.

(** The loop of [parseScratchpad] read as a recursion over the lines, the
    previous line carried along ([None] before the first line). *)
Definition metaOf (prev : option string) : string :=
  match prev with
  | Some p => if Re.matches commentRe p then p else EmptyString
  | None => EmptyString
  end.

Fixpoint parseFrom (prev : option string) (lines : list string)
    : list ScratchpadItem :=
  match lines with
  | [] => []
  | line :: rest =>
      match matchItem line with
      | Some (g1, g2) =>
          {| done := String.eqb (Js.toLowerCase g1) "x";
             text := g2;
             meta := metaOf prev |} :: parseFrom (Some line) rest
      | None => parseFrom (Some line) rest
      end
  end.

(** The lines [serializeScratchpad] pushes for the items. *)
Definition itemLines (item : ScratchpadItem) : list string :=
  (if Js.nonEmpty (meta item) then [meta item] else []) ++ [itemLine item].

(** *** Vocabulary of the statements *)

(** No character of [s] is a line terminator (line feed, carriage return):
    every character is one that [.] matches. *)
Definition noLineTerminator (s : string) : Prop :=
  Js.all (fun c => negb (Js.isLineTerminator c)) s = true.

Definition isBox (c : ascii) : Prop :=
  c = " "%char \/ c = "x"%char \/ c = "X"%char.

(** A full-line HTML comment: the line matches [commentRe]. *)
Definition validMeta (m : string) : Prop :=
  m = EmptyString \/ Re.matches commentRe m = true.

(** [s] holds no newline (line feed) character. *)
Definition noNewline (s : string) : Prop :=
  Js.all (fun c => negb (Ascii.eqb c Js.LF)) s = true.

(** The precondition of the round-trip law as the specification words it:
    the text holds no newline and is not itself a checklist line, and a
    non-empty meta is a full-line comment. *)
Definition statedRoundTripItem (item : ScratchpadItem) : Prop :=
  noNewline (text item) /\
  Re.matches itemRe (text item) = false /\
  validMeta (meta item).

(** What the round trip needs of an item: the text is not empty and
    holds no line terminator, and a non-empty meta is a full-line
    comment. *)
Definition roundTripItem (item : ScratchpadItem) : Prop :=
  text item <> EmptyString /\
  noLineTerminator (text item) /\
  validMeta (meta item).

(** The stated precondition with the two conditions it misses: the text
    is not empty, and the newline characters it excludes are all the line
    terminators. *)
Definition amendedRoundTripItem (item : ScratchpadItem) : Prop :=
  text item <> EmptyString /\
  noLineTerminator (text item) /\
  Re.matches itemRe (text item) = false /\
  validMeta (meta item).

(** What every parsed item satisfies. *)
Definition parsedItem (item : ScratchpadItem) : Prop :=
  text item <> EmptyString /\
  noNewline (text item) /\
  (meta item = EmptyString \/
   (Re.matches commentRe (meta item) = true /\
    Js.startsWith (meta item) "<!--" = true /\
    Js.endsWith (meta item) "-->" = true)).

(** ** Housekeeping titles *)

(** A pattern anchored at the start, and at the end when [toEnd]. *)
Record pattern : Type := {
  body : Re.re;
  toEnd : bool;
}.

Definition patternTest (p : pattern) (s : string) : bool :=
  if toEnd p then Re.matches (body p) s else Re.test (body p) s.

Definition words (ws : list string) : Re.re := Re.OneOf (map Re.Lit ws).

Definition housekeepingPatterns : list pattern :=
  [ (* /^(clear|review|read)\s+(done|scratchpad|today|daily)/ *)
    {| body := Re.Seq (words ["clear"; "review"; "read"])
                 (Re.Seq (Re.Plus Re.Space)
                    (words ["done"; "scratchpad"; "today"; "daily"]));
       toEnd := false |};
    (* /^-\s+(no done|scratchpad|cleared|reviewed|task is)/ *)
    {| body := Re.Seq (Re.Lit "-")
                 (Re.Seq (Re.Plus Re.Space)
                    (words ["no done"; "scratchpad"; "cleared"; "reviewed";
                            "task is"]));
       toEnd := false |};
    (* /^scratchpad\s+(content|management|maintenance|reviewed|items)/ *)
    {| body := Re.Seq (Re.Lit "scratchpad")
                 (Re.Seq (Re.Plus Re.Space)
                    (words ["content"; "management"; "maintenance";
                            "reviewed"; "items"]));
       toEnd := false |};
    (* /^\(untitled\)$/ *)
    {| body := Re.Lit "(untitled)"; toEnd := true |};
    (* /^\/\w+$/ *)
    {| body := Re.Seq (Re.Lit "/") (Re.Plus Re.Word); toEnd := true |};
    (* /^write daily log/ *)
    {| body := Re.Lit "write daily log"; toEnd := false |} ].

Definition isHousekeeping (title : string) : bool :=
  let lower := Js.toLowerCase title in
  existsb (fun p => patternTest p lower) housekeepingPatterns.

(** Two characters that are equal, or the two cases of one letter A-Z. *)
Definition sameLetter (a b : ascii) : bool :=
  Ascii.eqb a b ||
  (Js.between 65 90 a && (Js.code b =? Js.code a + 32)) ||
  (Js.between 65 90 b && (Js.code a =? Js.code b + 32)).

(** [t] is a case variant of [s]: the same text up to the case of letters. *)
Fixpoint caseVariant (s t : string) : bool :=
  match s, t with
  | EmptyString, EmptyString => true
  | String a s', String b t' => sameLetter a b && caseVariant s' t'
  | _, _ => false
  end.

(** ** Paths

    [path.join] of Node.js on a POSIX system, read segment by segment:
    the non-empty arguments are joined with [/] and the result is
    normalised (empty and [.] segments dropped, [..] resolved). *)

Module Path.

Definition sep : ascii := "/"%char.

Definition normalizeStep (allowAboveRoot : bool) (res : list string)
    (seg : string) : list string :=
  if String.eqb seg EmptyString || String.eqb seg "." then res
  else if String.eqb seg ".." then
    match last res with
    | Some l =>
        if String.eqb l ".."
        then (if allowAboveRoot then res ++ [".."] else res)
        else removelast res
    | None => if allowAboveRoot then [".."] else []
    end
  else res ++ [seg].

Definition normalizeString (path : string) (allowAboveRoot : bool) : string :=
  Js.join "/" (foldl (normalizeStep allowAboveRoot) [] (Js.split sep path)).

Definition normalize (path : string) : string :=
  if negb (Js.nonEmpty path) then "."
  else
    let isAbsolute := Js.startsWith path "/" in
    let trailingSeparator := Js.endsWith path "/" in
    let path := normalizeString path (negb isAbsolute) in
    if negb (Js.nonEmpty path) then
      (if isAbsolute then "/" else if trailingSeparator then "./" else ".")
    else
      let path := if trailingSeparator then path +:+ "/" else path in
      if isAbsolute then "/" +:+ path else path.

Definition join (args : list string) : string :=
  match List.filter Js.nonEmpty args with
  | [] => "."
  | parts => normalize (Js.join "/" parts)
  end.

End Path.

(** ** Config *)

Record MemoryConfig : Type := {
  memoryDir : string;
  memoryFile : string;
  scratchpadFile : string;
  dailyDir : string;
  notesDir : string;
  contextFiles : list string;
  autocommit : bool;
}.

(** [x ?? d] *)
Definition orElse {A : Type} (x : option A) (d : A) : A :=
  match x with Some v => v | None => d end.

(** The environment is a record of optional strings, looked up by name. *)
Definition buildConfig (env : gmap string string) : MemoryConfig :=
  let memoryDir :=
    orElse (env !! "PI_MEMORY_DIR")
      (Path.join [orElse (env !! "HOME") "~"; ".pi"; "agent"; "memory"]) in
  let dailyDir :=
    orElse (env !! "PI_DAILY_DIR") (Path.join [memoryDir; "daily"]) in
  let contextFiles :=
    List.filter Js.nonEmpty
      (map Js.trim
         (Js.split "," (orElse (env !! "PI_CONTEXT_FILES") EmptyString))) in
  let autocommit :=
    bool_decide (env !! "PI_AUTOCOMMIT" = Some "1") ||
    bool_decide (env !! "PI_AUTOCOMMIT" = Some "true") in
  {| memoryDir := memoryDir;
     memoryFile := Path.join [memoryDir; "MEMORY.md"];
     scratchpadFile := Path.join [memoryDir; "SCRATCHPAD.md"];
     dailyDir := dailyDir;
     notesDir := Path.join [memoryDir; "notes"];
     contextFiles := contextFiles;
     autocommit := autocommit |}.

(** An entry of a comma-separated list holds no comma. *)
Definition noComma (s : string) : Prop :=
  Js.all (fun c => negb (Ascii.eqb c ",")) s = true.

(** ** Files

    The file system as the code sees it: the content of the files it can
    read, the entry names of the directories it can list, and the
    directories known to exist.  Creating a directory always succeeds. *)

Record FileSystem : Type := {
  files : gmap string string;
  entries : gmap string (list string);
  dirs : gset string;
}.

(** [readFileSafe]: [None] is the [null] returned when reading throws. *)
Definition readFileSafe (fs : FileSystem) (filePath : string)
    : option string :=
  files fs !! filePath.

(** [fs.readdirSync]: [None] when it throws. *)
Definition readdirSync (fs : FileSystem) (dir : string)
    : option (list string) :=
  entries fs !! dir.

Definition mkdirSync (dir : string) (fs : FileSystem) : FileSystem :=
  {| files := files fs; entries := entries fs; dirs := {[ dir ]} ∪ dirs fs |}.

Definition dailyPath (dailyDir date : string) : string :=
  Path.join [dailyDir; date +:+ ".md"].

Definition ensureDirs (config : MemoryConfig) (fs : FileSystem) : FileSystem :=
  let fs := mkdirSync (memoryDir config) fs in
  let fs := mkdirSync (dailyDir config) fs in
  mkdirSync (notesDir config) fs.

(** ** Memory context builder *)

Definition nl2 : string := Js.nl +:+ Js.nl.

(** A section pushed when [content?.trim()] is truthy. *)
Definition fileSection (heading : string) (content : option string)
    : list string :=
  match content with
  | Some content =>
      if Js.nonEmpty (Js.trim content)
      then ["## " +:+ heading +:+ nl2 +:+ Js.trim content]
      else []
  | None => []
  end.

Definition contextStep (config : MemoryConfig) (fs : FileSystem)
    (sections : list string) (fileName : string) : list string :=
  let filePath := Path.join [memoryDir config; fileName] in
  let content := readFileSafe fs filePath in
  sections ++ fileSection fileName content.

Definition isOpen (i : ScratchpadItem) : bool := negb (done i).

Definition scratchpadSection (scratchpad : option string) : list string :=
  match scratchpad with
  | Some scratchpad =>
      if Js.nonEmpty (Js.trim scratchpad) then
        let openItems := List.filter isOpen (parseScratchpad scratchpad) in
        if 0 <? length openItems
        then ["## SCRATCHPAD.md (working context)" +:+ nl2 +:+
              serializeScratchpad openItems]
        else []
      else []
  | None => []
  end.

(** The sections in the order they are pushed; [today] and [yesterday]
    are what [todayStr()] and [yesterdayStr()] return at the call. *)
Definition buildSections (config : MemoryConfig) (today yesterday : string)
    (fs : FileSystem) : list string :=
  let sections := foldl (contextStep config fs) [] (contextFiles config) in
  let longTerm := readFileSafe fs (memoryFile config) in
  let sections := sections ++ fileSection "MEMORY.md (long-term)" longTerm in
  let scratchpad := readFileSafe fs (scratchpadFile config) in
  let sections := sections ++ scratchpadSection scratchpad in
  let todayContent := readFileSafe fs (dailyPath (dailyDir config) today) in
  let sections :=
    sections ++
    fileSection ("Daily log: " +:+ today +:+ " (today)") todayContent in
  let yesterdayContent :=
    readFileSafe fs (dailyPath (dailyDir config) yesterday) in
  sections ++
  fileSection ("Daily log: " +:+ yesterday +:+ " (yesterday)") yesterdayContent.

Definition separator : string := nl2 +:+ "---" +:+ nl2.

(** The end of [buildMemoryContext]: nothing for no section, else the
    sections joined under the top-level heading. *)
Definition assemble (sections : list string) : string :=
  if length sections =? 0 then EmptyString
  else "# Memory" +:+ nl2 +:+ Js.join separator sections.

Definition buildMemoryContext (config : MemoryConfig)
    (today yesterday : string) (fs : FileSystem) : FileSystem * string :=
  let fs := ensureDirs config fs in
  let sections := buildSections config today yesterday fs in
  (fs, assemble sections).

(** The sections pushed before and after the checklist's. *)
Definition leadingSections (config : MemoryConfig) (fs : FileSystem)
    : list string :=
  concat (map (fun fileName =>
                 fileSection fileName
                   (readFileSafe fs (Path.join [memoryDir config; fileName])))
              (contextFiles config)) ++
  fileSection "MEMORY.md (long-term)" (readFileSafe fs (memoryFile config)).

Definition dailySections (config : MemoryConfig) (today yesterday : string)
    (fs : FileSystem) : list string :=
  fileSection ("Daily log: " +:+ today +:+ " (today)")
    (readFileSafe fs (dailyPath (dailyDir config) today)) ++
  fileSection ("Daily log: " +:+ yesterday +:+ " (yesterday)")
    (readFileSafe fs (dailyPath (dailyDir config) yesterday)).



(** A file that is absent or blank: it contributes no section. *)
Definition absentOrBlank (fs : FileSystem) (filePath : string) : Prop :=
  forall content,
    readFileSafe fs filePath = Some content -> Js.trim content = EmptyString.

Definition emptyRoot : FileSystem :=
  {| files := ∅; entries := ∅; dirs := ∅ |}.

(** ** Search *)

(** A number of the language, as far as it is compared with a length: a
    finite number (every finite double is a rational), an infinity, or
    [NaN]. *)
Inductive number : Type :=
  | Finite (q : Q)
  | Infinity (negative : bool)
  | NaN.

(** [n < m] for a length [n]; false when [m] is [NaN]. *)
Definition ltLength (n : nat) (m : number) : bool :=
  match m with
  | Finite q => negb (Qle_bool q (inject_Z (Z.of_nat n)))
  | Infinity negative => negb negative
  | NaN => false
  end.

(** [n >= m] for a length [n]; false when [m] is [NaN]. *)
Definition geLength (n : nat) (m : number) : bool :=
  match m with
  | Finite q => Qle_bool q (inject_Z (Z.of_nat n))
  | Infinity negative => negative
  | NaN => false
  end.

(** The number written as an integer literal. *)
Definition integer (z : Z) : number := Finite (inject_Z z).

Module Search.

Record LineResult : Type := {
  file : string;
  line : nat;
  text : string;
}.

Record SearchResult : Type := {
  fileMatches : list string;
  lineResults : list LineResult;
}.

(** [names.includes(name)] *)
Definition listIncludes (names : list string) (name : string) : bool :=
  existsb (String.eqb name) names.

(** The loop over the lines of one file, from index [i] on; [lines] are
    the lines from that index. *)
Fixpoint searchLines (needle displayName : string) (maxResults : number)
    (lines : list string) (i : nat) (lineResults : list LineResult)
    : list LineResult :=
  match lines with
  | [] => lineResults
  | l :: rest =>
      if ltLength (length lineResults) maxResults then
        searchLines needle displayName maxResults rest (S i)
          (if Js.includes (Js.toLowerCase l) needle
           then lineResults ++
                [{| file := displayName; line := i + 1;
                    text := Js.trimEnd l |}]
           else lineResults)
      else lineResults
  end.

Definition searchFile (fs : FileSystem) (needle : string)
    (maxResults : number)
    (filePath displayName : string) (st : SearchResult) : SearchResult :=
  let fileMatches :=
    if Js.includes (Js.toLowerCase displayName) needle &&
       negb (listIncludes (fileMatches st) displayName)
    then fileMatches st ++ [displayName]
    else fileMatches st in
  match readFileSafe fs filePath with
  | None => {| fileMatches := fileMatches; lineResults := lineResults st |}
  | Some content =>
      if negb (Js.nonEmpty content)
      then {| fileMatches := fileMatches; lineResults := lineResults st |}
      else
        let lines := Js.split Js.LF content in
        {| fileMatches := fileMatches;
           lineResults :=
             searchLines needle displayName maxResults lines 0
               (lineResults st) |}
  end.

Definition displayName (prefix f : string) : string :=
  if Js.nonEmpty prefix then prefix +:+ "/" +:+ f else f.

(** The loop over the files of one directory, with its [break]. *)
Fixpoint searchFiles (fs : FileSystem) (needle : string)
    (maxResults : number)
    (dir prefix : string) (names : list string) (st : SearchResult)
    : SearchResult :=
  match names with
  | [] => st
  | f :: rest =>
      if geLength (length (lineResults st)) maxResults then st
      else
        searchFiles fs needle maxResults dir prefix rest
          (searchFile fs needle maxResults (Path.join [dir; f])
             (displayName prefix f) st)
  end.

(** [names.sort()]: ascending by code units. *)
Definition sort (names : list string) : list string :=
  merge_sort String.le names.

Definition searchDir (fs : FileSystem) (needle : string)
    (maxResults : number)
    (dir prefix : string) (st : SearchResult) : SearchResult :=
  match readdirSync fs dir with
  | None => st
  | Some names =>
      let names := sort (List.filter (fun f => Js.endsWith f ".md") names) in
      searchFiles fs needle maxResults dir prefix names st
  end.

(** [maxResults] is [None] when the argument is left out (default 20). *)
Definition searchMemory (config : MemoryConfig) (query : string)
    (maxResults : option number) (fs : FileSystem) : SearchResult :=
  let maxResults := orElse maxResults (integer 20) in
  let needle := Js.toLowerCase query in
  let st := {| fileMatches := []; lineResults := [] |} in
  let st := searchDir fs needle maxResults (memoryDir config) EmptyString st in
  let st := searchDir fs needle maxResults (dailyDir config) "daily" st in
  searchDir fs needle maxResults (notesDir config) "notes" st.

End Search.

(** The directories searched, each with the prefix of its display names. *)
Definition searchedDirs (config : MemoryConfig) : list (string * string) :=
  [ (memoryDir config, EmptyString);
    (dailyDir config, "daily");
    (notesDir config, "notes") ].


(** ** Session scanner

    A session log is read line by line and each line goes through
    [JSON.parse].  The model starts from the parsed lines: a line is
    [None] when [JSON.parse] throws on it, else the value it returns. *)

#[local] Unset Elimination Schemes.
Inductive json : Type :=
  | JNull : json
  | JBool : bool -> json
  | JNum : Q -> json
  | JStr : string -> json
  | JArr : list json -> json
  | JObj : list (string * json) -> json.
#[local] Set Elimination Schemes.

(** A JavaScript value that came out of [JSON.parse], or [undefined]. *)
Definition value : Type := option json.

(** An expression that may throw. *)
Inductive result (A : Type) : Type :=
  | Ok : A -> result A
  | Throw : result A.
Arguments Ok {A} _.
Arguments Throw {A}.

Definition bind {A B : Type} (r : result A) (k : A -> result B) : result B :=
  match r with
  | Ok a => k a
  | Throw => Throw
  end.

Notation "'let*' x ':=' r 'in' k" := (bind r (fun x => k))
  (at level 10, x name, r at level 100, k at level 200, only parsing).

Fixpoint field (k : string) (fields : list (string * json)) : value :=
  match fields with
  | [] => None
  | (k', v) :: rest => if String.eqb k k' then Some v else field k rest
  end.

(** [v.k]: throws on [null] and [undefined]; the keys read by the scanner
    are own properties of objects only. *)
Definition get (v : value) (k : string) : result value :=
  match v with
  | None => Throw
  | Some JNull => Throw
  | Some (JObj fields) => Ok (field k fields)
  | Some _ => Ok None
  end.

(** [v?.k] *)
Definition getOpt (v : value) (k : string) : value :=
  match v with
  | Some (JObj fields) => field k fields
  | _ => None
  end.

Definition truthy (v : value) : bool :=
  match v with
  | None => false
  | Some JNull => false
  | Some (JBool b) => b
  | Some (JNum q) => negb (Qeq_bool q 0)
  | Some (JStr s) => Js.nonEmpty s
  | Some (JArr _) => true
  | Some (JObj _) => true
  end.

(** [v === "s"] *)
Definition isStr (v : value) (s : string) : bool :=
  match v with
  | Some (JStr s') => String.eqb s' s
  | _ => false
  end.

Definition LOOKBACK_MS : Z := 24 * 60 * 60 * 1000.

(** The record returned for a session.  [timestamp], [title],
    [parentSession] and [cwd] hold whatever value the log gives them (a
    name entry need not hold a string).  The accumulated [cost], a sum of
    floating-point numbers that decides nothing in the scan, is left
    out. *)
Record SessionInfo : Type := {
  file : string;
  timestamp : value;
  title : json;
  isChild : bool;
  parentSession : value;
  cwd : json;
}.

(** How the first loop ends: by [return null] at some line, or at the
    end of the file with the header and the title found. *)
Inductive firstLoop : Type :=
  | Returned (lineNum : nat)
  | Completed (header : json) (title : json).

(** The body of the [try] for a line after the header, as far as the
    title goes; the cost is accumulated after the title is assigned and
    cannot change it. *)
Definition entryTitle (line : option json) (title : json) : json :=
  match line with
  | None => title
  | Some entry =>
      match get (Some entry) "type" with
      | Throw => title
      | Ok type =>
          if isStr type "session_info" && truthy (getOpt (Some entry) "name")
          then orElse (getOpt (Some entry) "name") title
          else title
      end
  end.

Section Scanner.

(** [new Date(v).getTime()]: [None] for an invalid date. *)
Variable dateTime : json -> option Z.

Definition isStale (cutoffTime : Z) (ts : value) : bool :=
  match ts with
  | Some v =>
      match dateTime v with
      | Some t => (t <? cutoffTime)%Z
      | None => false
      end
  | None => false
  end.

Fixpoint firstPass (cutoffTime : Z) (lines : list (option json))
    (lineNum : nat) (header title : json) : firstLoop :=
  match lines with
  | [] => Completed header title
  | line :: rest =>
      let lineNum := S lineNum in
      if lineNum =? 1 then
        match line with
        | None => Returned lineNum
        | Some header =>
            match get (Some header) "timestamp" with
            | Throw => Returned lineNum
            | Ok ts =>
                if truthy ts && isStale cutoffTime ts then Returned lineNum
                else firstPass cutoffTime rest lineNum header title
            end
        end
      else firstPass cutoffTime rest lineNum header (entryTitle line title)
  end.

(** [content.find((c) => c.type === "text")] *)
Fixpoint findText (content : list json) : result value :=
  match content with
  | [] => Ok None
  | c :: rest =>
      let* type := get (Some c) "type" in
      if isStr type "text" then Ok (Some c) else findText rest
  end.

(** [v.slice(0, 80)] *)
Definition slice80 (v : value) : result json :=
  match v with
  | Some (JStr s) => Ok (JStr (Js.slice0 80 s))
  | Some (JArr l) => Ok (JArr (firstn 80 l))
  | _ => Throw
  end.

(** The body of the [try] of the second loop: [Ok None] when the loop
    goes on, [Ok (Some t)] when it breaks with title [t]. *)
Definition userTitle (line : option json) (title : json)
    : result (option json) :=
  match line with
  | None => Throw
  | Some entry =>
      let* type := get (Some entry) "type" in
      if isStr type "message" &&
         isStr (getOpt (getOpt (Some entry) "message") "role") "user"
      then
        let* content := get (getOpt (Some entry) "message") "content" in
        match content with
        | Some (JStr s) => Ok (Some (JStr (Js.slice0 80 s)))
        | Some (JArr parts) =>
            let* textPart := findText parts in
            if truthy textPart then
              let* text := get textPart "text" in
              let* t := slice80 text in
              Ok (Some t)
            else Ok (Some title)
        | _ => Ok (Some title)
        end
      else Ok None
  end.

Fixpoint secondPass (lines : list (option json)) (title : json) : json :=
  match lines with
  | [] => title
  | line :: rest =>
      match userTitle line title with
      | Throw => secondPass rest title
      | Ok None => secondPass rest title
      | Ok (Some t) => t
      end
  end.

(** [logs] gives the parsed lines of the files that can be read; [now]
    is [Date.now()]. *)
Definition scanSession (now : Z) (logs : gmap string (list (option json)))
    (filePath : string) : option SessionInfo :=
  let cutoffTime := (now - LOOKBACK_MS)%Z in
  match logs !! filePath with
  | None => None
  | Some lines =>
      match firstPass cutoffTime lines 0 JNull (JStr EmptyString) with
      | Returned _ => None
      | Completed header title =>
          if negb (truthy (getOpt (Some header) "timestamp")) then None
          else
            let title :=
              if negb (truthy (Some title)) then secondPass lines title
              else title in
            Some {| file := filePath;
                    timestamp := getOpt (Some header) "timestamp";
                    title := if truthy (Some title) then title
                             else JStr "(untitled)";
                    isChild := truthy (getOpt (Some header) "parentSession");
                    parentSession :=
                      if truthy (getOpt (Some header) "parentSession")
                      then getOpt (Some header) "parentSession"
                      else None;
                    cwd := if truthy (getOpt (Some header) "cwd")
                           then orElse (getOpt (Some header) "cwd")
                                  (JStr EmptyString)
                           else JStr EmptyString |}
      end
  end.

End Scanner.

(** *** A clock for the examples

    [new Date(v).getTime()] for the two shapes of time stamp the examples
    use: a number of milliseconds, and a string in the format written by
    [toISOString], [YYYY-MM-DDTHH:mm:ss.sssZ].  Every other value is taken
    as an invalid date. *)

Fixpoint digits (s : string) (acc : Z) : option Z :=
  match s with
  | EmptyString => Some acc
  | String c s' =>
      if Js.between 48 57 c
      then digits s' (10 * acc + Z.of_nat (Js.code c - 48))%Z
      else None
  end.

Definition daysFromCivil (y m d : Z) : Z :=
  (let y := if m <=? 2 then y - 1 else y in
   let era := y / 400 in
   let yoe := y - era * 400 in
   let mp := (m + 9) mod 12 in
   let doy := (153 * mp + 2) / 5 + d - 1 in
   let doe := yoe * 365 + yoe / 4 - yoe / 100 + doy in
   era * 146097 + doe - 719468)%Z.

Definition daysInMonth (y m : Z) : Z :=
  (if m =? 2 then
     if ((y mod 4 =? 0) && negb (y mod 100 =? 0)) || (y mod 400 =? 0)
     then 29 else 28
   else if (m =? 4) || (m =? 6) || (m =? 9) || (m =? 11) then 30 else 31)%Z.

Definition parseIso (s : string) : option Z :=
  let part i n := digits (String.substring i n s) 0%Z in
  let at_ i c := String.eqb (String.substring i 1 s) c in
  if (String.length s =? 24) && at_ 4 "-" && at_ 7 "-" && at_ 10 "T" &&
     at_ 13 ":" && at_ 16 ":" && at_ 19 "." && at_ 23 "Z"
  then
    match part 0 4, part 5 2, part 8 2, part 11 2, part 14 2, part 17 2,
          part 20 3 with
    | Some y, Some m, Some d, Some hh, Some mm, Some ss, Some ms =>
        if ((1 <=? m) && (m <=? 12) && (1 <=? d) && (d <=? daysInMonth y m) &&
            (hh <=? 23) && (mm <=? 59) && (ss <=? 59))%Z
        then Some ((((daysFromCivil y m d * 24 + hh) * 60 + mm) * 60 + ss)
                   * 1000 + ms)%Z
        else None
    | _, _, _, _, _, _, _ => None
    end
  else None.

Definition clockTime (v : json) : option Z :=
  match v with
  | JNum q =>
      let t := Z.quot (Qnum q) (Zpos (Qden q)) in
      if (Z.abs t <=? 8640000000000000)%Z then Some t else None
  | JStr s => parseIso s
  | _ => None
  end.

(** *** Vocabulary of the statements about the scanner *)

(** The header carries the time stamp [ts]: a [timestamp] value that the
    code takes as present (not empty, zero, false or null). *)
Definition hasTimestamp (header : json) (ts : json) : Prop :=
  getOpt (Some header) "timestamp" = Some ts /\ truthy (Some ts) = true.

(** The name given by a [session_info] entry with a name. *)
Definition sessionName (line : option json) : option json :=
  if isStr (getOpt line "type") "session_info" && truthy (getOpt line "name")
  then getOpt line "name"
  else None.

(** A user-authored message entry. *)
Definition isUserMessage (line : option json) : bool :=
  isStr (getOpt line "type") "message" &&
  isStr (getOpt (getOpt line "message") "role") "user".

(** The first text-typed part of a list payload, none of the parts before
    it being [null]. *)
Fixpoint firstTextPart (parts : list json) : option json :=
  match parts with
  | [] => None
  | JNull :: _ => None
  | c :: rest =>
      if isStr (getOpt (Some c) "type") "text" then Some c
      else firstTextPart rest
  end.

(** The text of a message: its string payload, or the text of the first
    text-typed part of its list payload. *)
Definition messageText (line : option json) : option string :=
  match getOpt (getOpt line "message") "content" with
  | Some (JStr s) => Some s
  | Some (JArr parts) =>
      match firstTextPart parts with
      | Some part =>
          match getOpt (Some part) "text" with
          | Some (JStr s) => Some s
          | _ => None
          end
      | None => None
      end
  | _ => None
  end.

(** The title derived from a message text: the text cut to 80
    characters, or the placeholder when the text is empty. *)
Definition titleOfText (s : string) : json :=
  if Js.nonEmpty s then JStr (Js.slice0 80 s) else JStr "(untitled)".

(** The title returned for a log whose first loop ended with title [t0]:
    the second loop runs when [t0] is empty, and the placeholder stands
    in for an empty result. *)
Definition finalTitle (lines : list (option json)) (t0 : json) : json :=
  let t := if negb (truthy (Some t0)) then secondPass lines t0 else t0 in
  if truthy (Some t) then t else JStr "(untitled)".

(** ** The [memory_write] tool

    [execute] of the extension entry point.  The parameters arrive as an
    object of strings; the tool result is its text and its details.  An
    identifier is resolved in the scope built by the declarations of the
    function; no enclosing scope of the module declares [filename]. *)

Module MemoryWrite.

Inductive exn : Type :=
  | ReferenceError (identifier : string).

Record ToolResult : Type := {
  text : string;
  details : list (string * string);
}.

Inductive outcome : Type :=
  | Returns (r : ToolResult)
  | Throws (e : exn).

(** The bindings of the function body: a name is bound to a string or to
    [undefined]. *)
Abbreviation scope := (gmap string (option string)).

(** [const { a, b, c } = params] *)
Definition destructure (names : list string) (params : gmap string string)
    (sc : scope) : scope :=
  foldl (fun sc name => <[name := params !! name]> sc) sc names.

(** Reading an identifier: a [ReferenceError] when nothing declares it. *)
Definition resolve (sc : scope) (identifier : string)
    : exn + option string :=
  match sc !! identifier with
  | Some v => inr v
  | None => inl (ReferenceError identifier)
  end.

Definition truthyStr (v : option string) : bool :=
  match v with
  | Some s => Js.nonEmpty s
  | None => false
  end.

Definition shortSessionId (sessionId : string) : string :=
  Js.slice0 8 sessionId.

(** [path.basename]: the last segment that is not empty. *)
Definition basename (p : string) : string :=
  orElse (last (List.filter Js.nonEmpty (Js.split Path.sep p))) EmptyString.

(** [fs.writeFileSync] when it completes: the file holds the data. *)
Definition writeFileSync (filePath data : string) (fs : FileSystem)
    : FileSystem :=
  {| files := <[filePath := data]> (files fs);
     entries := entries fs;
     dirs := dirs fs |}.

(** [gitCommit] stages and commits when autocommit is on and swallows
    every failure; it changes no memory file. *)
Definition gitCommit (message : string) (fs : FileSystem) : FileSystem := fs.

Definition stamp (ts sid : string) : string :=
  "<!-- " +:+ ts +:+ " [" +:+ sid +:+ "] -->".

Definition stampUpdated (ts sid : string) : string :=
  "<!-- last updated: " +:+ ts +:+ " [" +:+ sid +:+ "] -->".

Definition errorResult (message : string) : ToolResult :=
  {| text := message; details := [] |}.

Definition written (message filePath target mode sid ts : string)
    : ToolResult :=
  {| text := message;
     details := [("path", filePath); ("target", target); ("mode", mode);
                 ("sessionId", sid); ("timestamp", ts)] |}.

(** [config] stands for the directory constants of the module,
    [sessionId] for [ctx.sessionManager.getSessionId()], [now] for
    [nowTimestamp()] and [today] for [todayStr()]. *)
Definition execute (config : MemoryConfig) (sessionId now today : string)
    (params : gmap string string) (fs : FileSystem)
    : FileSystem * outcome :=
  let fs := ensureDirs config fs in
  let sc := destructure ["target"; "content"; "mode"] params ∅ in
  let target := orElse (params !! "target") EmptyString in
  let content := orElse (params !! "content") EmptyString in
  let mode := params !! "mode" in
  let sid := shortSessionId sessionId in
  let ts := now in
  if String.eqb target "note" then
    match resolve sc "filename" with
    | inl e => (fs, Throws e)
    | inr filename =>
        if negb (truthyStr filename) then
          (fs, Returns (errorResult
                          "Error: 'filename' is required for target 'note'."))
        else
          let safe := basename (orElse filename EmptyString) in
          let filePath := Path.join [notesDir config; safe] in
          let existing := orElse (readFileSafe fs filePath) EmptyString in
          if bool_decide (mode = Some "overwrite") then
            let stamped := stampUpdated ts sid +:+ Js.nl +:+ content in
            let fs := writeFileSync filePath stamped fs in
            let fs := gitCommit ("note: " +:+ safe) fs in
            (fs, Returns (written ("Wrote notes/" +:+ safe) filePath target
                            "overwrite" sid ts))
          else
            let separator :=
              if Js.nonEmpty (Js.trim existing) then nl2 else EmptyString in
            let stamped := stamp ts sid +:+ Js.nl +:+ content in
            let fs :=
              writeFileSync filePath (existing +:+ separator +:+ stamped) fs in
            let fs := gitCommit ("note: " +:+ safe) fs in
            (fs, Returns (written ("Appended to notes/" +:+ safe) filePath
                            target "append" sid ts))
    end
  else if String.eqb target "daily" then
    let filePath := dailyPath (dailyDir config) today in
    let existing := orElse (readFileSafe fs filePath) EmptyString in
    let existingSnippet :=
      if Js.nonEmpty (Js.trim existing)
      then nl2 +:+ "Existing daily log content:" +:+ Js.nl +:+ Js.trim existing
      else nl2 +:+ "Daily log was empty." in
    let separator :=
      if Js.nonEmpty (Js.trim existing) then nl2 else EmptyString in
    let stamped := stamp ts sid +:+ Js.nl +:+ content in
    let fs := writeFileSync filePath (existing +:+ separator +:+ stamped) fs in
    let fs := gitCommit ("daily: " +:+ today) fs in
    (fs, Returns (written ("Appended to daily log: " +:+ filePath +:+
                           existingSnippet) filePath target "append" sid ts))
  else
    let existing :=
      orElse (readFileSafe fs (memoryFile config)) EmptyString in
    let existingSnippet :=
      if Js.nonEmpty (Js.trim existing)
      then nl2 +:+ "Existing MEMORY.md content:" +:+ Js.nl +:+ Js.trim existing
      else nl2 +:+ "MEMORY.md was empty." in
    if bool_decide (mode = Some "overwrite") then
      let stamped := stampUpdated ts sid +:+ Js.nl +:+ content in
      let fs := writeFileSync (memoryFile config) stamped fs in
      let fs := gitCommit "memory: overwrite" fs in
      (fs, Returns (written ("Overwrote MEMORY.md" +:+ existingSnippet)
                      (memoryFile config) target "overwrite" sid ts))
    else
      let separator :=
        if Js.nonEmpty (Js.trim existing) then nl2 else EmptyString in
      let stamped := stamp ts sid +:+ Js.nl +:+ content in
      let fs :=
        writeFileSync (memoryFile config)
          (existing +:+ separator +:+ stamped) fs in
      let fs := gitCommit "memory: append" fs in
      (fs, Returns (written ("Appended to MEMORY.md" +:+ existingSnippet)
                      (memoryFile config) target "append" sid ts)).

(** What the claim asks of a call: a tool result whose text starts with
    [Error:], not an exception. *)
Definition returnsError (o : outcome) : Prop :=
  exists r, o = Returns r /\ Js.startsWith (text r) "Error:" = true.

End MemoryWrite.

(** The text whose lines are [lines], each ended by a newline. *)
Definition unlines (lines : list string) : string :=
  fold_right (fun l acc => l +:+ Js.nl +:+ acc) EmptyString lines.

(** ** The [scratchpad] tool

    [execute] of the checklist tool of the extension entry point, which
    reads the checklist file, changes the items and writes them back. *)

Module ScratchpadTool.

(** The test of the loop of [done] and [undo]: the item is not yet in the
    target state and its text holds the needle, whatever the case. *)
Definition candidate (targetDone : bool) (needle : string)
    (item : ScratchpadItem) : bool :=
  negb (Bool.eqb (done item) targetDone) &&
  Js.includes (Js.toLowerCase (text item)) needle.

Definition setDone (targetDone : bool) (item : ScratchpadItem)
    : ScratchpadItem :=
  {| done := targetDone; text := text item; meta := meta item |}.

(** The loop with its [break]: the first candidate is updated; [None]
    when [matched] stays false. *)
Fixpoint markFirst (targetDone : bool) (needle : string)
    (items : list ScratchpadItem) : option (list ScratchpadItem) :=
  match items with
  | [] => None
  | item :: rest =>
      if candidate targetDone needle item
      then Some (setDone targetDone item :: rest)
      else option_map (cons item) (markFirst targetDone needle rest)
  end.

Definition newItem (itemText ts sid : string) : ScratchpadItem :=
  {| done := false; text := itemText; meta := MemoryWrite.stamp ts sid |}.

(** A value of the details of a tool result. *)
Inductive detail : Type :=
  | DStr (s : string)
  | DNum (n : nat).

Record ToolResult : Type := {
  text : string;
  details : list (string * detail);
}.

(** The decimal writing of a count, as a template literal gives it. *)
Definition natToString (n : nat) : string :=
  NilZero.string_of_uint (Nat.to_uint n).

Definition quote : string := String "034"%char EmptyString.

Definition plain (message : string) : ToolResult :=
  {| text := message; details := [] |}.

Definition changed (message action sid ts : string) : ToolResult :=
  {| text := message;
     details := [("action", DStr action); ("sessionId", DStr sid);
                 ("timestamp", DStr ts)] |}.

(** [config] stands for the directory constants of the module,
    [sessionId] for [ctx.sessionManager.getSessionId()] and [now] for
    [nowTimestamp()].  [action] and [text] are [None] when the caller
    leaves them out. *)
Definition execute (config : MemoryConfig) (sessionId now : string)
    (params : gmap string string) (fs : FileSystem)
    : FileSystem * ToolResult :=
  let fs := ensureDirs config fs in
  let action := params !! "action" in
  let text := params !! "text" in
  let sid := MemoryWrite.shortSessionId sessionId in
  let ts := now in
  let existing :=
    orElse (readFileSafe fs (scratchpadFile config)) EmptyString in
  let items := parseScratchpad existing in
  if bool_decide (action = Some "list") then
    if length items =? 0 then (fs, plain "Scratchpad is empty.")
    else
      (fs, {| text := serializeScratchpad items;
              details := [("count", DNum (length items));
                          ("open", DNum (length (List.filter isOpen items)))]
           |})
  else if bool_decide (action = Some "add") then
    if negb (MemoryWrite.truthyStr text) then
      (fs, plain "Error: 'text' is required for add.")
    else
      let text := orElse text EmptyString in
      let items := items ++ [newItem text ts sid] in
      let fs :=
        MemoryWrite.writeFileSync (scratchpadFile config)
          (serializeScratchpad items) fs in
      let fs := MemoryWrite.gitCommit "scratchpad: add" fs in
      (fs, changed ("Added: - [ ] " +:+ text +:+ nl2 +:+
                    serializeScratchpad items) "add" sid ts)
  else if bool_decide (action = Some "done") ||
          bool_decide (action = Some "undo") then
    let action := orElse action EmptyString in
    if negb (MemoryWrite.truthyStr text) then
      (fs, plain ("Error: 'text' is required for " +:+ action +:+ "."))
    else
      let text := orElse text EmptyString in
      let needle := Js.toLowerCase text in
      let targetDone := String.eqb action "done" in
      match markFirst targetDone needle items with
      | None =>
          (fs, plain ("No matching " +:+
                      (if targetDone then "open" else "done") +:+
                      " item found for: " +:+ quote +:+ text +:+ quote))
      | Some items =>
          let fs :=
            MemoryWrite.writeFileSync (scratchpadFile config)
              (serializeScratchpad items) fs in
          let fs := MemoryWrite.gitCommit ("scratchpad: " +:+ action) fs in
          (fs, changed ("Updated." +:+ nl2 +:+ serializeScratchpad items)
                 action sid ts)
      end
  else if bool_decide (action = Some "clear_done") then
    let before := length items in
    let items := List.filter isOpen items in
    let removed := before - length items in
    let fs :=
      MemoryWrite.writeFileSync (scratchpadFile config)
        (serializeScratchpad items) fs in
    let fs := MemoryWrite.gitCommit "scratchpad: clear_done" fs in
    (fs, {| text := "Cleared " +:+ natToString removed +:+
                    " done item(s)." +:+ nl2 +:+ serializeScratchpad items;
            details := [("action", DStr "clear_done");
                        ("removed", DNum removed)] |})
  else
    (fs, plain ("Unknown action: " +:+ orElse action "undefined")).

End ScratchpadTool.

(** ** The [memory_read] tool *)

Module MemoryRead.

Definition found (content : string) (fields : list (string * string))
    : MemoryWrite.ToolResult :=
  {| MemoryWrite.text := content; MemoryWrite.details := fields |}.

(** [names.map(f => `- ${prefix}${f}`).join("\n")] *)
Definition bullets (prefix : string) (names : list string) : string :=
  Js.join Js.nl (map (fun f => "- " +:+ prefix +:+ f) names).

(** The three listings of the [list] target; a directory that cannot be
    read, or without a matching entry, gives no section. *)
Definition rootSection (config : MemoryConfig) (fs : FileSystem)
    : list string :=
  match readdirSync fs (memoryDir config) with
  | None => []
  | Some names =>
      let rootFiles :=
        Search.sort
          (List.filter
             (fun f => Js.endsWith f ".md" || Js.endsWith f ".json") names) in
      if 0 <? length rootFiles
      then ["Files:" +:+ Js.nl +:+ bullets EmptyString rootFiles]
      else []
  end.

Definition notesSection (config : MemoryConfig) (fs : FileSystem)
    : list string :=
  match readdirSync fs (notesDir config) with
  | None => []
  | Some names =>
      let noteFiles :=
        Search.sort (List.filter (fun f => Js.endsWith f ".md") names) in
      if 0 <? length noteFiles
      then ["Notes:" +:+ Js.nl +:+ bullets "notes/" noteFiles]
      else []
  end.

Definition dailySection (config : MemoryConfig) (fs : FileSystem)
    : list string :=
  match readdirSync fs (dailyDir config) with
  | None => []
  | Some names =>
      let dailyFiles :=
        rev (Search.sort
               (List.filter (fun f => Js.endsWith f ".md") names)) in
      if 0 <? length dailyFiles
      then ["Daily logs (" +:+
            ScratchpadTool.natToString (length dailyFiles) +:+ "):" +:+
            Js.nl +:+ bullets "daily/" (firstn 10 dailyFiles) +:+
            (if 10 <? length dailyFiles
             then Js.nl +:+ "  ... and " +:+
                  ScratchpadTool.natToString (length dailyFiles - 10) +:+
                  " more"
             else EmptyString)]
      else []
  end.

(** [today] stands for [todayStr()]; [target], [date] and [filename] are
    read from the parameters and are [undefined] when left out. *)
Definition execute (config : MemoryConfig) (today : string)
    (params : gmap string string) (fs : FileSystem)
    : FileSystem * MemoryWrite.ToolResult :=
  let fs := ensureDirs config fs in
  let target := params !! "target" in
  let date := params !! "date" in
  let filename := params !! "filename" in
  if bool_decide (target = Some "list") then
    let sections :=
      rootSection config fs ++ notesSection config fs ++
      dailySection config fs in
    if length sections =? 0
    then (fs, found "Memory directory is empty." [])
    else (fs, found (Js.join nl2 sections) [])
  else if bool_decide (target = Some "file") then
    if negb (MemoryWrite.truthyStr filename) then
      (fs, MemoryWrite.errorResult
             "Error: 'filename' is required for target 'file'.")
    else
      let safe := MemoryWrite.basename (orElse filename EmptyString) in
      let filePath := Path.join [memoryDir config; safe] in
      match readFileSafe fs filePath with
      | Some content =>
          if Js.nonEmpty content
          then (fs, found content [("path", filePath); ("filename", safe)])
          else (fs, MemoryWrite.errorResult ("File not found: " +:+ safe))
      | None => (fs, MemoryWrite.errorResult ("File not found: " +:+ safe))
      end
  else if bool_decide (target = Some "note") then
    if negb (MemoryWrite.truthyStr filename) then
      (fs, MemoryWrite.errorResult
             "Error: 'filename' is required for target 'note'.")
    else
      let safe := MemoryWrite.basename (orElse filename EmptyString) in
      let filePath := Path.join [notesDir config; safe] in
      match readFileSafe fs filePath with
      | Some content =>
          if Js.nonEmpty content
          then (fs, found content
                      [("path", filePath); ("filename", "notes/" +:+ safe)])
          else (fs, MemoryWrite.errorResult
                      ("Note not found: notes/" +:+ safe))
      | None =>
          (fs, MemoryWrite.errorResult ("Note not found: notes/" +:+ safe))
      end
  else if bool_decide (target = Some "daily") then
    let d := orElse date today in
    let filePath := dailyPath (dailyDir config) d in
    match readFileSafe fs filePath with
    | Some content =>
        if Js.nonEmpty content
        then (fs, found content [("path", filePath); ("date", d)])
        else (fs, MemoryWrite.errorResult
                    ("No daily log for " +:+ d +:+ "."))
    | None =>
        (fs, MemoryWrite.errorResult ("No daily log for " +:+ d +:+ "."))
    end
  else if bool_decide (target = Some "scratchpad") then
    match readFileSafe fs (scratchpadFile config) with
    | Some content =>
        if Js.nonEmpty (Js.trim content)
        then (fs, found content [("path", scratchpadFile config)])
        else (fs, MemoryWrite.errorResult
                    "SCRATCHPAD.md is empty or does not exist.")
    | None =>
        (fs, MemoryWrite.errorResult
               "SCRATCHPAD.md is empty or does not exist.")
    end
  else
    match readFileSafe fs (memoryFile config) with
    | Some content =>
        if Js.nonEmpty content
        then (fs, found content [("path", memoryFile config)])
        else (fs, MemoryWrite.errorResult
                    "MEMORY.md is empty or does not exist.")
    | None =>
        (fs, MemoryWrite.errorResult "MEMORY.md is empty or does not exist.")
    end.

End MemoryRead.

(** ** Vocabulary of the statements on the tools *)

(** The file [memory_write] writes for a target other than [note]. *)
Definition writeTarget (config : MemoryConfig) (today target : string)
    : string :=
  if String.eqb target "daily"
  then dailyPath (dailyDir config) today
  else memoryFile config.

(** The files [buildMemoryContext] reads. *)
Definition contextPaths (config : MemoryConfig) (today yesterday : string)
    : list string :=
  map (fun fileName => Path.join [memoryDir config; fileName])
      (contextFiles config) ++
  [memoryFile config; scratchpadFile config;
   dailyPath (dailyDir config) today;
   dailyPath (dailyDir config) yesterday].

(** A pattern that has no word at all, found by its syntax. *)
Fixpoint voidRe (r : Re.re) : bool :=
  match r with
  | Re.Void => true
  | Re.Eps => false
  | Re.Cls _ => false
  | Re.Seq r1 r2 => voidRe r1 || voidRe r2
  | Re.Alt r1 r2 => voidRe r1 && voidRe r2
  | Re.Star _ => false
  end.

(** The line results only grow: [rs'] is [rs] with results added at the
    end. *)
Definition grows (rs rs' : list Search.LineResult) : Prop :=
  exists extra, rs' = rs ++ extra.

(** The result for a matching line of a file that is not empty: line
    [i + 1] of the file holds the needle. *)
Definition matchingLine (fs : FileSystem) (needle filePath name : string)
    (r : Search.LineResult) : Prop :=
  exists content i l,
    readFileSafe fs filePath = Some content /\ content <> EmptyString /\
    nth_error (Js.split Js.LF content) i = Some l /\
    Js.includes (Js.toLowerCase l) needle = true /\
    r = {| Search.file := name; Search.line := i + 1;
           Search.text := Js.trimEnd l |}.

(** Decides the tests on the action or the target of a tool call. *)
Ltac decide_actions :=
  repeat match goal with
  | |- context [bool_decide (Some ?a = Some ?b)] =>
      let v := eval vm_compute in (bool_decide (Some a = Some b)) in
      change (bool_decide (Some a = Some b)) with v
  end;
  cbv beta match delta [orb].

(** The display name of a file whose name ends in [.md], listed in one
    of the searched directories, and which holds the needle whatever the
    case. *)
Definition fileMatchFrom (fs : FileSystem) (config : MemoryConfig)
    (needle name : string) : Prop :=
  Js.includes (Js.toLowerCase name) needle = true /\
  exists dir prefix names f,
    In (dir, prefix) (searchedDirs config) /\
    readdirSync fs dir = Some names /\
    In f names /\
    Js.endsWith f ".md" = true /\
    name = Search.displayName prefix f.



(** ** Vocabulary of the statements on the title of a session *)

(** What the second loop finds in the payload of a user-authored
    message: the body throws and the message is skipped; or there is
    nothing to take and the search ends without a title; or there is a
    text, here cut to 80. *)
Inductive reading : Type :=
  | Unreadable
  | NoText
  | Text (t : json).

(** The parts of a list payload, up to the first text-typed one: a
    [null] before it cannot be read, and neither can a text that is not
    a string or a list. *)
Fixpoint partsReading (parts : list json) : reading :=
  match parts with
  | [] => NoText
  | JNull :: _ => Unreadable
  | c :: rest =>
      if isStr (getOpt (Some c) "type") "text" then
        match getOpt (Some c) "text" with
        | Some (JStr s) => Text (JStr (Js.slice0 80 s))
        | Some (JArr l) => Text (JArr (firstn 80 l))
        | _ => Unreadable
        end
      else partsReading rest
  end.

Definition payloadReading (line : option json) : reading :=
  match getOpt (getOpt line "message") "content" with
  | Some (JStr s) => Text (JStr (Js.slice0 80 s))
  | Some (JArr parts) => partsReading parts
  | _ => NoText
  end.

(** A line the second loop passes over: not a user-authored message, or
    one that cannot be read. *)
Definition passedOver (line : option json) : Prop :=
  isUserMessage line = false \/ payloadReading line = Unreadable.

(** [t || "(untitled)"] *)
Definition orUntitled (t : json) : json :=
  if truthy (Some t) then t else JStr "(untitled)".

(** ** Sample data for the examples *)

Definition emptyTextItem : ScratchpadItem :=
  {| done := false; text := EmptyString; meta := EmptyString |}.

Definition carriageReturnItem : ScratchpadItem :=
  {| done := false;
     text := "a" +:+ String Js.CR "b";
     meta := EmptyString |}.

Definition sampleItems : list ScratchpadItem :=
  [ {| done := false; text := "Open item"; meta := "<!-- ts [sid] -->" |};
    {| done := true; text := "Done item"; meta := EmptyString |} ].

Definition nestedItem : ScratchpadItem :=
  {| done := true; text := "- [ ] nested"; meta := "<!---->" |}.

Definition homeOnly : gmap string string := {[ "HOME" := "/home/u" ]}.

Definition sampleEnv : gmap string string :=
  <["PI_CONTEXT_FILES" := " A.md ,  B.md , "]>
    (<["PI_AUTOCOMMIT" := "yes"]> {[ "HOME" := "/home/x" ]}).

Definition sampleConfig : MemoryConfig :=
  buildConfig (<["PI_CONTEXT_FILES" := "SOUL.md"]> {[ "HOME" := "/h" ]}).

Definition sampleFiles (scratchpad : string) : FileSystem :=
  {| files :=
       <["/h/.pi/agent/memory/SOUL.md" := "Soul content"]>
       (<["/h/.pi/agent/memory/MEMORY.md" := "Memory content"]>
       (<["/h/.pi/agent/memory/SCRATCHPAD.md" := scratchpad]>
       (<["/h/.pi/agent/memory/daily/2026-02-18.md" := "Today content"]>
       (<["/h/.pi/agent/memory/daily/2026-02-17.md" :=
            " Yesterday content "]> ∅))));
     entries := ∅;
     dirs := ∅ |}.

Definition mixedScratchpad : string :=
  "# Scratchpad" +:+ nl2 +:+ "- [ ] Open task" +:+ Js.nl +:+
  "- [x] Done task" +:+ Js.nl.

Definition doneScratchpad : string :=
  "# Scratchpad" +:+ nl2 +:+ "- [x] Done" +:+ Js.nl.

Definition searchRoot : FileSystem :=
  {| files :=
       <["/h/.pi/agent/memory/data.json" := "{target: true}"]>
       (<["/h/.pi/agent/memory/notes.md" :=
            ("first" +:+ Js.nl +:+ "Target in md   " +:+ Js.nl +:+
             "target again")]>
       (<["/h/.pi/agent/memory/daily/2026-02-18.md" := "target in daily"]>
       (<["/h/.pi/agent/memory/notes/work.md" := "target in notes"]> ∅)));
     entries :=
       <["/h/.pi/agent/memory" :=
           ("notes.md" :: "data.json" :: "daily" :: "notes" :: nil)]>
       (<["/h/.pi/agent/memory/daily" :=
            ("2026-02-18.md" :: "cache.json" :: nil)]>
       (<["/h/.pi/agent/memory/notes" := ("work.md" :: nil)]> ∅));
     dirs := ∅ |}.

Definition searchConfig : MemoryConfig := buildConfig {[ "HOME" := "/h" ]}.

Definition nowMs : Z := 1771405200000.   (* 2026-02-18T09:00:00.000Z *)

Definition headerAt (ts : string) : option json :=
  Some (JObj [("timestamp", JStr ts); ("cwd", JStr "/project")]).

Definition userMessage (content : json) : option json :=
  Some (JObj [("type", JStr "message");
              ("message", JObj [("role", JStr "user");
                                ("content", content)])]).

Definition sessionInfo (name : string) : option json :=
  Some (JObj [("type", JStr "session_info"); ("name", JStr name)]).

Definition sampleLogs : gmap string (list (option json)) :=
  <["bad.jsonl" := (None :: userMessage (JStr "hello") :: nil)]>
  (<["nots.jsonl" :=
       (Some (JObj (("cwd", JStr "/project") :: nil)) :: nil)]>
  (<["old.jsonl" :=
       (headerAt "2026-02-16T09:00:00.000Z" ::
        userMessage (JStr "old stuff") :: nil)]>
  (<["named.jsonl" :=
       (headerAt "2026-02-18T08:00:00.000Z" ::
        sessionInfo "First name" :: userMessage (JStr "hello") ::
        sessionInfo "Fix memory bug" :: nil)]>
  (<["plain.jsonl" :=
       (headerAt "2026-02-18T08:00:00.000Z" :: None ::
        userMessage (JStr "Can you fix the tests?") ::
        userMessage (JStr "later") :: nil)]>
  (<["quiet.jsonl" :=
       (headerAt "2026-02-18T08:00:00.000Z" ::
        Some (JObj (("type", JStr "message") ::
                    ("message", JObj (("role", JStr "assistant") ::
                                      ("content", JStr "response") :: nil))
                    :: nil)) :: nil)]>
  (<["empty.jsonl" :=
       (headerAt "2026-02-18T08:00:00.000Z" ::
        userMessage (JStr EmptyString) ::
        userMessage (JStr "second message") :: nil)]> ∅)))))).

Definition scanSample (filePath : string) : option SessionInfo :=
  scanSession clockTime nowMs sampleLogs filePath.

Definition noteWithoutFilename : gmap string string :=
  <["target" := "note"]> {[ "content" := "remember this" ]}.

Definition imagePart : json := JObj [("type", JStr "image")].

Definition textPart (s : string) : json :=
  JObj [("type", JStr "text"); ("text", JStr s)].

Definition scanLines (lines : list (option json)) : option json :=
  option_map title
    (scanSession clockTime nowMs {[ "session.jsonl" := lines ]}
       "session.jsonl").

(** ** Sample data for the tools *)

Definition addParams (itemText : string) : gmap string string :=
  <["action" := "add"]> {[ "text" := itemText ]}.

Definition doneParams (needle : string) : gmap string string :=
  <["action" := "done"]> {[ "text" := needle ]}.

Definition clearParams : gmap string string := {[ "action" := "clear_done" ]}.

Definition sampleNow : string := "2026-02-18 09:00:00".

Definition sampleSession : string := "0123456789abcdef".

Definition writeParams (target content : string) : gmap string string :=
  <["target" := target]> {[ "content" := content ]}.

Definition overwriteDaily : gmap string string :=
  <["mode" := "overwrite"]> (writeParams "daily" "Fixed the parser").

Definition readParams (target : string) : gmap string string :=
  {[ "target" := target ]}.

Definition sessionRecord (filePath : string) : SessionInfo :=
  orElse (scanSample filePath)
    {| file := EmptyString; timestamp := None; title := JNull;
       isChild := false; parentSession := None; cwd := JNull |}.

Definition blankFiles : FileSystem :=
  {| files :=
       <["/h/.pi/agent/memory/MEMORY.md" := (" " +:+ Js.nl)]>
       (<["/h/.pi/agent/memory/SCRATCHPAD.md" := doneScratchpad]> ∅);
     entries := ∅;
     dirs := ∅ |}.

Definition zeroHeader : json := JObj [("timestamp", JNum (inject_Z 0))].

Definition zeroLog : list (option json) :=
  [Some zeroHeader; sessionInfo "Named"].

Definition nullPartLog : list (option json) :=
  [ headerAt "2026-02-18T08:00:00.000Z";
    userMessage (JArr [JNull; textPart "first"]);
    userMessage (JStr "later") ].

Definition nullLogs : gmap string (list (option json)) :=
  <["null.jsonl" := nullPartLog]> ∅.

(** * Properties *)

(** ** Strings *)

Lemma app_nil_r (s : string) : s +:+ EmptyString = s.
Proof. induction s as [|c s IH]; simpl; [reflexivity | now rewrite IH]. Qed.

Lemma app_assoc (s1 s2 s3 : string) : (s1 +:+ s2) +:+ s3 = s1 +:+ (s2 +:+ s3).
Proof. induction s1 as [|c s1 IH]; simpl; [reflexivity | now rewrite IH]. Qed.

Lemma app_eq_nil (s1 s2 : string) :
  s1 +:+ s2 = EmptyString -> s1 = EmptyString /\ s2 = EmptyString.
Proof. destruct s1; simpl; [auto | discriminate]. Qed.

Lemma all_app (p : ascii -> bool) (s1 s2 : string) :
  Js.all p (s1 +:+ s2) = Js.all p s1 && Js.all p s2.
Proof.
  induction s1 as [|c s1 IH]; simpl; [reflexivity|].
  rewrite IH. now rewrite andb_assoc.
Qed.

(** ** Regular expressions: the matcher decides the language *)

Lemma nullable_lang (r : Re.re) :
  Re.nullable r = true <-> Re.lang r EmptyString.
Proof.
  split.
  - induction r; simpl; intros H; try discriminate.
    + constructor.
    + apply andb_true_iff in H as [H1 H2].
      change EmptyString with (EmptyString +:+ EmptyString).
      constructor; auto.
    + apply orb_true_iff in H as [H|H];
        [apply Re.lang_alt_l | apply Re.lang_alt_r]; auto.
    + constructor.
  - intros H. remember EmptyString as s eqn:Es.
    induction H; simpl; subst; try discriminate; try reflexivity.
    + apply app_eq_nil in Es as [-> ->].
      rewrite IHlang1, IHlang2; auto.
    + rewrite IHlang; auto.
    + rewrite IHlang; auto using orb_true_r.
Qed.

Lemma deriv_complete (r : Re.re) (c : ascii) (s : string) :
  Re.lang r (String c s) -> Re.lang (Re.deriv c r) s.
Proof.
  intros H. remember (String c s) as s0 eqn:Es. revert s Es.
  induction H as [ | p c0 Hp | r1 r2 s1 s2 H1 IH1 H2 IH2 | r1 r2 s0 H1 IH1
                 | r1 r2 s0 H1 IH1 | r1 | r1 s1 s2 H1 IH1 H2 IH2 ];
    intros t Et; try discriminate.
  - injection Et as -> <-. simpl. rewrite Hp. constructor.
  - simpl. destruct s1 as [|c1 s1]; simpl in Et.
    + apply Re.lang_alt_r.
      apply nullable_lang in H1 as ->. auto.
    + injection Et as -> <-.
      apply Re.lang_alt_l. constructor; auto.
  - simpl. apply Re.lang_alt_l. auto.
  - simpl. apply Re.lang_alt_r. auto.
  - destruct s1 as [|c1 s1]; simpl in Et.
    + auto.
    + injection Et as -> <-. simpl. constructor; auto.
Qed.

Lemma deriv_sound (r : Re.re) (c : ascii) (s : string) :
  Re.lang (Re.deriv c r) s -> Re.lang r (String c s).
Proof.
  revert s. induction r; simpl; intros s H.
  - inversion H.
  - inversion H.
  - destruct (b c) eqn:Eb; inversion H; subst. now constructor.
  - inversion H as [| | | ? ? ? H1 | ? ? ? H1 | |]; subst.
    + inversion H1; subst.
      change (String c (s1 +:+ s2)) with (String c s1 +:+ s2).
      constructor; auto.
    + destruct (Re.nullable r1) eqn:En; [|inversion H1].
      change (String c s) with (EmptyString +:+ String c s).
      constructor; auto. now apply nullable_lang.
  - inversion H; subst;
      [apply Re.lang_alt_l | apply Re.lang_alt_r]; auto.
  - inversion H; subst.
    change (String c (s1 +:+ s2)) with (String c s1 +:+ s2).
    constructor; auto.
Qed.

Lemma matches_lang (r : Re.re) (s : string) :
  Re.matches r s = true <-> Re.lang r s.
Proof.
  revert r. induction s as [|c s IH]; intros r; simpl.
  - apply nullable_lang.
  - rewrite IH. split; [apply deriv_sound | apply deriv_complete].
Qed.

Lemma test_lang (r : Re.re) (s : string) :
  Re.test r s = true <-> exists p q, s = p +:+ q /\ Re.lang r p.
Proof.
  revert r. induction s as [|c s IH]; intros r; simpl.
  - rewrite orb_false_r, nullable_lang. split.
    + intros H. now exists EmptyString, EmptyString.
    + intros (p & q & E & H). symmetry in E.
      apply app_eq_nil in E as [-> _]. exact H.
  - rewrite orb_true_iff, IH, nullable_lang. split.
    + intros [H | (p & q & -> & H)].
      * now exists EmptyString, (String c s).
      * exists (String c p), q. split; [reflexivity|]. now apply deriv_sound.
    + intros (p & q & E & H). destruct p as [|c' p]; [now left|].
      simpl in E. injection E as -> ->. right.
      exists p, q. split; [reflexivity|]. now apply deriv_complete.
Qed.

Lemma lang_seq_inv (r1 r2 : Re.re) (s : string) :
  Re.lang (Re.Seq r1 r2) s <->
  exists s1 s2, s = s1 +:+ s2 /\ Re.lang r1 s1 /\ Re.lang r2 s2.
Proof.
  split.
  - intros H. inversion H; subst. eauto.
  - intros (s1 & s2 & -> & H1 & H2). now constructor.
Qed.

Lemma lang_alt_inv (r1 r2 : Re.re) (s : string) :
  Re.lang (Re.Alt r1 r2) s <-> Re.lang r1 s \/ Re.lang r2 s.
Proof.
  split.
  - intros H. inversion H; subst; auto.
  - intros [H|H]; [apply Re.lang_alt_l | apply Re.lang_alt_r]; exact H.
Qed.

Lemma lang_cls_inv (p : ascii -> bool) (s : string) :
  Re.lang (Re.Cls p) s <-> exists c, s = String c EmptyString /\ p c = true.
Proof.
  split.
  - intros H. inversion H; subst. eauto.
  - intros (c & -> & H). now constructor.
Qed.

Lemma lang_chr_inv (c : ascii) (s : string) :
  Re.lang (Re.Chr c) s <-> s = String c EmptyString.
Proof.
  unfold Re.Chr. rewrite lang_cls_inv. split.
  - intros (c' & -> & H). apply Ascii.eqb_eq in H. now subst.
  - intros ->. exists c. split; [reflexivity | apply Ascii.eqb_refl].
Qed.

Lemma lang_eps_inv (s : string) : Re.lang Re.Eps s <-> s = EmptyString.
Proof.
  split; [intros H; now inversion H | intros ->; constructor].
Qed.

Lemma lang_lit_inv (p s : string) : Re.lang (Re.Lit p) s <-> s = p.
Proof.
  revert s. induction p as [|c p IH]; intros s; simpl.
  - apply lang_eps_inv.
  - rewrite lang_seq_inv. split.
    + intros (s1 & s2 & -> & H1 & H2).
      apply lang_chr_inv in H1 as ->. apply IH in H2 as ->. reflexivity.
    + intros ->. exists (String c EmptyString), p.
      rewrite lang_chr_inv, IH. auto.
Qed.

Lemma lang_star_cls_inv (p : ascii -> bool) (s : string) :
  Re.lang (Re.Star (Re.Cls p)) s <-> Js.all p s = true.
Proof.
  split.
  - intros H. remember (Re.Star (Re.Cls p)) as r eqn:Er.
    induction H; try discriminate; [reflexivity|].
    injection Er as ->. rewrite all_app.
    apply lang_cls_inv in H as (c & -> & Hc). simpl.
    rewrite Hc, IHlang2; auto.
  - induction s as [|c s IH]; simpl; intros H; [constructor|].
    apply andb_true_iff in H as [Hc Hs].
    change (String c s) with (String c EmptyString +:+ s).
    constructor; [now constructor | auto].
Qed.

Lemma lang_plus_cls_inv (p : ascii -> bool) (s : string) :
  Re.lang (Re.Plus (Re.Cls p)) s <-> s <> EmptyString /\ Js.all p s = true.
Proof.
  unfold Re.Plus. rewrite lang_seq_inv. split.
  - intros (s1 & s2 & -> & H1 & H2).
    apply lang_cls_inv in H1 as (c & -> & Hc).
    apply lang_star_cls_inv in H2. simpl. rewrite Hc, H2. now split.
  - intros [Hne H]. destruct s as [|c s]; [congruence|].
    simpl in H. apply andb_true_iff in H as [Hc Hs].
    exists (String c EmptyString), s.
    rewrite lang_cls_inv, lang_star_cls_inv. eauto.
Qed.

(** ** The two patterns of the checklist codec *)

Lemma itemRe_spec (line : string) :
  Re.matches itemRe line = true <->
  exists c t, line = "- [" +:+ String c ("] " +:+ t) /\ isBox c /\
              t <> EmptyString /\ noLineTerminator t.
Proof.
  rewrite matches_lang. unfold itemRe, Re.Dot.
  rewrite lang_seq_inv. split.
  - intros (s1 & s2 & -> & H1 & H2).
    apply lang_lit_inv in H1 as ->.
    apply lang_seq_inv in H2 as (b & s3 & -> & Hb & H3).
    apply lang_seq_inv in H3 as (s4 & t & -> & H4 & Ht).
    apply lang_lit_inv in H4 as ->.
    apply lang_plus_cls_inv in Ht as [Hne Hall].
    simpl in Hb.
    assert (exists c, b = String c EmptyString /\ isBox c) as (c & -> & Hc).
    { unfold isBox.
      apply lang_alt_inv in Hb as [Hb|Hb];
        [|apply lang_alt_inv in Hb as [Hb|Hb]];
        apply lang_chr_inv in Hb as ->; eauto 6. }
    exists c, t. auto.
  - intros (c & t & -> & Hc & Hne & Hall).
    exists "- [", (String c ("] " +:+ t)). split; [reflexivity|].
    rewrite lang_lit_inv. split; [reflexivity|].
    change (String c ("] " +:+ t))
      with (String c EmptyString +:+ ("] " +:+ t)).
    constructor.
    + simpl. destruct Hc as [->| [->| ->]];
        rewrite !lang_alt_inv, !lang_chr_inv; auto.
    + constructor; [now apply lang_lit_inv|].
      apply lang_plus_cls_inv. auto.
Qed.

Lemma commentRe_spec (line : string) :
  Re.matches commentRe line = true <->
  exists m, line = "<!--" +:+ m +:+ "-->" /\ noLineTerminator m.
Proof.
  rewrite matches_lang. unfold commentRe, Re.Dot.
  rewrite lang_seq_inv. split.
  - intros (s1 & s2 & -> & H1 & H2).
    apply lang_lit_inv in H1 as ->.
    apply lang_seq_inv in H2 as (m & s3 & -> & Hm & H3).
    apply lang_lit_inv in H3 as ->.
    apply lang_star_cls_inv in Hm. eauto.
  - intros (m & -> & Hm).
    exists "<!--", (m +:+ "-->"). split; [reflexivity|].
    rewrite lang_lit_inv. split; [reflexivity|].
    constructor; [now apply lang_star_cls_inv | now apply lang_lit_inv].
Qed.

Lemma matchItem_spec (line g1 g2 : string) :
  matchItem line = Some (g1, g2) <->
  exists c, line = "- [" +:+ String c ("] " +:+ g2) /\ isBox c /\
            g1 = String c EmptyString /\
            g2 <> EmptyString /\ noLineTerminator g2.
Proof.
  unfold matchItem. split.
  - destruct (Re.matches itemRe line) eqn:E; [|discriminate].
    apply itemRe_spec in E as (c & t & -> & Hc & Hne & Hall).
    simpl. intros [= <- <-]. eauto 6.
  - intros (c & -> & Hc & -> & Hne & Hall).
    assert (Re.matches itemRe ("- [" +:+ String c ("] " +:+ g2)) = true) as ->.
    { apply itemRe_spec. eauto 6. }
    reflexivity.
Qed.

(** ** [parseScratchpad] as a recursion over the lines *)

Lemma parseStep_at (pre rest : list string) (line : string)
    (acc : list ScratchpadItem) :
  parseStep (pre ++ line :: rest) acc (length pre) =
  acc ++ match matchItem line with
         | Some (g1, g2) =>
             [{| done := String.eqb (Js.toLowerCase g1) "x";
                 text := g2; meta := metaOf (last pre) |}]
         | None => []
         end.
Proof.
  unfold parseStep.
  assert (nth (length pre) (pre ++ line :: rest) EmptyString = line) as ->
    by apply nth_middle.
  destruct (matchItem line) as [[g1 g2]|]; [|now rewrite List.app_nil_r].
  do 3 f_equal.
  destruct pre as [|p0 pre0] using rev_ind; [reflexivity|].
  rewrite last_snoc. simpl metaOf.
  rewrite length_app. simpl length.
  replace (length pre0 + 1 - 1) with (length pre0) by lia.
  replace (0 <? length pre0 + 1) with true
    by (symmetry; apply Nat.ltb_lt; lia).
  rewrite <- List.app_assoc. simpl app.
  rewrite nth_middle. reflexivity.
Qed.

Lemma parse_fold (suf pre : list string) (acc : list ScratchpadItem) :
  foldl (parseStep (pre ++ suf)) acc (seq (length pre) (length suf)) =
  acc ++ parseFrom (last pre) suf.
Proof.
  revert pre acc. induction suf as [|line rest IH]; intros pre acc.
  - simpl. now rewrite List.app_nil_r.
  - simpl seq. simpl foldl. rewrite parseStep_at.
    replace (pre ++ line :: rest) with ((pre ++ [line]) ++ rest)
      by now rewrite <- List.app_assoc.
    replace (S (length pre)) with (length (pre ++ [line]))
      by (rewrite length_app; simpl; lia).
    rewrite IH, last_snoc. simpl parseFrom.
    destruct (matchItem line) as [[g1 g2]|].
    + now rewrite <- List.app_assoc.
    + now rewrite List.app_nil_r.
Qed.

Lemma parseScratchpad_parseFrom (content : string) :
  parseScratchpad content = parseFrom None (Js.split Js.LF content).
Proof.
  unfold parseScratchpad.
  apply (parse_fold (Js.split Js.LF content) [] []).
Qed.

(** ** Splitting and joining lines *)

Lemma noLineTerminator_noNewline (s : string) :
  noLineTerminator s -> noNewline s.
Proof.
  unfold noLineTerminator, noNewline.
  induction s as [|c s IH]; simpl; [reflexivity|].
  intros H. apply andb_true_iff in H as [Hc Hs].
  rewrite (IH Hs), andb_true_r.
  unfold Js.isLineTerminator in Hc.
  now destruct (Ascii.eqb c Js.LF).
Qed.

Lemma split_nonempty (sep : ascii) (s : string) : Js.split sep s <> [].
Proof.
  destruct s as [|c s]; simpl; [discriminate|].
  destruct (Ascii.eqb c sep); [discriminate|].
  destruct (Js.split sep s); discriminate.
Qed.

Lemma split_no_sep (sep : ascii) (s : string) :
  Js.all (fun c => negb (Ascii.eqb c sep)) s = true -> Js.split sep s = [s].
Proof.
  induction s as [|c s IH]; simpl; [reflexivity|].
  intros H. apply andb_true_iff in H as [Hc Hs].
  apply negb_true_iff in Hc. rewrite Hc, (IH Hs). reflexivity.
Qed.

Lemma split_app_sep (sep : ascii) (s t : string) :
  Js.split sep (s +:+ String sep t) = Js.split sep s ++ Js.split sep t.
Proof.
  induction s as [|c s IH]; simpl.
  - now rewrite Ascii.eqb_refl.
  - rewrite IH. destruct (Ascii.eqb c sep); [reflexivity|].
    destruct (Js.split sep s) as [|l ls] eqn:E; [|reflexivity].
    now apply split_nonempty in E.
Qed.

Lemma split_join (sep : ascii) (l : string) (ls : list string) :
  Forall (fun s => Js.all (fun c => negb (Ascii.eqb c sep)) s = true)
         (l :: ls) ->
  Js.split sep (Js.join (String sep EmptyString) (l :: ls)) = l :: ls.
Proof.
  revert l. induction ls as [|l' ls IH]; intros l H.
  - simpl. apply split_no_sep. now inversion H.
  - assert (Js.join (String sep EmptyString) (l :: l' :: ls) =
            l +:+ String sep (Js.join (String sep EmptyString) (l' :: ls)))
      as -> by reflexivity.
    inversion H as [|? ? Hl Hls]; subst.
    rewrite split_app_sep, (split_no_sep _ _ Hl), (IH _ Hls). reflexivity.
Qed.

(** ** Serialising: the lines pushed *)

Lemma serialize_fold (items : list ScratchpadItem) (acc : list string) :
  foldl serializeStep acc items = acc ++ concat (map itemLines items).
Proof.
  revert acc. induction items as [|item items IH]; intros acc; simpl.
  - now rewrite List.app_nil_r.
  - rewrite IH. unfold serializeStep, itemLines.
    destruct (Js.nonEmpty (meta item)); simpl;
      now rewrite <- ?List.app_assoc.
Qed.

Lemma itemLine_shape (item : ScratchpadItem) :
  itemLine item =
  "- [" +:+ String (if done item then "x" else " ")%char
                   ("] " +:+ text item).
Proof. unfold itemLine. now destruct (done item). Qed.

Lemma matchItem_itemLine (item : ScratchpadItem) :
  text item <> EmptyString -> noLineTerminator (text item) ->
  matchItem (itemLine item) =
  Some (String (if done item then "x" else " ")%char EmptyString, text item).
Proof.
  intros Hne Hlt. apply matchItem_spec.
  exists (if done item then "x" else " ")%char.
  rewrite itemLine_shape. repeat split; auto.
  unfold isBox. destruct (done item); auto.
Qed.

Lemma comment_not_item (m : string) :
  Re.matches commentRe m = true -> matchItem m = None.
Proof.
  intros H. apply commentRe_spec in H as (x & -> & _).
  destruct (matchItem _) as [[g1 g2]|] eqn:E; [|reflexivity].
  apply matchItem_spec in E as (c & E & _). discriminate.
Qed.

Lemma item_not_comment (line : string) (g : string * string) :
  matchItem line = Some g -> Re.matches commentRe line = false.
Proof.
  destruct g as [g1 g2]. intros H.
  apply matchItem_spec in H as (c & -> & _).
  destruct (Re.matches commentRe _) eqn:E; [|reflexivity].
  apply commentRe_spec in E as (x & E & _). discriminate.
Qed.

(** ** Round trip *)

Lemma item_eta (item : ScratchpadItem) :
  {| done := String.eqb
               (Js.toLowerCase
                  (String (if done item then "x" else " ")%char EmptyString))
               "x";
     text := text item; meta := meta item |} = item.
Proof. destruct item as [d t m]. now destruct d. Qed.

Lemma nonEmpty_false (s : string) : Js.nonEmpty s = false -> s = EmptyString.
Proof. now destruct s. Qed.

Lemma nonEmpty_true (s : string) : Js.nonEmpty s = true -> s <> EmptyString.
Proof. now destruct s. Qed.

Lemma parseFrom_cons (prev : option string) (line : string)
    (rest : list string) :
  parseFrom prev (line :: rest) =
  match matchItem line with
  | Some (g1, g2) =>
      {| done := String.eqb (Js.toLowerCase g1) "x";
         text := g2; meta := metaOf prev |} :: parseFrom (Some line) rest
  | None => parseFrom (Some line) rest
  end.
Proof. reflexivity. Qed.

Lemma parseFrom_itemLines (items : list ScratchpadItem) (prev : option string) :
  metaOf prev = EmptyString ->
  Forall roundTripItem items ->
  parseFrom prev (concat (map itemLines items) ++ [EmptyString]) = items.
Proof.
  revert prev. induction items as [|item items IH]; intros prev Hprev Hall.
  - reflexivity.
  - inversion Hall as [|? ? (Hne & Hlt & Hmeta) Hrest]; subst.
    pose proof (matchItem_itemLine item Hne Hlt) as Hline.
    assert (metaOf (Some (itemLine item)) = EmptyString) as Hnext.
    { unfold metaOf. now rewrite (item_not_comment _ _ Hline). }
    rewrite map_cons, concat_cons. unfold itemLines at 1.
    destruct (Js.nonEmpty (meta item)) eqn:Em.
    + destruct Hmeta as [Hmeta|Hmeta];
        [now apply nonEmpty_true in Em|].
      rewrite <- !List.app_assoc.
      change ([meta item] ++ [itemLine item] ++ ?l)
        with (meta item :: itemLine item :: l).
      rewrite !parseFrom_cons, (comment_not_item _ Hmeta), Hline.
      unfold metaOf at 1. rewrite Hmeta, (IH _ Hnext Hrest).
      f_equal. apply item_eta.
    + apply nonEmpty_false in Em.
      rewrite <- !List.app_assoc.
      change ([] ++ [itemLine item] ++ ?l) with (itemLine item :: l).
      rewrite parseFrom_cons, Hline, Hprev, (IH _ Hnext Hrest). f_equal.
      pose proof (item_eta item) as Heta. rewrite Em in Heta. exact Heta.
Qed.

Lemma noNewline_app (s t : string) :
  noNewline s -> noNewline t -> noNewline (s +:+ t).
Proof.
  unfold noNewline. intros Hs Ht. now rewrite all_app, Hs, Ht.
Qed.

Lemma itemLines_noNewline (items : list ScratchpadItem) :
  Forall roundTripItem items ->
  Forall noNewline (concat (map itemLines items)).
Proof.
  induction 1 as [|item items (Hne & Hlt & Hmeta) _ IH]; simpl; [constructor|].
  apply Forall_app. split; [|exact IH].
  unfold itemLines. apply Forall_app. split.
  - destruct (Js.nonEmpty (meta item)) eqn:Em; constructor; [|constructor].
    destruct Hmeta as [Hmeta|Hmeta]; [now apply nonEmpty_true in Em|].
    apply commentRe_spec in Hmeta as (m & -> & Hm).
    repeat apply noNewline_app;
      [reflexivity | now apply noLineTerminator_noNewline | reflexivity].
  - constructor; [|constructor].
    rewrite itemLine_shape.
    apply (noNewline_app "- ["); [reflexivity|].
    apply (noNewline_app (String _ "] ")).
    + now destruct (done item).
    + now apply noLineTerminator_noNewline.
Qed.

Lemma split_serialize (items : list ScratchpadItem) :
  Forall roundTripItem items ->
  Js.split Js.LF (serializeScratchpad items) =
  "# Scratchpad" :: EmptyString ::
    concat (map itemLines items) ++ [EmptyString].
Proof.
  intros H. unfold serializeScratchpad. rewrite serialize_fold.
  unfold Js.nl. rewrite split_app_sep.
  change (["# Scratchpad"; EmptyString] ++ ?l)
    with ("# Scratchpad" :: EmptyString :: l).
  rewrite split_join; [reflexivity|].
  repeat constructor. now apply itemLines_noNewline.
Qed.

Lemma roundtrip_core (items : list ScratchpadItem) :
  Forall roundTripItem items ->
  parseScratchpad (serializeScratchpad items) = items.
Proof.
  intros H. rewrite parseScratchpad_parseFrom, (split_serialize _ H).
  rewrite !parseFrom_cons.
  change (matchItem "# Scratchpad") with (@None (string * string)).
  change (matchItem EmptyString) with (@None (string * string)).
  now apply parseFrom_itemLines.
Qed.

(** ** What every parsed item satisfies *)

Lemma length_app_str (s t : string) :
  String.length (s +:+ t) = String.length s + String.length t.
Proof. induction s as [|c s IH]; simpl; [reflexivity | now rewrite IH]. Qed.

Lemma drop_app_str (s t : string) : Js.drop (String.length s) (s +:+ t) = t.
Proof. induction s as [|c s IH]; simpl; [now destruct t | exact IH]. Qed.

Lemma endsWith_app (s t : string) : Js.endsWith (s +:+ t) t = true.
Proof.
  unfold Js.endsWith. rewrite length_app_str.
  replace (String.length s + String.length t - String.length t)
    with (String.length s) by lia.
  rewrite drop_app_str, String.eqb_refl, andb_true_r.
  apply Nat.leb_le. lia.
Qed.

Lemma metaOf_valid (prev : option string) :
  metaOf prev = EmptyString \/
  (Re.matches commentRe (metaOf prev) = true /\
   Js.startsWith (metaOf prev) "<!--" = true /\
   Js.endsWith (metaOf prev) "-->" = true).
Proof.
  destruct prev as [p|]; [|now left]. unfold metaOf.
  destruct (Re.matches commentRe p) eqn:E; [|now left].
  right. split; [exact E|].
  apply commentRe_spec in E as (m & -> & _). split; [reflexivity|].
  rewrite <- app_assoc. apply endsWith_app.
Qed.

Lemma parseFrom_items (lines : list string) (prev : option string) :
  Forall (fun item => parsedItem item /\ roundTripItem item)
         (parseFrom prev lines).
Proof.
  revert prev. induction lines as [|line rest IH]; intros prev.
  - constructor.
  - rewrite parseFrom_cons.
    destruct (matchItem line) as [[g1 g2]|] eqn:E; [|apply IH].
    apply matchItem_spec in E as (c & _ & _ & _ & Hne & Hlt).
    constructor; [|apply IH].
    pose proof (metaOf_valid prev) as Hmeta.
    unfold parsedItem, roundTripItem, validMeta. simpl.
    repeat split; auto using noLineTerminator_noNewline.
    destruct Hmeta as [Hm|(Hm & _)]; auto.
Qed.

(** ** Case variants *)

Lemma lowerChar_upper (a : ascii) :
  Js.between 65 90 a = true ->
  Js.lowerChar a = ascii_of_nat (Js.code a + 32).
Proof. unfold Js.lowerChar. now intros ->. Qed.

Lemma lowerChar_lower (a b : ascii) :
  Js.between 65 90 a = true -> Js.code b = Js.code a + 32 ->
  Js.lowerChar b = ascii_of_nat (Js.code a + 32).
Proof.
  unfold Js.lowerChar, Js.between. intros Ha Hb.
  apply andb_true_iff in Ha as [H1 H2].
  apply Nat.leb_le in H1, H2.
  rewrite <- Hb.
  replace (65 <=? Js.code b) with true by (symmetry; apply Nat.leb_le; lia).
  replace (Js.code b <=? 90) with false by (symmetry; apply Nat.leb_gt; lia).
  replace (192 <=? Js.code b) with false by (symmetry; apply Nat.leb_gt; lia).
  simpl. unfold Js.code. now rewrite ascii_nat_embedding.
Qed.

Lemma sameLetter_lower (a b : ascii) :
  sameLetter a b = true -> Js.lowerChar a = Js.lowerChar b.
Proof.
  unfold sameLetter. intros H.
  apply orb_true_iff in H as [H|H]; [apply orb_true_iff in H as [H|H]|].
  - apply Ascii.eqb_eq in H. now subst.
  - apply andb_true_iff in H as [Ha Hb]. apply Nat.eqb_eq in Hb.
    now rewrite (lowerChar_upper a Ha), (lowerChar_lower a b Ha Hb).
  - apply andb_true_iff in H as [Hb Ha]. apply Nat.eqb_eq in Ha.
    now rewrite (lowerChar_upper b Hb), (lowerChar_lower b a Hb Ha).
Qed.

Lemma caseVariant_lower (s t : string) :
  caseVariant s t = true -> Js.toLowerCase s = Js.toLowerCase t.
Proof.
  revert t. induction s as [|a s IH]; intros [|b t]; simpl;
    try discriminate; [reflexivity|].
  intros H. apply andb_true_iff in H as [Hab Hst].
  now rewrite (sameLetter_lower a b Hab), (IH t Hst).
Qed.

Lemma isHousekeeping_lower (s t : string) :
  Js.toLowerCase s = Js.toLowerCase t -> isHousekeeping s = isHousekeeping t.
Proof. unfold isHousekeeping. now intros ->. Qed.

(** ** Comma-separated lists *)

Lemma split_join_entries (entries : list string) :
  Forall noComma entries ->
  List.filter Js.nonEmpty (map Js.trim (Js.split "," (Js.join "," entries))) =
  List.filter Js.nonEmpty (map Js.trim entries).
Proof.
  destruct entries as [|e es]; [reflexivity|].
  intros H. now rewrite (split_join "," e es H).
Qed.

(** ** Blank content holds no checklist item *)

Lemma trimEnd_empty (s : string) :
  Js.trimEnd s = EmptyString -> Js.all Js.isWhiteSpace s = true.
Proof.
  induction s as [|c s IH]; simpl; [reflexivity|].
  destruct (Js.trimEnd s); [|discriminate].
  destruct (Js.isWhiteSpace c); [|discriminate].
  intros _. now rewrite IH.
Qed.

Lemma trimStart_all (s : string) :
  Js.all Js.isWhiteSpace (Js.trimStart s) = true ->
  Js.all Js.isWhiteSpace s = true.
Proof.
  induction s as [|c s IH]; simpl; [reflexivity|].
  destruct (Js.isWhiteSpace c) eqn:E; simpl; [exact IH|].
  now rewrite E.
Qed.

Lemma trim_empty (s : string) :
  Js.trim s = EmptyString -> Js.all Js.isWhiteSpace s = true.
Proof. intros H. now apply trimStart_all, trimEnd_empty. Qed.

Lemma split_all (p : ascii -> bool) (sep : ascii) (s : string) :
  Js.all p s = true -> Forall (fun l => Js.all p l = true) (Js.split sep s).
Proof.
  induction s as [|c s IH]; simpl; intros H; [now repeat constructor|].
  apply andb_true_iff in H as [Hc Hs]. specialize (IH Hs).
  destruct (Ascii.eqb c sep); [now constructor|].
  destruct (Js.split sep s) as [|l ls];
    [repeat constructor; simpl; now rewrite Hc|].
  inversion IH; subst. constructor; [simpl; now rewrite Hc | assumption].
Qed.

Lemma blank_line_no_item (line : string) :
  Js.all Js.isWhiteSpace line = true -> matchItem line = None.
Proof.
  intros H. destruct (matchItem line) as [[g1 g2]|] eqn:E; [|reflexivity].
  apply matchItem_spec in E as (c & -> & _). discriminate.
Qed.

Lemma parseFrom_no_item (lines : list string) (prev : option string) :
  Forall (fun l => matchItem l = None) lines -> parseFrom prev lines = [].
Proof.
  revert prev. induction lines as [|l ls IH]; intros prev H; [reflexivity|].
  inversion H as [|? ? Hl Hls]; subst.
  now rewrite parseFrom_cons, Hl, IH.
Qed.

Lemma parse_blank (content : string) :
  Js.trim content = EmptyString -> parseScratchpad content = [].
Proof.
  intros H. rewrite parseScratchpad_parseFrom.
  apply parseFrom_no_item.
  eapply Forall_impl; [apply split_all, trim_empty, H|].
  intros l Hl. now apply blank_line_no_item.
Qed.

(** ** The sections of the context *)

Lemma context_fold (config : MemoryConfig) (fs : FileSystem)
    (names : list string) (acc : list string) :
  foldl (contextStep config fs) acc names =
  acc ++ concat (map (fun fileName =>
                        fileSection fileName
                          (readFileSafe fs
                             (Path.join [memoryDir config; fileName])))
                     names).
Proof.
  revert acc. induction names as [|n ns IH]; intros acc; simpl.
  - now rewrite List.app_nil_r.
  - rewrite IH. unfold contextStep. now rewrite <- List.app_assoc.
Qed.

Lemma buildSections_split (config : MemoryConfig) (today yesterday : string)
    (fs : FileSystem) :
  buildSections config today yesterday fs =
  leadingSections config fs ++
  scratchpadSection (readFileSafe fs (scratchpadFile config)) ++
  dailySections config today yesterday fs.
Proof.
  unfold buildSections, leadingSections, dailySections.
  rewrite context_fold. simpl app at 1.
  now rewrite <- !List.app_assoc.
Qed.

Lemma buildMemoryContext_sections (config : MemoryConfig)
    (today yesterday : string) (fs : FileSystem) :
  snd (buildMemoryContext config today yesterday fs) =
  assemble (buildSections config today yesterday fs).
Proof. reflexivity. Qed.

Lemma fileSection_present (heading content : string) :
  Js.trim content <> EmptyString ->
  fileSection heading (Some content) =
  ["## " +:+ heading +:+ nl2 +:+ Js.trim content].
Proof.
  intros H. unfold fileSection.
  destruct (Js.trim content); [congruence | reflexivity].
Qed.

Lemma fileSection_blank (fs : FileSystem) (heading filePath : string) :
  absentOrBlank fs filePath ->
  fileSection heading (readFileSafe fs filePath) = [].
Proof.
  intros H. unfold fileSection.
  destruct (readFileSafe fs filePath) as [content|] eqn:E; [|reflexivity].
  now rewrite (H content E).
Qed.

Lemma filter_open_nil (items : list ScratchpadItem) :
  Forall (fun i => done i = true) items -> List.filter isOpen items = [].
Proof.
  induction 1 as [|i items Hi _ IH]; [reflexivity|].
  simpl. unfold isOpen at 1. now rewrite Hi.
Qed.

Lemma filter_open_cons (items : list ScratchpadItem) :
  Exists (fun i => done i = false) items ->
  (0 <? length (List.filter isOpen items)) = true.
Proof.
  induction 1 as [i items Hi | i items _ IH]; simpl.
  - unfold isOpen at 1. now rewrite Hi.
  - destruct (isOpen i); [reflexivity | exact IH].
Qed.

Lemma scratchpadSection_done (content : string) :
  Forall (fun i => done i = true) (parseScratchpad content) ->
  scratchpadSection (Some content) = [].
Proof.
  intros H. unfold scratchpadSection.
  rewrite (filter_open_nil _ H).
  now destruct (Js.nonEmpty (Js.trim content)).
Qed.

Lemma scratchpadSection_open (content : string) :
  Exists (fun i => done i = false) (parseScratchpad content) ->
  scratchpadSection (Some content) =
  ["## SCRATCHPAD.md (working context)" +:+ nl2 +:+
   serializeScratchpad (List.filter isOpen (parseScratchpad content))].
Proof.
  intros H. unfold scratchpadSection.
  destruct (Js.nonEmpty (Js.trim content)) eqn:E.
  - now rewrite (filter_open_cons _ H).
  - apply nonEmpty_false, parse_blank in E. rewrite E in H. inversion H.
Qed.

(** No section qualifies: every file read is absent or blank, or, for the
    checklist, holds no open item.  The context is then empty. *)
Lemma buildMemoryContext_nothing (config : MemoryConfig)
    (today yesterday : string) (fs : FileSystem) :
  Forall (fun fileName =>
            absentOrBlank fs (Path.join [memoryDir config; fileName]))
         (contextFiles config) ->
  absentOrBlank fs (memoryFile config) ->
  (forall content,
     readFileSafe fs (scratchpadFile config) = Some content ->
     Forall (fun i => done i = true) (parseScratchpad content)) ->
  absentOrBlank fs (dailyPath (dailyDir config) today) ->
  absentOrBlank fs (dailyPath (dailyDir config) yesterday) ->
  snd (buildMemoryContext config today yesterday fs) = EmptyString.
Proof.
  intros Hctx Hlt Hsp Htd Hyd.
  rewrite buildMemoryContext_sections, buildSections_split.
  unfold leadingSections, dailySections.
  rewrite !fileSection_blank by assumption.
  assert (scratchpadSection (readFileSafe fs (scratchpadFile config)) = [])
    as ->.
  { destruct (readFileSafe fs (scratchpadFile config)) as [content|] eqn:E;
      [|reflexivity].
    apply scratchpadSection_done, Hsp, eq_refl. }
  assert (concat (map (fun fileName =>
              fileSection fileName
                (readFileSafe fs (Path.join [memoryDir config; fileName])))
            (contextFiles config)) = []) as ->.
  { induction Hctx as [|f l Hf _ IH]; [reflexivity|].
    rewrite map_cons, concat_cons, IH.
    now rewrite (fileSection_blank _ _ _ Hf). }
  reflexivity.
Qed.

(** ** Search: provenance of the line results, bound, stopping *)

(** Comparing a length with a number. *)

Lemma ge_not_lt (n : nat) (m : number) :
  geLength n m = true -> ltLength n m = false.
Proof.
  destruct m as [q|[]|]; simpl; try discriminate; intros H;
    [now rewrite H | reflexivity].
Qed.

Lemma lt_not_ge (n : nat) (m : number) :
  ltLength n m = true -> geLength n m = false.
Proof.
  destruct m as [q|[]|]; simpl; try discriminate; try reflexivity.
  intros H. now apply negb_true_iff in H.
Qed.

Lemma ltLength_mono (k n : nat) (m : number) :
  k <= n -> ltLength n m = true -> ltLength k m = true.
Proof.
  intros Hkn. destruct m as [q|neg|]; simpl; auto.
  rewrite !negb_true_iff. intros Hn.
  destruct (Qle_bool q (inject_Z (Z.of_nat k))) eqn:Hk; [|reflexivity].
  apply Qle_bool_iff in Hk.
  assert (Qle_bool q (inject_Z (Z.of_nat n)) = true) as E; [|congruence].
  apply Qle_bool_iff. eapply Qle_trans; [exact Hk|].
  rewrite <- Zle_Qle. lia.
Qed.

Lemma geLength_integer (n : nat) (z : Z) :
  geLength n (integer z) = true <-> (z <= Z.of_nat n)%Z.
Proof.
  unfold integer, geLength. now rewrite Qle_bool_iff, <- Zle_Qle.
Qed.


Section SearchFacts.

Variable fs : FileSystem.
Variable needle : string.
Variable maxResults : number.

Lemma searchLines_stop (name : string) (lines : list string) (i : nat)
    (rs : list Search.LineResult) :
  ltLength (length rs) maxResults = false ->
  Search.searchLines needle name maxResults lines i rs = rs.
Proof.
  intros H. destruct lines as [|l rest]; [reflexivity|].
  cbn [Search.searchLines]. now rewrite H.
Qed.



Lemma searchFile_lineResults_stop (filePath name : string)
    (st : Search.SearchResult) :
  ltLength (length (Search.lineResults st)) maxResults = false ->
  Search.lineResults
    (Search.searchFile fs needle maxResults filePath name st) =
  Search.lineResults st.
Proof.
  intros H. unfold Search.searchFile.
  destruct (readFileSafe fs filePath) as [content|]; [|reflexivity].
  destruct (negb (Js.nonEmpty content)); [reflexivity|].
  simpl. now apply searchLines_stop.
Qed.


Lemma searchFiles_stop (dir prefix : string) (names : list string)
    (st : Search.SearchResult) :
  geLength (length (Search.lineResults st)) maxResults = true ->
  Search.searchFiles fs needle maxResults dir prefix names st = st.
Proof.
  intros H. destruct names as [|f rest]; [reflexivity|].
  cbn [Search.searchFiles]. now rewrite H.
Qed.


Lemma searchDir_stop (dir prefix : string) (st : Search.SearchResult) :
  geLength (length (Search.lineResults st)) maxResults = true ->
  Search.searchDir fs needle maxResults dir prefix st = st.
Proof.
  intros H. unfold Search.searchDir.
  destruct (readdirSync fs dir); [|reflexivity].
  now apply searchFiles_stop.
Qed.


Variable config : MemoryConfig.



Lemma sorted_md_names (names : list string) :
  Forall (fun f => In f names /\ Js.endsWith f ".md" = true)
    (Search.sort (List.filter (fun f => Js.endsWith f ".md") names)).
Proof.
  apply Forall_forall. intros f Hf.
  unfold Search.sort in Hf.
  rewrite merge_sort_Permutation, list_elem_of_In in Hf.
  now apply filter_In in Hf.
Qed.


End SearchFacts.


Lemma searchMemory_no_results (config : MemoryConfig) (query : string)
    (limit : number) (fs : FileSystem) :
  geLength 0 limit = true ->
  Search.searchMemory config query (Some limit) fs =
  {| Search.fileMatches := []; Search.lineResults := [] |}.
Proof.
  intros H. unfold Search.searchMemory. cbn [orElse].
  rewrite (searchDir_stop _ _ _ (memoryDir config)) by exact H.
  rewrite (searchDir_stop _ _ _ (dailyDir config)) by exact H.
  now rewrite searchDir_stop by exact H.
Qed.

(** ** The session scanner *)

Lemma get_getOpt (v : value) (k : string) :
  get v k = Throw \/ get v k = Ok (getOpt v k).
Proof. destruct v as [[]|]; simpl; auto. Qed.

Lemma isStr_get (v : value) (k s : string) :
  isStr (getOpt v k) s = true -> get v k = Ok (getOpt v k).
Proof. destruct v as [[]|]; simpl; try discriminate; auto. Qed.

Lemma entryTitle_sessionName (line : option json) (title : json) :
  entryTitle line title = orElse (sessionName line) title.
Proof.
  unfold entryTitle, sessionName. destruct line as [entry|]; [|reflexivity].
  destruct entry; simpl; try reflexivity.
  destruct (isStr _ _ && truthy _); reflexivity.
Qed.

Lemma sessionName_truthy (line : option json) (n : json) :
  sessionName line = Some n -> truthy (Some n) = true.
Proof.
  unfold sessionName.
  destruct (isStr (getOpt line "type") "session_info"); simpl;
    [|discriminate].
  destruct (truthy (getOpt line "name")) eqn:E; [|discriminate].
  intros H. now rewrite H in E.
Qed.

Lemma fold_title_none (rest : list (option json)) (title : json) :
  Forall (fun l => sessionName l = None) rest ->
  foldl (fun t l => entryTitle l t) title rest = title.
Proof.
  induction 1 as [|l rest Hl _ IH]; simpl; [reflexivity|].
  rewrite entryTitle_sessionName, Hl. exact IH.
Qed.

Lemma fold_title_last (pre post : list (option json)) (e : option json)
    (n title : json) :
  sessionName e = Some n ->
  Forall (fun l => sessionName l = None) post ->
  foldl (fun t l => entryTitle l t) title (pre ++ e :: post) = n.
Proof.
  intros He Hpost. rewrite foldl_app. simpl.
  rewrite entryTitle_sessionName, He. now apply fold_title_none.
Qed.

Section ScannerFacts.

Variable dateTime : json -> option Z.
Variable cutoffTime : Z.

Lemma firstPass_rest (rest : list (option json)) (n : nat)
    (header title : json) :
  1 <= n ->
  firstPass dateTime cutoffTime rest n header title =
  Completed header (foldl (fun t l => entryTitle l t) title rest).
Proof.
  revert n title. induction rest as [|l rest IH]; intros n title Hn;
    [reflexivity|].
  simpl. replace (n =? 0) with false by (symmetry; apply Nat.eqb_neq; lia).
  apply IH. lia.
Qed.

Lemma firstPass_header (h : json) (rest : list (option json))
    (header title : json) :
  firstPass dateTime cutoffTime (Some h :: rest) 0 header title =
  match get (Some h) "timestamp" with
  | Throw => Returned 1
  | Ok ts =>
      if truthy ts && isStale dateTime cutoffTime ts then Returned 1
      else firstPass dateTime cutoffTime rest 1 h title
  end.
Proof. reflexivity. Qed.

Lemma firstPass_completed (lines : list (option json)) (header title : json) :
  firstPass dateTime cutoffTime lines 0 JNull (JStr EmptyString) =
    Completed header title ->
  truthy (getOpt (Some header) "timestamp") = true ->
  exists rest,
    lines = Some header :: rest /\
    title = foldl (fun t l => entryTitle l t) (JStr EmptyString) rest /\
    isStale dateTime cutoffTime (getOpt (Some header) "timestamp") = false.
Proof.
  destruct lines as [|[h|] rest].
  - intros [= <- <-]. discriminate.
  - rewrite firstPass_header.
    destruct (get_getOpt (Some h) "timestamp") as [E|E]; rewrite E;
      [discriminate|].
    destruct (truthy (getOpt (Some h) "timestamp") &&
              isStale dateTime cutoffTime (getOpt (Some h) "timestamp"))
      eqn:Es; [discriminate|].
    rewrite firstPass_rest by lia. intros [= <- <-] Ht.
    exists rest. repeat split. rewrite Ht in Es. exact Es.
  - discriminate.
Qed.

End ScannerFacts.

Lemma slice0_length (n : nat) (s : string) : String.length (Js.slice0 n s) <= n.
Proof.
  revert s. induction n as [|n IH]; intros [|c s]; simpl; try lia.
  specialize (IH s). lia.
Qed.

Lemma slice0_nonEmpty (n : nat) (s : string) :
  Js.nonEmpty (Js.slice0 (S n) s) = Js.nonEmpty s.
Proof. now destruct s. Qed.

Lemma findText_first (parts : list json) (p : json) :
  firstTextPart parts = Some p ->
  findText parts = Ok (Some p) /\ exists fields, p = JObj fields.
Proof.
  induction parts as [|c rest IH]; [discriminate|].
  destruct c as [|b|q|s|l|fields]; simpl; auto; try discriminate.
  destruct (isStr (field "type" fields) "text"); [|exact IH].
  intros [= <-]. eauto.
Qed.

Lemma userTitle_skip (line : option json) (title : json) :
  isUserMessage line = false ->
  userTitle line title = Throw \/ userTitle line title = Ok None.
Proof.
  unfold isUserMessage, userTitle. intros H.
  destruct line as [entry|]; [|now left].
  destruct (get_getOpt (Some entry) "type") as [E|E]; rewrite E;
    [now left|].
  cbn [bind]. rewrite H. now right.
Qed.

Lemma userTitle_text (line : option json) (title : json) (s : string) :
  isUserMessage line = true -> messageText line = Some s ->
  userTitle line title = Ok (Some (JStr (Js.slice0 80 s))).
Proof.
  unfold isUserMessage, userTitle, messageText. intros H Ht.
  destruct line as [entry|]; [|discriminate].
  apply andb_true_iff in H as [H1 H2].
  rewrite (isStr_get _ _ _ H1). cbn [bind]. rewrite H1, H2. cbn [andb].
  destruct (getOpt (Some entry) "message") as [m|] eqn:Em;
    [|discriminate].
  destruct m as [| | | | |fields]; try discriminate.
  cbn [get getOpt bind] in *.
  destruct (field "content" fields) as [[| | |c|parts|]|]; try discriminate.
  - now injection Ht as ->.
  - destruct (firstTextPart parts) as [p|] eqn:Ep; [|discriminate].
    apply findText_first in Ep as [-> [pf ->]].
    cbn [get getOpt bind truthy] in *.
    destruct (field "text" pf) as [[| | |c| |]|]; try discriminate.
    now injection Ht as ->.
Qed.

Lemma secondPass_skip (pre rest : list (option json)) (title : json) :
  Forall (fun l => isUserMessage l = false) pre ->
  secondPass (pre ++ rest) title = secondPass rest title.
Proof.
  induction 1 as [|l pre Hl _ IH]; [reflexivity|].
  simpl. now destruct (userTitle_skip l title Hl) as [-> | ->].
Qed.

Lemma scanSession_accepted (dateTime : json -> option Z) (now : Z)
    (logs : gmap string (list (option json))) (filePath : string)
    (lines : list (option json)) (info : SessionInfo) :
  logs !! filePath = Some lines ->
  scanSession dateTime now logs filePath = Some info ->
  exists header rest,
    lines = Some header :: rest /\
    truthy (getOpt (Some header) "timestamp") = true /\
    isStale dateTime (now - LOOKBACK_MS) (getOpt (Some header) "timestamp")
      = false /\
    title info =
    finalTitle lines (foldl (fun t l => entryTitle l t) (JStr EmptyString) rest).
Proof.
  intros Hlines. unfold scanSession. rewrite Hlines.
  destruct (firstPass dateTime (now - LOOKBACK_MS) lines 0 JNull
              (JStr EmptyString)) as [|header title0] eqn:Hfirst;
    [discriminate|].
  destruct (truthy (getOpt (Some header) "timestamp")) eqn:Hts;
    [|discriminate].
  apply firstPass_completed in Hfirst as (rest & -> & -> & Hstale);
    [|exact Hts].
  intros [= <-]. exists header, rest. repeat split; auto.
Qed.

Lemma finalTitle_named (lines : list (option json)) (n : json) :
  truthy (Some n) = true -> finalTitle lines n = n.
Proof.
  intros H. unfold finalTitle. rewrite H. cbn [negb]. now rewrite H.
Qed.

Lemma finalTitle_text (pre post : list (option json)) (e : option json)
    (s : string) :
  Forall (fun l => isUserMessage l = false) pre ->
  isUserMessage e = true -> messageText e = Some s ->
  finalTitle (pre ++ e :: post) (JStr EmptyString) = titleOfText s.
Proof.
  intros Hpre He Hs. unfold finalTitle. cbn [truthy Js.nonEmpty negb].
  rewrite (secondPass_skip _ _ _ Hpre). cbn [secondPass].
  rewrite (userTitle_text _ _ _ He Hs).
  unfold titleOfText. cbn [truthy]. now rewrite slice0_nonEmpty.
Qed.

Lemma finalTitle_untitled (lines : list (option json)) :
  Forall (fun l => isUserMessage l = false) lines ->
  finalTitle lines (JStr EmptyString) = JStr "(untitled)".
Proof.
  intros H. unfold finalTitle. cbn [truthy Js.nonEmpty negb].
  rewrite <- (List.app_nil_r lines).
  now rewrite (secondPass_skip _ _ _ H).
Qed.

(** ** The [memory_write] tool: the note branch *)

Lemma note_scope_filename (params : gmap string string) :
  MemoryWrite.resolve
    (MemoryWrite.destructure ["target"; "content"; "mode"] params ∅)
    "filename" =
  inl (MemoryWrite.ReferenceError "filename").
Proof.
  unfold MemoryWrite.resolve, MemoryWrite.destructure. simpl foldl.
  rewrite !lookup_insert_ne by discriminate.
  now rewrite lookup_empty.
Qed.

Lemma memory_write_note_throws (config : MemoryConfig)
    (sessionId now today : string) (params : gmap string string)
    (fs : FileSystem) :
  params !! "target" = Some "note" ->
  snd (MemoryWrite.execute config sessionId now today params fs) =
  MemoryWrite.Throws (MemoryWrite.ReferenceError "filename").
Proof.
  intros H. unfold MemoryWrite.execute.
  rewrite H, note_scope_filename. reflexivity.
Qed.

(** * Further properties of the code *)

(** ** The checklist codec, continued *)

Lemma parse_valid (content : string) :
  Forall roundTripItem (parseScratchpad content).
Proof.
  rewrite parseScratchpad_parseFrom.
  eapply Forall_impl; [apply parseFrom_items|]. now intros item [_ H].
Qed.

Lemma parseFrom_prev (prev prev' : option string) (lines : list string) :
  metaOf prev = metaOf prev' -> parseFrom prev lines = parseFrom prev' lines.
Proof.
  intros H. destruct lines as [|l rest]; [reflexivity|].
  rewrite !parseFrom_cons, H. reflexivity.
Qed.

Lemma parseFrom_app (prev : option string) (l1 l2 : list string) :
  parseFrom prev (l1 ++ l2) =
  parseFrom prev l1 ++
  parseFrom (match last l1 with Some l => Some l | None => prev end) l2.
Proof.
  revert prev. induction l1 as [|l rest IH]; intros prev; [reflexivity|].
  change ((l :: rest) ++ l2) with (l :: (rest ++ l2)).
  rewrite !parseFrom_cons, IH.
  assert (match last (l :: rest) with Some x => Some x | None => prev end =
          match last rest with Some x => Some x | None => Some l end) as ->.
  { destruct rest as [|r rest']; [reflexivity|].
    rewrite last_cons_cons.
    destruct (last (r :: rest')) eqn:E; [reflexivity|].
    now apply last_None in E. }
  destruct (matchItem l) as [[g1 g2]|]; reflexivity.
Qed.

Lemma split_last_line (sep : ascii) (s : string) :
  exists l, last (Js.split sep s) = Some l.
Proof.
  destruct (Js.split sep s) as [|x xs] eqn:E;
    [now apply split_nonempty in E|].
  destruct (last (x :: xs)) eqn:El; [eauto|].
  now apply last_None in El.
Qed.

Lemma all_slice0 (p : ascii -> bool) (n : nat) (s : string) :
  Js.all p s = true -> Js.all p (Js.slice0 n s) = true.
Proof.
  revert s. induction n as [|n IH]; intros [|c s]; simpl; auto.
  intros H. apply andb_true_iff in H as [Hc Hs]. now rewrite Hc, IH.
Qed.

Lemma stamp_valid (ts sid : string) :
  noLineTerminator ts -> noLineTerminator sid ->
  Re.matches commentRe (MemoryWrite.stamp ts sid) = true.
Proof.
  intros Hts Hsid. apply commentRe_spec.
  exists (" " +:+ ts +:+ " [" +:+ sid +:+ "] "). split.
  - unfold MemoryWrite.stamp.
    change "<!-- " with ("<!--" +:+ " ").
    change "] -->" with ("] " +:+ "-->").
    now rewrite !app_assoc.
  - unfold noLineTerminator in *.
    rewrite !all_app, Hts, Hsid. reflexivity.
Qed.

Lemma stamp_nonEmpty (ts sid : string) :
  Js.nonEmpty (MemoryWrite.stamp ts sid) = true.
Proof. reflexivity. Qed.

Lemma setDone_valid (b : bool) (item : ScratchpadItem) :
  roundTripItem item -> roundTripItem (ScratchpadTool.setDone b item).
Proof. now intros H. Qed.

Lemma filter_valid (items : list ScratchpadItem) :
  Forall roundTripItem items -> Forall roundTripItem (List.filter isOpen items).
Proof.
  induction 1 as [|i items Hi _ IH]; simpl; [constructor|].
  destruct (isOpen i); [now constructor | exact IH].
Qed.

(** ** The [scratchpad] tool *)


Lemma markFirst_none (b : bool) (needle : string)
    (items : list ScratchpadItem) :
  ScratchpadTool.markFirst b needle items = None <->
  Forall (fun i => ScratchpadTool.candidate b needle i = false) items.
Proof.
  induction items as [|i items IH]; simpl; [now split|].
  destruct (ScratchpadTool.candidate b needle i) eqn:E.
  - split; [discriminate|]. intros H. inversion H; congruence.
  - destruct (ScratchpadTool.markFirst b needle items); simpl.
    + split; [discriminate|]. intros H. inversion H; subst.
      now apply IH in H3.
    + split; [|reflexivity]. intros _. constructor; [exact E|now apply IH].
Qed.

Lemma markFirst_some (b : bool) (needle : string)
    (pre post : list ScratchpadItem) (item : ScratchpadItem) :
  Forall (fun i => ScratchpadTool.candidate b needle i = false) pre ->
  ScratchpadTool.candidate b needle item = true ->
  ScratchpadTool.markFirst b needle (pre ++ item :: post) =
  Some (pre ++ ScratchpadTool.setDone b item :: post).
Proof.
  intros Hpre Hitem. induction Hpre as [|i pre Hi _ IH]; simpl.
  - now rewrite Hitem.
  - now rewrite Hi, IH.
Qed.

Lemma markFirst_valid (b : bool) (needle : string)
    (items items' : list ScratchpadItem) :
  ScratchpadTool.markFirst b needle items = Some items' ->
  Forall roundTripItem items -> Forall roundTripItem items'.
Proof.
  revert items'. induction items as [|i items IH]; intros items';
    [discriminate|].
  simpl. destruct (ScratchpadTool.candidate b needle i).
  - intros [= <-] H. inversion H; subst. now constructor.
  - destruct (ScratchpadTool.markFirst b needle items) as [l|];
      [|discriminate].
    simpl. intros [= <-] H. inversion H; subst. constructor; auto.
Qed.

Lemma truthyStr_some (t : string) :
  t <> EmptyString -> MemoryWrite.truthyStr (Some t) = true.
Proof. destruct t; [contradiction | reflexivity]. Qed.

Lemma read_after_write (p data : string) (fs : FileSystem) :
  readFileSafe (MemoryWrite.writeFileSync p data fs) p = Some data.
Proof. apply lookup_insert_eq. Qed.

Lemma read_other_after_write (p q data : string) (fs : FileSystem) :
  p <> q ->
  readFileSafe (MemoryWrite.writeFileSync p data fs) q = readFileSafe fs q.
Proof. intros H. now apply lookup_insert_ne. Qed.

Lemma filter_open_all (items : list ScratchpadItem) :
  List.filter isOpen (List.filter isOpen items) = List.filter isOpen items.
Proof.
  induction items as [|i items IH]; [reflexivity|]. simpl.
  destruct (isOpen i) eqn:E; [|exact IH]. simpl. now rewrite E, IH.
Qed.

Lemma filter_open_length (items : list ScratchpadItem) :
  length (List.filter isOpen items) +
  length (List.filter (fun i => done i) items) = length items.
Proof.
  induction items as [|i items IH]; [reflexivity|]. simpl.
  unfold isOpen at 1. destruct (done i); simpl; lia.
Qed.

Lemma read_ensureDirs (config : MemoryConfig) (fs : FileSystem) (p : string) :
  readFileSafe (ensureDirs config fs) p = readFileSafe fs p.
Proof. reflexivity. Qed.

Lemma files_ensureDirs (config : MemoryConfig) (fs : FileSystem) :
  files (ensureDirs config fs) = files fs.
Proof. reflexivity. Qed.

Lemma clear_done_file (config : MemoryConfig) (sessionId now : string)
    (params : gmap string string) (fs : FileSystem) :
  params !! "action" = Some "clear_done" ->
  let items :=
    parseScratchpad
      (orElse (readFileSafe fs (scratchpadFile config)) EmptyString) in
  readFileSafe
    (fst (ScratchpadTool.execute config sessionId now params fs))
    (scratchpadFile config) =
  Some (serializeScratchpad (List.filter isOpen items)).
Proof.
  intros Ha items.
  unfold ScratchpadTool.execute. cbv zeta. rewrite Ha, read_ensureDirs.
  decide_actions. apply read_after_write.
Qed.

(** ** Lines of a checklist file *)

Lemma slice0_drop (n : nat) (s : string) : Js.slice0 n s +:+ Js.drop n s = s.
Proof.
  revert s. induction n as [|n IH]; intros [|c s]; simpl; try reflexivity.
  now rewrite IH.
Qed.

Lemma endsWith_inv (s p : string) :
  Js.endsWith s p = true -> exists q, s = q +:+ p.
Proof.
  unfold Js.endsWith. intros H. apply andb_true_iff in H as [_ H].
  apply String.eqb_eq in H.
  set (n := String.length s - String.length p) in *.
  exists (Js.slice0 n s). rewrite <- H. symmetry. apply slice0_drop.
Qed.

Lemma item_line_noLineTerminator (line : string) (g : string * string) :
  matchItem line = Some g -> noLineTerminator line.
Proof.
  destruct g as [g1 g2]. intros H.
  apply matchItem_spec in H as (c & -> & Hc & _ & _ & Hlt).
  unfold noLineTerminator in *.
  change ("- [" +:+ String c ("] " +:+ g2))
    with ("- [" +:+ (String c "] " +:+ g2)).
  rewrite !all_app, Hlt.
  destruct Hc as [-> | [-> | ->]]; reflexivity.
Qed.

Lemma carriage_return_no_item (line : string) :
  Js.endsWith line (String Js.CR EmptyString) = true -> matchItem line = None.
Proof.
  intros H. apply endsWith_inv in H as [q ->].
  destruct (matchItem _) as [g|] eqn:E; [|reflexivity].
  apply item_line_noLineTerminator in E. unfold noLineTerminator in E.
  rewrite all_app in E. apply andb_true_iff in E as [_ E]. discriminate.
Qed.

Lemma join_cons (sep l : string) (ls : list string) :
  ls <> [] -> Js.join sep (l :: ls) = l +:+ sep +:+ Js.join sep ls.
Proof. destruct ls; [contradiction | reflexivity]. Qed.

Lemma join_lines (l : string) (ls : list string) :
  Js.join Js.nl (l :: ls) +:+ Js.nl = unlines (l :: ls).
Proof.
  revert l. induction ls as [|l' ls IH]; intros l; [reflexivity|].
  rewrite join_cons by discriminate.
  change (unlines (l :: l' :: ls)) with (l +:+ Js.nl +:+ unlines (l' :: ls)).
  rewrite <- IH. now rewrite !app_assoc.
Qed.

Lemma unlines_app (l1 l2 : list string) :
  unlines (l1 ++ l2) = unlines l1 +:+ unlines l2.
Proof.
  induction l1 as [|l l1 IH]; [reflexivity|].
  change (unlines ((l :: l1) ++ l2)) with (l +:+ Js.nl +:+ unlines (l1 ++ l2)).
  change (unlines (l :: l1)) with (l +:+ Js.nl +:+ unlines l1).
  now rewrite IH, !app_assoc.
Qed.

Lemma serialize_unlines (items : list ScratchpadItem) :
  serializeScratchpad items =
  ("# Scratchpad" +:+ nl2) +:+ unlines (concat (map itemLines items)).
Proof.
  unfold serializeScratchpad. rewrite serialize_fold.
  change (["# Scratchpad"; EmptyString] ++ ?l)
    with ("# Scratchpad" :: (EmptyString :: l)).
  rewrite join_lines.
  change ("# Scratchpad" :: EmptyString :: ?l)
    with (["# Scratchpad"; EmptyString] ++ l).
  now rewrite unlines_app.
Qed.

(** ** The [memory_write] tool *)

Lemma startsWith_app (s t : string) : Js.startsWith (s +:+ t) s = true.
Proof.
  induction s as [|c s IH]; simpl; [now destruct t|].
  now rewrite Ascii.eqb_refl, IH.
Qed.

Lemma trim_nonEmpty (s : string) :
  Js.all Js.isWhiteSpace s = false -> Js.trim s <> EmptyString.
Proof. intros H E. apply trim_empty in E. congruence. Qed.

Lemma stamped_not_blank (pre ts sid post : string) :
  Js.trim (pre +:+ MemoryWrite.stamp ts sid +:+ post) <> EmptyString.
Proof.
  apply trim_nonEmpty. rewrite all_app. apply andb_false_r.
Qed.

Lemma stampUpdated_not_blank (ts sid post : string) :
  Js.trim (MemoryWrite.stampUpdated ts sid +:+ post) <> EmptyString.
Proof. now apply trim_nonEmpty. Qed.

(** The data written for a target other than [note]. *)
Lemma memory_write_file (config : MemoryConfig)
    (sessionId now today : string) (params : gmap string string)
    (fs : FileSystem) :
  let target := orElse (params !! "target") EmptyString in
  let content := orElse (params !! "content") EmptyString in
  let path := writeTarget config today target in
  let existing := orElse (readFileSafe fs path) EmptyString in
  let sid := MemoryWrite.shortSessionId sessionId in
  target <> "note" ->
  exists r data,
    MemoryWrite.execute config sessionId now today params fs =
    (MemoryWrite.writeFileSync path data (ensureDirs config fs),
     MemoryWrite.Returns r) /\
    MemoryWrite.details r <> [] /\
    (data = MemoryWrite.stampUpdated now sid +:+ Js.nl +:+ content /\
     target <> "daily" /\ params !! "mode" = Some "overwrite" \/
     data = (existing +:+
             (if Js.nonEmpty (Js.trim existing) then nl2 else EmptyString))
            +:+ MemoryWrite.stamp now sid +:+ Js.nl +:+ content /\
     (target = "daily" \/ params !! "mode" <> Some "overwrite")).
Proof.
  intros target content path existing sid Hnote.
  unfold MemoryWrite.execute. cbv zeta. fold target content sid.
  apply String.eqb_neq in Hnote. rewrite Hnote.
  subst path existing. unfold writeTarget.
  rewrite !read_ensureDirs.
  destruct (String.eqb target "daily") eqn:Ed.
  - apply String.eqb_eq in Ed.
    eexists _, _. split; [reflexivity|]. split; [discriminate|].
    right. split; [now rewrite !app_assoc | now left].
  - apply String.eqb_neq in Ed.
    case_bool_decide as Hm.
    + eexists _, _. split; [reflexivity|]. split; [discriminate|].
      left. now repeat split.
    + eexists _, _. split; [reflexivity|]. split; [discriminate|].
      right. split; [now rewrite !app_assoc | now right].
Qed.

Lemma assemble_nonEmpty (sections : list string) :
  sections <> [] -> assemble sections <> EmptyString.
Proof. destruct sections; [contradiction | discriminate]. Qed.

Lemma assemble_empty (sections : list string) :
  assemble sections = EmptyString -> sections = [].
Proof. destruct sections; [reflexivity | discriminate]. Qed.

Lemma memory_write_data (config : MemoryConfig)
    (sessionId now today : string) (params : gmap string string)
    (fs : FileSystem) :
  orElse (params !! "target") EmptyString <> "note" ->
  exists r data,
    MemoryWrite.execute config sessionId now today params fs =
    (MemoryWrite.writeFileSync
       (writeTarget config today (orElse (params !! "target") EmptyString))
       data (ensureDirs config fs),
     MemoryWrite.Returns r) /\
    Js.endsWith data (orElse (params !! "content") EmptyString) = true /\
    Js.trim data <> EmptyString.
Proof.
  intros Hnote.
  destruct (memory_write_file config sessionId now today params fs Hnote)
    as (r & data & Hw & _ & Hdata).
  exists r, data. split; [exact Hw|].
  destruct Hdata as [(-> & _) | (-> & _)]; split.
  - rewrite <- !app_assoc. apply endsWith_app.
  - apply stampUpdated_not_blank.
  - rewrite <- !app_assoc. apply endsWith_app.
  - apply stamped_not_blank.
Qed.

Lemma trim_nonEmpty_inv (s : string) :
  Js.trim s <> EmptyString -> Js.nonEmpty s = true.
Proof. destruct s; [intros H; now contradiction H | reflexivity]. Qed.

Lemma section_in_context (config : MemoryConfig) (today yesterday : string)
    (fs : FileSystem) (section : string) :
  In section (buildSections config today yesterday fs) ->
  snd (buildMemoryContext config today yesterday fs) <> EmptyString.
Proof.
  intros H. rewrite buildMemoryContext_sections.
  apply assemble_nonEmpty. intros E. now rewrite E in H.
Qed.

(** ** Substrings *)

Lemma startsWith_app_l (s t p : string) :
  Js.startsWith s p = true -> Js.startsWith (s +:+ t) p = true.
Proof.
  revert s. induction p as [|a p IH]; intros s; [reflexivity|].
  destruct s as [|b s]; simpl; [discriminate|].
  intros H. apply andb_true_iff in H as [-> H]. now rewrite IH.
Qed.

Lemma includes_unfold (s p : string) :
  Js.includes s p =
  Js.startsWith s p ||
  match s with
  | EmptyString => false
  | String _ s' => Js.includes s' p
  end.
Proof. now destruct s. Qed.

Lemma includes_app_l (s t p : string) :
  Js.includes s p = true -> Js.includes (s +:+ t) p = true.
Proof.
  induction s as [|c s IH].
  - rewrite includes_unfold, orb_false_r. intros H.
    rewrite includes_unfold. now rewrite (startsWith_app_l _ t _ H).
  - rewrite includes_unfold. intros H.
    change (String c s +:+ t) with (String c (s +:+ t)).
    rewrite includes_unfold. apply orb_true_iff in H as [H | H].
    + change (String c (s +:+ t)) with (String c s +:+ t).
      now rewrite (startsWith_app_l _ t _ H).
    + rewrite (IH H). apply orb_true_r.
Qed.

Lemma includes_app_r (s t p : string) :
  Js.includes t p = true -> Js.includes (s +:+ t) p = true.
Proof.
  intros H. induction s as [|c s IH]; [exact H|].
  change (String c s +:+ t) with (String c (s +:+ t)).
  rewrite includes_unfold, IH. apply orb_true_r.
Qed.

Lemma includes_refl (s : string) : Js.includes s s = true.
Proof.
  rewrite includes_unfold.
  pose proof (startsWith_app s EmptyString) as H.
  rewrite app_nil_r in H. now rewrite H.
Qed.

Lemma includes_join (sep x : string) (parts : list string) :
  In x parts -> Js.includes (Js.join sep parts) x = true.
Proof.
  induction parts as [|p ps IH]; [contradiction|].
  intros [-> | H].
  - destruct ps; [apply includes_refl|].
    rewrite join_cons by discriminate. apply includes_app_l, includes_refl.
  - destruct ps as [|p' ps']; [contradiction|].
    rewrite join_cons by discriminate.
    apply includes_app_r, includes_app_r, IH, H.
Qed.

Lemma context_includes (config : MemoryConfig) (today yesterday : string)
    (fs : FileSystem) (section : string) :
  In section (buildSections config today yesterday fs) ->
  Js.includes (snd (buildMemoryContext config today yesterday fs)) section
  = true.
Proof.
  intros H. rewrite buildMemoryContext_sections.
  change (buildSections config today yesterday (ensureDirs config fs))
    with (buildSections config today yesterday fs).
  unfold assemble.
  destruct (buildSections config today yesterday fs) as [|s ss] eqn:E;
    [contradiction|].
  cbn [length Nat.eqb]. apply includes_app_r, includes_app_r.
  now apply includes_join.
Qed.

(** ** The memory context *)

Lemma fileSection_nil (fs : FileSystem) (heading filePath : string) :
  fileSection heading (readFileSafe fs filePath) = [] ->
  absentOrBlank fs filePath.
Proof.
  intros H content E. rewrite E in H. unfold fileSection in H.
  destruct (Js.nonEmpty (Js.trim content)) eqn:En; [discriminate|].
  now apply nonEmpty_false.
Qed.

Lemma filter_open_nil_inv (items : list ScratchpadItem) :
  List.filter isOpen items = [] -> Forall (fun i => done i = true) items.
Proof.
  induction items as [|i items IH]; [constructor|]. simpl.
  unfold isOpen at 1. destruct (done i) eqn:E; simpl; [|discriminate].
  intros H. constructor; auto.
Qed.

Lemma scratchpadSection_nil (content : string) :
  scratchpadSection (Some content) = [] ->
  Forall (fun i => done i = true) (parseScratchpad content).
Proof.
  unfold scratchpadSection.
  destruct (Js.nonEmpty (Js.trim content)) eqn:E.
  - destruct (List.filter isOpen (parseScratchpad content)) eqn:Ef;
      [|discriminate].
    intros _. now apply filter_open_nil_inv.
  - intros _. apply nonEmpty_false, parse_blank in E. rewrite E. constructor.
Qed.

Lemma concat_sections_nil (config : MemoryConfig) (fs : FileSystem)
    (names : list string) :
  concat (map (fun fileName =>
                 fileSection fileName
                   (readFileSafe fs (Path.join [memoryDir config; fileName])))
              names) = [] ->
  Forall (fun fileName =>
            absentOrBlank fs (Path.join [memoryDir config; fileName])) names.
Proof.
  induction names as [|n names IH]; [constructor|].
  cbn [map concat]. intros H. apply List.app_eq_nil in H as [H1 H2].
  constructor; [now apply fileSection_nil in H1 | auto].
Qed.

Lemma sections_agree (config : MemoryConfig) (today yesterday : string)
    (fs1 fs2 : FileSystem) :
  Forall (fun p => readFileSafe fs1 p = readFileSafe fs2 p)
         (contextPaths config today yesterday) ->
  buildSections config today yesterday fs1 =
  buildSections config today yesterday fs2.
Proof.
  unfold contextPaths. intros H. apply Forall_app in H as [Hctx H].
  inversion H as [|? ? Hm H1]; subst. inversion H1 as [|? ? Hs H2]; subst.
  inversion H2 as [|? ? Ht H3]; subst. inversion H3 as [|? ? Hy _]; subst.
  rewrite !buildSections_split. unfold leadingSections, dailySections.
  rewrite Hm, Hs, Ht, Hy. do 2 f_equal.
  clear -Hctx. induction (contextFiles config) as [|n names IH];
    [reflexivity|].
  cbn [map] in Hctx. inversion Hctx as [|? ? Hn Hrest]; subst.
  cbn [map concat]. now rewrite Hn, IH.
Qed.

(** ** The session scanner, continued *)

Lemma get_truthy (v : value) (k : string) :
  truthy (getOpt v k) = true -> get v k = Ok (getOpt v k).
Proof. destruct v as [[]|]; simpl; try discriminate; auto. Qed.

Lemma finalTitle_truthy (lines : list (option json)) (t0 : json) :
  truthy (Some (finalTitle lines t0)) = true.
Proof.
  unfold finalTitle.
  destruct (truthy (Some (if negb (truthy (Some t0))
                          then secondPass lines t0 else t0))) eqn:E;
    [exact E | reflexivity].
Qed.

Lemma scanSession_header (dateTime : json -> option Z) (now : Z)
    (logs : gmap string (list (option json))) (filePath : string)
    (header : json) (rest : list (option json)) :
  logs !! filePath = Some (Some header :: rest) ->
  truthy (getOpt (Some header) "timestamp") = true ->
  isStale dateTime (now - LOOKBACK_MS) (getOpt (Some header) "timestamp")
  = false ->
  exists info,
    scanSession dateTime now logs filePath = Some info /\
    file info = filePath /\
    timestamp info = getOpt (Some header) "timestamp" /\
    title info =
    finalTitle (Some header :: rest)
      (foldl (fun t l => entryTitle l t) (JStr EmptyString) rest) /\
    isChild info = truthy (getOpt (Some header) "parentSession") /\
    parentSession info =
    (if truthy (getOpt (Some header) "parentSession")
     then getOpt (Some header) "parentSession" else None).
Proof.
  intros Hlines Hts Hstale. unfold scanSession. rewrite Hlines.
  rewrite firstPass_header, (get_truthy _ _ Hts), Hts, Hstale.
  cbn [andb]. rewrite firstPass_rest by lia. rewrite Hts. cbn [negb].
  eexists. split; [reflexivity|]. now repeat split.
Qed.

Lemma secondPass_unparsable (pre post : list (option json)) (title : json) :
  secondPass (pre ++ None :: post) title = secondPass (pre ++ post) title.
Proof.
  induction pre as [|l pre IH]; [reflexivity|].
  cbn [app secondPass]. now rewrite IH.
Qed.

Lemma fold_title_unparsable (pre post : list (option json)) (title : json) :
  foldl (fun t l => entryTitle l t) title (pre ++ None :: post) =
  foldl (fun t l => entryTitle l t) title (pre ++ post).
Proof. now rewrite !foldl_app. Qed.

(** ** Housekeeping titles, continued *)

Lemma void_not_nullable (r : Re.re) :
  voidRe r = true -> Re.nullable r = false.
Proof.
  induction r; simpl; intros H; try discriminate; try reflexivity.
  - apply orb_true_iff in H as [H | H].
    + now rewrite IHr1.
    + rewrite IHr2 by exact H. apply andb_false_r.
  - apply andb_true_iff in H as [H1 H2]. now rewrite IHr1, IHr2.
Qed.

Lemma void_deriv (r : Re.re) (c : ascii) :
  voidRe r = true -> voidRe (Re.deriv c r) = true.
Proof.
  induction r; simpl; intros H; try discriminate; try reflexivity.
  - apply orb_true_iff in H as [H | H].
    + rewrite IHr1 by exact H. rewrite (void_not_nullable r1 H). reflexivity.
    + rewrite H, orb_true_r. cbn [andb].
      destruct (Re.nullable r1); [now apply IHr2 | reflexivity].
  - apply andb_true_iff in H as [H1 H2]. now rewrite IHr1, IHr2.
Qed.

Lemma void_test (r : Re.re) (s : string) :
  voidRe r = true -> Re.test r s = false.
Proof.
  revert r. induction s as [|c s IH]; intros r H; simpl.
  - now rewrite (void_not_nullable r H).
  - rewrite (void_not_nullable r H). apply IH, void_deriv, H.
Qed.

Lemma void_matches (r : Re.re) (s : string) :
  voidRe r = true -> Re.matches r s = false.
Proof.
  revert r. induction s as [|c s IH]; intros r H; simpl.
  - exact (void_not_nullable r H).
  - apply IH, void_deriv, H.
Qed.

Lemma test_void_head (r : Re.re) (c : ascii) (s : string) :
  Re.nullable r = false -> voidRe (Re.deriv c r) = true ->
  Re.test r (String c s) = false.
Proof.
  intros Hn Hv. cbn [Re.test]. rewrite Hn. now apply void_test.
Qed.

Lemma matches_void_head (r : Re.re) (c : ascii) (s : string) :
  voidRe (Re.deriv c r) = true -> Re.matches r (String c s) = false.
Proof. intros Hv. cbn [Re.matches]. now apply void_matches. Qed.

Lemma test_app (r : Re.re) (s u : string) :
  Re.test r s = true -> Re.test r (s +:+ u) = true.
Proof.
  rewrite !test_lang. intros (p & q & -> & H).
  exists p, (q +:+ u). split; [now rewrite app_assoc | exact H].
Qed.

Lemma toLowerCase_app (s t : string) :
  Js.toLowerCase (s +:+ t) = Js.toLowerCase s +:+ Js.toLowerCase t.
Proof. induction s as [|c s IH]; simpl; [reflexivity | now rewrite IH]. Qed.

Lemma isWordChar_lower (c : ascii) :
  Js.isWordChar (Js.lowerChar c) = Js.isWordChar c.
Proof. destruct c as [[] [] [] [] [] [] [] []]; reflexivity. Qed.

Lemma all_word_lower (s : string) :
  Js.all Js.isWordChar (Js.toLowerCase s) = Js.all Js.isWordChar s.
Proof.
  induction s as [|c s IH]; [reflexivity|].
  cbn [Js.toLowerCase Js.all]. now rewrite isWordChar_lower, IH.
Qed.

Lemma lowerChar_slash (c : ascii) :
  Js.lowerChar c = "/"%char -> c = "/"%char.
Proof.
  destruct c as [[] [] [] [] [] [] [] []]; vm_compute; intros H;
    solve [reflexivity | discriminate].
Qed.

Lemma slash_command (s : string) :
  Re.matches (Re.Seq (Re.Lit "/") (Re.Plus Re.Word)) (String "/" s) = true <->
  s <> EmptyString /\ Js.all Js.isWordChar s = true.
Proof.
  rewrite matches_lang, lang_seq_inv. split.
  - intros (s1 & s2 & E & H1 & H2). apply lang_lit_inv in H1 as ->.
    injection E as <-. now apply lang_plus_cls_inv in H2.
  - intros H. exists "/", s. split; [reflexivity|]. split.
    + now apply lang_lit_inv.
    + now apply lang_plus_cls_inv.
Qed.

(** ** Search, continued *)

Section SearchMore.

Variable fs : FileSystem.
Variable needle : string.
Variable maxResults : number.

Lemma grows_refl (rs : list Search.LineResult) : grows rs rs.
Proof. exists []. now rewrite List.app_nil_r. Qed.

Lemma grows_trans (a b c : list Search.LineResult) :
  grows a b -> grows b c -> grows a c.
Proof.
  intros [x ->] [y ->]. exists (x ++ y). now rewrite List.app_assoc.
Qed.

Lemma grows_length (a b : list Search.LineResult) :
  grows a b -> length a <= length b.
Proof. intros [x ->]. rewrite length_app. lia. Qed.

Lemma grows_In (a b : list Search.LineResult) (r : Search.LineResult) :
  grows a b -> In r a -> In r b.
Proof. intros [x ->] H. apply in_app_iff. now left. Qed.

Lemma searchLines_grows (name : string) (lines : list string) (i : nat)
    (rs : list Search.LineResult) :
  grows rs (Search.searchLines needle name maxResults lines i rs).
Proof.
  revert i rs. induction lines as [|l rest IH]; intros i rs;
    [apply grows_refl|].
  cbn [Search.searchLines].
  destruct (ltLength (length rs) maxResults); [|apply grows_refl].
  destruct (Js.includes (Js.toLowerCase l) needle); [|apply IH].
  eapply grows_trans; [|apply IH]. now eexists.
Qed.

Lemma searchLines_complete (name : string) (lines : list string) (i : nat)
    (rs : list Search.LineResult) (j : nat) (l : string) :
  ltLength
    (length (Search.searchLines needle name maxResults lines i rs))
    maxResults = true ->
  nth_error lines j = Some l ->
  Js.includes (Js.toLowerCase l) needle = true ->
  In {| Search.file := name; Search.line := i + j + 1;
        Search.text := Js.trimEnd l |}
     (Search.searchLines needle name maxResults lines i rs).
Proof.
  revert i rs j. induction lines as [|l0 rest IH]; intros i rs j Hlen Hj Hl;
    [now destruct j|].
  cbn [Search.searchLines] in *.
  destruct (ltLength (length rs) maxResults) eqn:Hlt; [|congruence].
  destruct j as [|j].
  - injection Hj as ->. rewrite Hl in *.
    eapply grows_In; [apply searchLines_grows|].
    apply in_app_iff. right. left. f_equal. lia.
  - replace (i + S j + 1) with (S i + j + 1) by lia.
    now apply IH.
Qed.

Lemma searchFile_grows (filePath name : string) (st : Search.SearchResult) :
  grows (Search.lineResults st)
    (Search.lineResults
       (Search.searchFile fs needle maxResults filePath name st)).
Proof.
  unfold Search.searchFile.
  destruct (readFileSafe fs filePath) as [content|]; [|apply grows_refl].
  destruct (negb (Js.nonEmpty content)); [apply grows_refl|].
  apply searchLines_grows.
Qed.

Lemma searchFiles_grows (dir prefix : string) (names : list string)
    (st : Search.SearchResult) :
  grows (Search.lineResults st)
    (Search.lineResults
       (Search.searchFiles fs needle maxResults dir prefix names st)).
Proof.
  revert st. induction names as [|f rest IH]; intros st; [apply grows_refl|].
  cbn [Search.searchFiles].
  destruct (geLength (length (Search.lineResults st)) maxResults);
    [apply grows_refl|].
  eapply grows_trans; [apply searchFile_grows | apply IH].
Qed.

Lemma searchDir_grows (dir prefix : string) (st : Search.SearchResult) :
  grows (Search.lineResults st)
    (Search.lineResults (Search.searchDir fs needle maxResults dir prefix st)).
Proof.
  unfold Search.searchDir.
  destruct (readdirSync fs dir); [apply searchFiles_grows | apply grows_refl].
Qed.

Lemma searchFile_complete (filePath name : string)
    (st : Search.SearchResult) (r : Search.LineResult) :
  ltLength
    (length (Search.lineResults
               (Search.searchFile fs needle maxResults filePath name st)))
    maxResults = true ->
  matchingLine fs needle filePath name r ->
  In r (Search.lineResults
          (Search.searchFile fs needle maxResults filePath name st)).
Proof.
  intros Hlen (content & i & l & Hc & Hne & Hi & Hl & ->).
  unfold Search.searchFile in *. rewrite Hc in *.
  destruct content as [|c content]; [contradiction|].
  cbn [Js.nonEmpty negb Search.lineResults] in *.
  now apply (searchLines_complete name _ 0 _ i l).
Qed.

Lemma searchFiles_complete (dir prefix f : string) (names : list string)
    (st : Search.SearchResult) (r : Search.LineResult) :
  ltLength
    (length (Search.lineResults
               (Search.searchFiles fs needle maxResults dir prefix names
                  st)))
    maxResults = true ->
  In f names ->
  matchingLine fs needle (Path.join [dir; f]) (Search.displayName prefix f) r ->
  In r (Search.lineResults
          (Search.searchFiles fs needle maxResults dir prefix names st)).
Proof.
  revert st. induction names as [|f0 rest IH]; intros st Hlen Hf Hr;
    [contradiction|].
  cbn [Search.searchFiles] in *.
  destruct (geLength (length (Search.lineResults st)) maxResults) eqn:Hge;
    [apply ge_not_lt in Hge; congruence|].
  destruct Hf as [-> | Hf]; [|now apply IH].
  eapply grows_In; [apply searchFiles_grows|].
  apply searchFile_complete; [|exact Hr].
  eapply ltLength_mono; [|exact Hlen].
  apply grows_length, searchFiles_grows.
Qed.

Lemma searchDir_complete (dir prefix f : string) (names : list string)
    (st : Search.SearchResult) (r : Search.LineResult) :
  ltLength
    (length (Search.lineResults
               (Search.searchDir fs needle maxResults dir prefix st)))
    maxResults = true ->
  readdirSync fs dir = Some names ->
  In f names -> Js.endsWith f ".md" = true ->
  matchingLine fs needle (Path.join [dir; f]) (Search.displayName prefix f) r ->
  In r (Search.lineResults
          (Search.searchDir fs needle maxResults dir prefix st)).
Proof.
  intros Hlen Hn Hf Hmd Hr. unfold Search.searchDir in *. rewrite Hn in *.
  apply (searchFiles_complete dir prefix f); [exact Hlen | | exact Hr].
  unfold Search.sort.
  apply list_elem_of_In. rewrite merge_sort_Permutation.
  apply list_elem_of_In, filter_In. now split.
Qed.

End SearchMore.

Section SearchNames.

Variable fs : FileSystem.
Variable needle : string.
Variable maxResults : number.
Variable Q : string -> Prop.

Lemma listIncludes_false (names : list string) (name : string) :
  Search.listIncludes names name = false -> name ∉ names.
Proof.
  unfold Search.listIncludes. intros H Hin.
  apply list_elem_of_In in Hin.
  assert (existsb (String.eqb name) names = true) as E.
  { apply existsb_exists. exists name. split; [exact Hin|].
    apply String.eqb_refl. }
  congruence.
Qed.

Lemma searchFile_fileMatches (filePath name : string)
    (st : Search.SearchResult) :
  Search.fileMatches
    (Search.searchFile fs needle maxResults filePath name st) =
  if Js.includes (Js.toLowerCase name) needle &&
     negb (Search.listIncludes (Search.fileMatches st) name)
  then Search.fileMatches st ++ [name]
  else Search.fileMatches st.
Proof.
  unfold Search.searchFile.
  destruct (readFileSafe fs filePath) as [content|]; [|reflexivity].
  now destruct (negb (Js.nonEmpty content)).
Qed.

Lemma searchFile_names (filePath name : string) (st : Search.SearchResult) :
  (Js.includes (Js.toLowerCase name) needle = true -> Q name) ->
  NoDup (Search.fileMatches st) /\ Forall Q (Search.fileMatches st) ->
  NoDup (Search.fileMatches
           (Search.searchFile fs needle maxResults filePath name st)) /\
  Forall Q (Search.fileMatches
              (Search.searchFile fs needle maxResults filePath name st)).
Proof.
  intros HQ [Hnd Hall]. rewrite searchFile_fileMatches.
  destruct (Js.includes (Js.toLowerCase name) needle) eqn:Ei;
    [|now split].
  destruct (Search.listIncludes (Search.fileMatches st) name) eqn:El;
    [now split|].
  cbn [andb negb]. split.
  - apply NoDup_app. split; [exact Hnd|]. split; [|apply NoDup_singleton].
    intros x Hx Hx'. apply list_elem_of_singleton in Hx' as ->.
    now apply (listIncludes_false _ _ El).
  - apply Forall_app. split; [exact Hall|]. constructor; [|constructor].
    now apply HQ.
Qed.

Lemma searchFiles_names (dir prefix : string) (names : list string)
    (st : Search.SearchResult) :
  Forall (fun f =>
            Js.includes (Js.toLowerCase (Search.displayName prefix f)) needle
            = true -> Q (Search.displayName prefix f)) names ->
  NoDup (Search.fileMatches st) /\ Forall Q (Search.fileMatches st) ->
  NoDup (Search.fileMatches
           (Search.searchFiles fs needle maxResults dir prefix names st)) /\
  Forall Q (Search.fileMatches
              (Search.searchFiles fs needle maxResults dir prefix names st)).
Proof.
  intros Hnames. revert st.
  induction Hnames as [|f rest Hf _ IH]; intros st Hst; [exact Hst|].
  cbn [Search.searchFiles].
  destruct (geLength (length (Search.lineResults st)) maxResults);
    [exact Hst|].
  now apply IH, searchFile_names.
Qed.

End SearchNames.

Lemma searchDir_names (fs : FileSystem) (config : MemoryConfig)
    (needle : string) (maxResults : number) (dir prefix : string)
    (st : Search.SearchResult) :
  In (dir, prefix) (searchedDirs config) ->
  NoDup (Search.fileMatches st) /\
  Forall (fileMatchFrom fs config needle) (Search.fileMatches st) ->
  NoDup (Search.fileMatches
           (Search.searchDir fs needle maxResults dir prefix st)) /\
  Forall (fileMatchFrom fs config needle)
    (Search.fileMatches
       (Search.searchDir fs needle maxResults dir prefix st)).
Proof.
  intros Hd Hst. unfold Search.searchDir.
  destruct (readdirSync fs dir) as [names|] eqn:Hn; [|exact Hst].
  apply searchFiles_names; [|exact Hst].
  eapply Forall_impl; [apply sorted_md_names|].
  intros f [Hf Hmd] Hinc. split; [exact Hinc|].
  now exists dir, prefix, names, f.
Qed.

(** ** Trimming *)

Lemma trimEnd_idem (s : string) : Js.trimEnd (Js.trimEnd s) = Js.trimEnd s.
Proof.
  induction s as [|c s IH]; [reflexivity|].
  cbn [Js.trimEnd]. destruct (Js.trimEnd s) as [|d t] eqn:E.
  - destruct (Js.isWhiteSpace c) eqn:Ec; [reflexivity|].
    cbn [Js.trimEnd]. now rewrite Ec.
  - cbn [Js.trimEnd] in *. now rewrite IH.
Qed.

Lemma trimEnd_head (c : ascii) (s : string) :
  Js.trimEnd (String c s) = EmptyString \/
  exists t, Js.trimEnd (String c s) = String c t.
Proof.
  cbn [Js.trimEnd]. destruct (Js.trimEnd s) as [|d t].
  - destruct (Js.isWhiteSpace c); [now left | right; eauto].
  - right. eauto.
Qed.

Lemma trimStart_head (s : string) :
  Js.trimStart s = EmptyString \/
  exists c t, Js.trimStart s = String c t /\ Js.isWhiteSpace c = false.
Proof.
  induction s as [|c s IH]; [now left|].
  cbn [Js.trimStart]. destruct (Js.isWhiteSpace c) eqn:E; [exact IH|].
  right. eauto.
Qed.

Lemma trim_idem (s : string) : Js.trim (Js.trim s) = Js.trim s.
Proof.
  unfold Js.trim.
  destruct (trimStart_head s) as [-> | (c & t & -> & Hc)]; [reflexivity|].
  destruct (trimEnd_head c t) as [-> | [t' Ht]]; [reflexivity|].
  rewrite Ht. cbn [Js.trimStart]. rewrite Hc, <- Ht. apply trimEnd_idem.
Qed.

Lemma all_trimStart (p : ascii -> bool) (s : string) :
  Js.all p s = true -> Js.all p (Js.trimStart s) = true.
Proof.
  induction s as [|c s IH]; [reflexivity|].
  cbn [Js.trimStart Js.all]. intros H.
  apply andb_true_iff in H as [Hc Hs].
  destruct (Js.isWhiteSpace c); [now apply IH|].
  cbn [Js.all]. now rewrite Hc, Hs.
Qed.

Lemma all_trimEnd (p : ascii -> bool) (s : string) :
  Js.all p s = true -> Js.all p (Js.trimEnd s) = true.
Proof.
  induction s as [|c s IH]; [reflexivity|].
  cbn [Js.trimEnd Js.all]. intros H.
  apply andb_true_iff in H as [Hc Hs]. specialize (IH Hs).
  destruct (Js.trimEnd s) as [|d t].
  - destruct (Js.isWhiteSpace c); [reflexivity|].
    cbn [Js.all]. now rewrite Hc.
  - cbn [Js.all] in *. now rewrite Hc, IH.
Qed.

Lemma split_parts (sep : ascii) (s : string) :
  Forall (fun l => Js.all (fun c => negb (Ascii.eqb c sep)) l = true)
         (Js.split sep s).
Proof.
  induction s as [|c s IH]; [now repeat constructor|].
  cbn [Js.split]. destruct (Ascii.eqb c sep) eqn:E; [now constructor|].
  destruct (Js.split sep s) as [|l ls];
    [repeat constructor; cbn [Js.all]; now rewrite E|].
  inversion IH as [|? ? Hl Hls]; subst.
  constructor; [|exact Hls]. cbn [Js.all]. now rewrite E, Hl.
Qed.

Lemma slice0_prefix (n : nat) (s : string) :
  Js.startsWith s (Js.slice0 n s) = true.
Proof.
  revert s. induction n as [|n IH]; intros [|c s]; try reflexivity.
  cbn [Js.slice0 Js.startsWith]. now rewrite Ascii.eqb_refl, IH.
Qed.

Lemma slice0_short (n : nat) (s : string) :
  String.length s <= n -> Js.slice0 n s = s.
Proof.
  revert s. induction n as [|n IH]; intros [|c s]; simpl; try reflexivity.
  - lia.
  - intros H. rewrite IH by lia. reflexivity.
Qed.

(** ** The [scratchpad] tool: what [add] writes *)

Lemma add_file (config : MemoryConfig) (sessionId now t : string)
    (params : gmap string string) (fs : FileSystem) :
  params !! "action" = Some "add" ->
  params !! "text" = Some t ->
  t <> EmptyString ->
  noLineTerminator t ->
  noLineTerminator now ->
  noLineTerminator sessionId ->
  let items :=
    parseScratchpad
      (orElse (readFileSafe fs (scratchpadFile config)) EmptyString) ++
    [ScratchpadTool.newItem t now (MemoryWrite.shortSessionId sessionId)] in
  readFileSafe
    (fst (ScratchpadTool.execute config sessionId now params fs))
    (scratchpadFile config) = Some (serializeScratchpad items) /\
  Forall roundTripItem items.
Proof.
  intros Ha Ht Hne Hlt Hnow Hsid items. split.
  - unfold ScratchpadTool.execute. cbv zeta. rewrite Ha, Ht. decide_actions.
    rewrite (truthyStr_some t Hne). cbn [negb orElse].
    apply read_after_write.
  - apply Forall_app. split; [apply parse_valid|].
    constructor; [|constructor]. repeat split.
    + exact Hne.
    + exact Hlt.
    + right. apply stamp_valid; [exact Hnow|]. now apply all_slice0.
Qed.

Lemma filter_open_app (a b : list ScratchpadItem) :
  List.filter isOpen (a ++ b) = List.filter isOpen a ++ List.filter isOpen b.
Proof.
  induction a as [|i a IH]; [reflexivity|]. simpl.
  destruct (isOpen i); simpl; now rewrite IH.
Qed.

Lemma serialize_not_blank (items : list ScratchpadItem) :
  Js.nonEmpty (Js.trim (serializeScratchpad items)) = true.
Proof.
  destruct (Js.trim (serializeScratchpad items)) eqn:E; [|reflexivity].
  apply trim_empty in E. rewrite serialize_unlines, all_app in E.
  discriminate.
Qed.

(** ** The checklist section of the memory context *)







(** ** The title of a session: the second loop *)

Lemma findText_reading (parts : list json) :
  match findText parts with
  | Throw => partsReading parts = Unreadable
  | Ok None => partsReading parts = NoText
  | Ok (Some c) =>
      exists fields, c = JObj fields /\
      partsReading parts =
      match getOpt (Some c) "text" with
      | Some (JStr s) => Text (JStr (Js.slice0 80 s))
      | Some (JArr l) => Text (JArr (firstn 80 l))
      | _ => Unreadable
      end
  end.
Proof.
  induction parts as [|c rest IH]; [reflexivity|].
  destruct c as [|b|q|s|l|fields]; cbn [findText get bind partsReading getOpt isStr];
    try exact IH; try reflexivity.
  destruct (isStr (field "type" fields) "text"); [|exact IH].
  exists fields. split; reflexivity.
Qed.

Lemma userTitle_reading (line : option json) (title : json) :
  isUserMessage line = true ->
  userTitle line title =
  match payloadReading line with
  | Unreadable => Throw
  | NoText => Ok (Some title)
  | Text t => Ok (Some t)
  end.
Proof.
  unfold isUserMessage, userTitle, payloadReading. intros H.
  destruct line as [entry|]; [|discriminate].
  apply andb_true_iff in H as [Htype Hrole].
  rewrite (isStr_get _ _ _ Htype). cbn [bind]. rewrite Htype, Hrole.
  cbn [andb].
  assert (get (getOpt (Some entry) "message") "content" =
          Ok (getOpt (getOpt (Some entry) "message") "content")) as ->.
  { destruct (getOpt (Some entry) "message") as [[]|];
      try discriminate Hrole; reflexivity. }
  cbn [bind].
  destruct (getOpt (getOpt (Some entry) "message") "content")
    as [[|b|q|s|parts|fields]|]; try reflexivity.
  pose proof (findText_reading parts) as Hfind.
  destruct (findText parts) as [[c|]|]; cbn [bind].
  - destruct Hfind as (fields & -> & ->). cbn [truthy get getOpt].
    destruct (field "text" fields) as [[|b|q|s|l|fs]|]; reflexivity.
  - now rewrite Hfind.
  - now rewrite Hfind.
Qed.

Lemma secondPass_passedOver (pre rest : list (option json)) (title : json) :
  Forall passedOver pre ->
  secondPass (pre ++ rest) title = secondPass rest title.
Proof.
  induction 1 as [|l pre Hl _ IH]; [reflexivity|].
  cbn [app secondPass].
  destruct (isUserMessage l) eqn:Hu.
  - destruct Hl as [Hl | Hl]; [congruence|].
    now rewrite (userTitle_reading l title Hu), Hl.
  - now destruct (userTitle_skip l title Hu) as [-> | ->].
Qed.

Lemma finalTitle_reading (pre post : list (option json)) (e : option json) :
  Forall passedOver pre ->
  isUserMessage e = true ->
  finalTitle (pre ++ e :: post) (JStr EmptyString) =
  match payloadReading e with
  | Unreadable => finalTitle post (JStr EmptyString)
  | NoText => JStr "(untitled)"
  | Text t => orUntitled t
  end.
Proof.
  intros Hpre He. unfold finalTitle. cbn [truthy Js.nonEmpty negb].
  rewrite (secondPass_passedOver _ _ _ Hpre). cbn [secondPass].
  rewrite (userTitle_reading e _ He).
  destruct (payloadReading e); reflexivity.
Qed.

Lemma finalTitle_passedOver (lines : list (option json)) :
  Forall passedOver lines ->
  finalTitle lines (JStr EmptyString) = JStr "(untitled)".
Proof.
  intros H. unfold finalTitle. cbn [truthy Js.nonEmpty negb].
  rewrite <- (List.app_nil_r lines).
  now rewrite (secondPass_passedOver _ _ _ H).
Qed.

Lemma partsReading_length (parts : list json) (t : json) :
  partsReading parts = Text t ->
  (exists s, t = JStr s /\ String.length s <= 80) \/
  (exists l, t = JArr l /\ length l <= 80).
Proof.
  induction parts as [|c rest IH]; [discriminate|].
  destruct c as [|b|q|s0|l|fields]; cbn [partsReading getOpt isStr];
    try exact IH; try discriminate.
  destruct (isStr (field "type" fields) "text"); [|exact IH].
  destruct (field "text" fields) as [[|b|q|s0|l|fs]|]; try discriminate;
    intros H.
  - left. exists (Js.slice0 80 s0). split; [congruence|].
    exact (slice0_length 80 s0).
  - right. exists (firstn 80 l). split; [congruence|].
    apply firstn_le_length.
Qed.

Lemma payloadReading_length (line : option json) (t : json) :
  payloadReading line = Text t ->
  (exists s, t = JStr s /\ String.length s <= 80) \/
  (exists l, t = JArr l /\ length l <= 80).
Proof.
  unfold payloadReading.
  destruct (getOpt (getOpt line "message") "content")
    as [[|b|q|s0|parts|fields]|]; try discriminate.
  - intros H. left. exists (Js.slice0 80 s0). split; [congruence|].
    exact (slice0_length 80 s0).
  - apply partsReading_length.
Qed.

(** * Main results *)

(** ** C1: round trip of the checklist codec *)

(** C1, as amended: for every list of checklist items in which no
    item's text is empty, contains a line terminator (line feed or
    carriage return) or itself matches the checklist line pattern, and
    every non-empty meta is a full-line comment matching [^<!--.*-->$],
    parsing the serialised list gives the list back: same length, and
    the done, text and meta fields in order. *)
Theorem C1_roundtrip (items : list ScratchpadItem) :
  Forall amendedRoundTripItem items ->
  parseScratchpad (serializeScratchpad items) = items.
Proof.
  intros H. apply roundtrip_core.
  eapply Forall_impl; [exact H|].
  intros item (Hne & Hlt & _ & Hmeta). now repeat split.
Qed.

Lemma C1_roundtrip_witness :
  Forall amendedRoundTripItem sampleItems /\
  parseScratchpad (serializeScratchpad sampleItems) = sampleItems.
Proof.
  assert (Forall amendedRoundTripItem sampleItems) as H.
  { repeat constructor; try discriminate;
      solve [right; reflexivity | left; reflexivity]. }
  split; [exact H | exact (C1_roundtrip sampleItems H)].
Defined.

(** C1 as stated fails.  An item whose text is empty meets the stated
    precondition (no newline, not a checklist line, no meta), is written
    as the line [- [ ] ] and is not read back, because the pattern asks
    for at least one character of text.  An item whose text holds a
    carriage return meets it too and is not read back either, because
    [.] does not match a carriage return. *)
Lemma C1_counterexample :
  (Forall statedRoundTripItem [emptyTextItem] /\
   serializeScratchpad [emptyTextItem] =
     "# Scratchpad" +:+ Js.nl +:+ Js.nl +:+ "- [ ] " +:+ Js.nl /\
   parseScratchpad (serializeScratchpad [emptyTextItem]) = [] /\
   parseScratchpad (serializeScratchpad [emptyTextItem]) <> [emptyTextItem])
  /\
  (Forall statedRoundTripItem [carriageReturnItem] /\
   parseScratchpad (serializeScratchpad [carriageReturnItem]) = [] /\
   parseScratchpad (serializeScratchpad [carriageReturnItem])
     <> [carriageReturnItem]).
Proof.
  split; repeat split; try reflexivity; try discriminate;
    repeat constructor.
Qed.

(** The restriction on texts that look like a checklist line is not
    needed: such an item is read back as it was written. *)
Example roundtrip_nested_item :
  Re.matches itemRe (text nestedItem) = true /\
  parseScratchpad (serializeScratchpad [nestedItem]) = [nestedItem].
Proof. split; reflexivity. Qed.

(** ** C10: what [parseScratchpad] returns *)

(** C10: for every input string, every item returned by [parseScratchpad]
    has a non-empty text without newline character and a meta that is
    empty or a full line matching the comment pattern, starting with
    [<!--] and ending with [-->]; consequently a parse result always
    survives serialising and parsing again unchanged. *)
Theorem C10_parsed_items (content : string) :
  Forall parsedItem (parseScratchpad content) /\
  parseScratchpad (serializeScratchpad (parseScratchpad content)) =
    parseScratchpad content.
Proof.
  rewrite parseScratchpad_parseFrom.
  pose proof (parseFrom_items (Js.split Js.LF content) None) as H.
  split.
  - eapply Forall_impl; [exact H|]. now intros item [Hp _].
  - apply roundtrip_core.
    eapply Forall_impl; [exact H|]. now intros item [_ Hr].
Qed.

(** ** C9: housekeeping titles *)

(** C9: [isHousekeeping] is true for the titles "Clear done items",
    "(untitled)" and "/reload", false for "Fix memory bug", and gives the
    same answer for any two titles that differ only in the case of their
    letters. *)
Theorem C9_isHousekeeping :
  isHousekeeping "Clear done items" = true /\
  isHousekeeping "(untitled)" = true /\
  isHousekeeping "/reload" = true /\
  isHousekeeping "Fix memory bug" = false /\
  (forall t t' : string,
     caseVariant t t' = true -> isHousekeeping t' = isHousekeeping t).
Proof.
  repeat split; try reflexivity.
  intros t t' H. symmetry.
  apply isHousekeeping_lower, caseVariant_lower, H.
Qed.

Lemma C9_isHousekeeping_witness :
  caseVariant "Clear done items" "CLEAR Done ITEMS" = true /\
  isHousekeeping "CLEAR Done ITEMS" = true.
Proof.
  destruct C9_isHousekeeping as (H1 & _ & _ & _ & Hv).
  split; [reflexivity|].
  rewrite (Hv "Clear done items" "CLEAR Done ITEMS" eq_refl). exact H1.
Defined.

(** ** C5: configuration *)

(** C5: [buildConfig] on an environment holding only [HOME = /home/u]
    gives the memory directory [/home/u/.pi/agent/memory] and no
    autocommit; autocommit is on exactly when [PI_AUTOCOMMIT] is the
    string [1] or [true]; and when [PI_CONTEXT_FILES] is a comma-separated
    list of entries, the context files are these entries trimmed, the
    empty ones dropped, in the same order. *)
Theorem C5_buildConfig :
  (memoryDir (buildConfig homeOnly) = "/home/u/.pi/agent/memory" /\
   autocommit (buildConfig homeOnly) = false) /\
  (forall env : gmap string string,
     autocommit (buildConfig env) = true <->
     env !! "PI_AUTOCOMMIT" = Some "1" \/
     env !! "PI_AUTOCOMMIT" = Some "true") /\
  (forall (env : gmap string string) (entries : list string),
     Forall noComma entries ->
     env !! "PI_CONTEXT_FILES" = Some (Js.join "," entries) ->
     contextFiles (buildConfig env) =
     List.filter Js.nonEmpty (map Js.trim entries)).
Proof.
  split; [split; reflexivity|]. split.
  - intros env. unfold buildConfig. simpl.
    rewrite orb_true_iff, !bool_decide_eq_true. reflexivity.
  - intros env entries Hc He. unfold buildConfig. simpl.
    rewrite He. simpl. now apply split_join_entries.
Qed.

Lemma C5_buildConfig_witness :
  Forall noComma [" A.md "; "  B.md "; " "] /\
  sampleEnv !! "PI_CONTEXT_FILES" =
    Some (Js.join "," [" A.md "; "  B.md "; " "]) /\
  contextFiles (buildConfig sampleEnv) = ["A.md"; "B.md"] /\
  autocommit (buildConfig sampleEnv) = false.
Proof.
  destruct C5_buildConfig as (_ & _ & Hfiles).
  assert (Forall noComma [" A.md "; "  B.md "; " "]) as Hc
    by (repeat constructor).
  assert (sampleEnv !! "PI_CONTEXT_FILES" =
          Some (Js.join "," [" A.md "; "  B.md "; " "])) as He
    by reflexivity.
  split; [exact Hc|]. split; [exact He|]. split.
  - rewrite (Hfiles sampleEnv _ Hc He). reflexivity.
  - reflexivity.
Defined.

(** ** C6: order of the sections of the memory context *)



(** ** C7: the checklist section holds the open items only *)



(** ** C8: search *)




(** The query is in [data.json] too, but only [notes.md] is searched. *)
Example search_md_only :
  map Search.file
    (Search.lineResults
       (Search.searchMemory searchConfig "target" None searchRoot)) =
  ["notes.md"; "notes.md"; "daily/2026-02-18.md"; "notes/work.md"].
Proof. reflexivity. Qed.

(** ** C3: when [scanSession] gives nothing *)

(** C3, as amended: for every session log, [scanSession] returns [null]
    when the first line does not parse, when the parsed header has no
    [timestamp] field or one that is empty, zero, false or null, and
    when the header's time stamp is more than 24 hours before the
    current time.  When the time stamp is there (not empty, zero, false
    or null) and that old, the first loop returns at line 1, so no
    further line is processed, and so it does when the header is the
    value [null]; when the header is another value and its time stamp
    is missing, empty, zero, false or null, the first loop goes through
    every line of the file before [null] is returned, whatever date the
    time stamp stands for. *)
Theorem C3_scanSession_null (dateTime : json -> option Z) (now : Z)
    (logs : gmap string (list (option json))) (filePath : string) :
  (forall rest,
     logs !! filePath = Some (None :: rest) ->
     scanSession dateTime now logs filePath = None) /\
  (forall h rest,
     logs !! filePath = Some (Some h :: rest) ->
     getOpt (Some h) "timestamp" = None \/
     truthy (getOpt (Some h) "timestamp") = false ->
     scanSession dateTime now logs filePath = None) /\
  (forall h rest ts t,
     logs !! filePath = Some (Some h :: rest) ->
     hasTimestamp h ts ->
     dateTime ts = Some t -> (t < now - LOOKBACK_MS)%Z ->
     scanSession dateTime now logs filePath = None /\
     firstPass dateTime (now - LOOKBACK_MS) (Some h :: rest) 0
       JNull (JStr EmptyString) = Returned 1) /\
  (forall h rest ts,
     logs !! filePath = Some (Some h :: rest) ->
     get (Some h) "timestamp" = Ok ts -> truthy ts = false ->
     scanSession dateTime now logs filePath = None /\
     firstPass dateTime (now - LOOKBACK_MS) (Some h :: rest) 0
       JNull (JStr EmptyString) =
     Completed h (foldl (fun t l => entryTitle l t) (JStr EmptyString) rest))
  /\
  (forall rest,
     logs !! filePath = Some (Some JNull :: rest) ->
     scanSession dateTime now logs filePath = None /\
     firstPass dateTime (now - LOOKBACK_MS) (Some JNull :: rest) 0
       JNull (JStr EmptyString) = Returned 1).
Proof.
  unfold scanSession. split; [|split; [|split; [|split]]].
  - intros rest ->. reflexivity.
  - intros h rest -> Hts.
    assert (truthy (getOpt (Some h) "timestamp") = false) as Hf
      by (destruct Hts as [-> | Hts]; [reflexivity | exact Hts]).
    rewrite firstPass_header.
    destruct (get_getOpt (Some h) "timestamp") as [E|E]; rewrite E;
      [reflexivity|].
    rewrite Hf. cbn [andb]. rewrite firstPass_rest by lia.
    now rewrite Hf.
  - intros h rest ts t -> [Hts Htruthy] Ht Hlt.
    assert (firstPass dateTime (now - LOOKBACK_MS) (Some h :: rest) 0
              JNull (JStr EmptyString) = Returned 1) as Hret.
    { rewrite firstPass_header.
      destruct (get_getOpt (Some h) "timestamp") as [E|E]; rewrite E;
        [reflexivity|].
      rewrite Hts, Htruthy. unfold isStale. rewrite Ht.
      now replace (t <? now - LOOKBACK_MS)%Z with true
        by (symmetry; apply Z.ltb_lt; exact Hlt). }
    now rewrite Hret.
  - intros h rest ts -> Hget Hf.
    assert (firstPass dateTime (now - LOOKBACK_MS) (Some h :: rest) 0
              JNull (JStr EmptyString) =
            Completed h
              (foldl (fun t l => entryTitle l t) (JStr EmptyString) rest))
      as Hdone.
    { rewrite firstPass_header, Hget, Hf. cbn [andb].
      now rewrite firstPass_rest by lia. }
    assert (getOpt (Some h) "timestamp" = ts) as Hopt
      by (destruct (get_getOpt (Some h) "timestamp") as [E|E]; congruence).
    rewrite Hdone, Hopt, Hf. now split.
  - intros rest ->. now split.
Qed.

Lemma C3_scanSession_null_witness :
  scanSession clockTime nowMs sampleLogs "bad.jsonl" = None /\
  scanSession clockTime nowMs sampleLogs "nots.jsonl" = None /\
  (scanSession clockTime nowMs sampleLogs "old.jsonl" = None /\
   firstPass clockTime (nowMs - LOOKBACK_MS)
     [headerAt "2026-02-16T09:00:00.000Z"; userMessage (JStr "old stuff")]
     0 JNull (JStr EmptyString) = Returned 1) /\
  (scanSession clockTime nowMs {[ "zero.jsonl" := zeroLog ]} "zero.jsonl"
   = None /\
   firstPass clockTime (nowMs - LOOKBACK_MS) zeroLog 0 JNull
     (JStr EmptyString) =
   Completed zeroHeader
     (foldl (fun t l => entryTitle l t) (JStr EmptyString)
        [sessionInfo "Named"])).
Proof.
  split; [|split; [|split]].
  - apply (proj1 (C3_scanSession_null clockTime nowMs sampleLogs "bad.jsonl")
             [userMessage (JStr "hello")]).
    reflexivity.
  - apply (proj1 (proj2 (C3_scanSession_null clockTime nowMs sampleLogs
                           "nots.jsonl"))
             (JObj [("cwd", JStr "/project")]) []).
    + reflexivity.
    + left. reflexivity.
  - apply (proj1 (proj2 (proj2 (C3_scanSession_null clockTime nowMs
                                  sampleLogs "old.jsonl")))
             (JObj [("timestamp", JStr "2026-02-16T09:00:00.000Z");
                    ("cwd", JStr "/project")])
             [userMessage (JStr "old stuff")]
             (JStr "2026-02-16T09:00:00.000Z") 1771232400000%Z).
    + reflexivity.
    + split; reflexivity.
    + reflexivity.
    + reflexivity.
  - apply (proj1 (proj2 (proj2 (proj2 (C3_scanSession_null clockTime nowMs
                                  {[ "zero.jsonl" := zeroLog ]}
                                  "zero.jsonl"))))
             zeroHeader [sessionInfo "Named"]
             (Some (JNum (inject_Z 0)))).
    + reflexivity.
    + reflexivity.
    + reflexivity.
Defined.

(** C3 as stated fails on a header whose time stamp is the number 0: it
    stands for a date that is more than 24 hours before the current
    time, yet the first loop does not return at line 1; it goes on to
    the second line, whose name becomes the title, and [null] is
    returned only after the loop. *)
Lemma C3_counterexample :
  getOpt (Some zeroHeader) "timestamp" = Some (JNum (inject_Z 0)) /\
  clockTime (JNum (inject_Z 0)) = Some 0%Z /\
  (0 < nowMs - LOOKBACK_MS)%Z /\
  scanSession clockTime nowMs {[ "zero.jsonl" := zeroLog ]} "zero.jsonl"
  = None /\
  firstPass clockTime (nowMs - LOOKBACK_MS) zeroLog 0 JNull
    (JStr EmptyString) = Completed zeroHeader (JStr "Named") /\
  firstPass clockTime (nowMs - LOOKBACK_MS) zeroLog 0 JNull
    (JStr EmptyString) <> Returned 1.
Proof. repeat split. discriminate. Qed.

(** ** C4: the title of a session *)

(** C4, as amended: for every session log accepted by [scanSession], if
    an entry after the first line (the header, which is never read as a
    name entry) is a [session_info] with a name, the title is the name
    of the last such entry, whatever the user messages; otherwise the
    title is decided by the first user-authored message of the file that
    can be read, the messages that cannot being passed over (a list
    payload with a [null] before its first text-typed part, or whose
    first text-typed part has a text that is neither a string nor a
    list): when this message has a text (its string payload, or the text
    of the first text-typed part of its list payload), the title is that
    text cut to at most 80 characters (elements, for a text that is a
    list), or ["(untitled)"] if it is the empty string;
    when it has none (a list payload without a text-typed part, or a
    payload that is neither a string nor a list), the title is
    ["(untitled)"], whatever the later messages; and when every line is
    passed over, the title is ["(untitled)"]. *)
Theorem C4_scanSession_title (dateTime : json -> option Z) (now : Z)
    (logs : gmap string (list (option json))) (filePath : string)
    (lines : list (option json)) (info : SessionInfo) :
  logs !! filePath = Some lines ->
  scanSession dateTime now logs filePath = Some info ->
  (forall pre e post n,
     tail lines = pre ++ e :: post ->
     sessionName e = Some n ->
     Forall (fun l => sessionName l = None) post ->
     title info = n) /\
  (Forall (fun l => sessionName l = None) (tail lines) ->
   (forall pre e post t,
      lines = pre ++ e :: post ->
      Forall passedOver pre ->
      isUserMessage e = true ->
      payloadReading e = Text t ->
      title info = orUntitled t) /\
   (forall pre e post,
      lines = pre ++ e :: post ->
      Forall passedOver pre ->
      isUserMessage e = true ->
      payloadReading e = NoText ->
      title info = JStr "(untitled)") /\
   (Forall passedOver lines -> title info = JStr "(untitled)")) /\
  (forall e t,
     payloadReading e = Text t ->
     (exists s, t = JStr s /\ String.length s <= 80) \/
     (exists l, t = JArr l /\ length l <= 80)).
Proof.
  intros Hlines Hscan.
  destruct (scanSession_accepted _ _ _ _ _ _ Hlines Hscan)
    as (header & rest & -> & _ & _ & ->).
  cbn [tail]. split; [|split].
  - intros pre e post n -> He Hpost.
    rewrite (fold_title_last _ _ _ _ _ He Hpost).
    apply finalTitle_named, (sessionName_truthy _ _ He).
  - intros Hnone. rewrite (fold_title_none _ _ Hnone).
    split; [|split].
    + intros pre e post t Hsplit Hpre He Ht.
      now rewrite Hsplit, (finalTitle_reading _ _ _ Hpre He), Ht.
    + intros pre e post Hsplit Hpre He Ht.
      now rewrite Hsplit, (finalTitle_reading _ _ _ Hpre He), Ht.
    + apply finalTitle_passedOver.
  - apply payloadReading_length.
Qed.

Lemma C4_scanSession_title_witness :
  (exists info, scanSample "named.jsonl" = Some info /\
                title info = JStr "Fix memory bug") /\
  (exists info, scanSample "plain.jsonl" = Some info /\
                title info = JStr "Can you fix the tests?") /\
  (exists info, scanSample "quiet.jsonl" = Some info /\
                title info = JStr "(untitled)") /\
  (exists info,
     scanSession clockTime nowMs nullLogs "null.jsonl" = Some info /\
     title info = JStr "later").
Proof.
  split; [|split; [|split]]; eexists; (split; [reflexivity|]).
  - apply (proj1 (C4_scanSession_title clockTime nowMs sampleLogs
                    "named.jsonl" _ _ eq_refl eq_refl)
             [sessionInfo "First name"; userMessage (JStr "hello")]
             (sessionInfo "Fix memory bug") []).
    + reflexivity.
    + reflexivity.
    + constructor.
  - apply (proj1 (proj1 (proj2 (C4_scanSession_title clockTime nowMs
                    sampleLogs "plain.jsonl" _ _ eq_refl eq_refl))
                   ltac:(repeat constructor))
             [headerAt "2026-02-18T08:00:00.000Z"; None]
             (userMessage (JStr "Can you fix the tests?"))
             [userMessage (JStr "later")]
             (JStr "Can you fix the tests?")).
    + reflexivity.
    + repeat constructor; left; reflexivity.
    + reflexivity.
    + reflexivity.
  - apply (proj2 (proj2 (proj1 (proj2 (C4_scanSession_title clockTime nowMs
                    sampleLogs "quiet.jsonl" _ _ eq_refl eq_refl))
                   ltac:(repeat constructor)))).
    repeat constructor; left; reflexivity.
  - apply (proj1 (proj1 (proj2 (C4_scanSession_title clockTime nowMs
                    nullLogs "null.jsonl" _ _ eq_refl eq_refl))
                   ltac:(repeat constructor))
             [headerAt "2026-02-18T08:00:00.000Z";
              userMessage (JArr [JNull; textPart "first"])]
             (userMessage (JStr "later")) []
             (JStr "later")).
    + reflexivity.
    + constructor; [left; reflexivity|].
      constructor; [right; reflexivity|]. constructor.
    + reflexivity.
    + reflexivity.
Defined.

(** C4 as stated fails on a log whose first user message has the empty
    string as payload: no [session_info] entry names the session, the
    first user-authored message exists and its text cut to 80 characters
    is the empty string, yet the title is ["(untitled)"]; the next user
    message is not looked at. *)
Lemma C4_counterexample :
  let lines := [ headerAt "2026-02-18T08:00:00.000Z";
                 userMessage (JStr EmptyString);
                 userMessage (JStr "second message") ] in
  sampleLogs !! "empty.jsonl" = Some lines /\
  Forall (fun l => sessionName l = None) (tail lines) /\
  isUserMessage (headerAt "2026-02-18T08:00:00.000Z") = false /\
  isUserMessage (userMessage (JStr EmptyString)) = true /\
  messageText (userMessage (JStr EmptyString)) = Some EmptyString /\
  exists info,
    scanSample "empty.jsonl" = Some info /\
    title info = JStr "(untitled)" /\
    title info <> JStr (Js.slice0 80 EmptyString).
Proof.
  repeat split; try reflexivity.
  - repeat constructor.
  - eexists. split; [reflexivity|]. split; [reflexivity | discriminate].
Qed.

(** The first text-typed part of a list payload gives the title. *)
Example scan_list_payload :
  scanLines [ headerAt "2026-02-18T08:00:00.000Z";
              userMessage (JArr [imagePart; textPart "Array content message"]) ]
  = Some (JStr "Array content message").
Proof. reflexivity. Qed.

(** A first user message without any text-typed part ends the search:
    the later message is not used. *)
Example scan_list_without_text :
  scanLines [ headerAt "2026-02-18T08:00:00.000Z";
              userMessage (JArr [imagePart]);
              userMessage (JStr "later") ]
  = Some (JStr "(untitled)").
Proof. reflexivity. Qed.

(** A [null] part before the text makes the body throw, and the scan goes
    on to the next line. *)
Example scan_null_part :
  scanLines [ headerAt "2026-02-18T08:00:00.000Z";
              userMessage (JArr [JNull; textPart "first"]);
              userMessage (JStr "later") ]
  = Some (JStr "later").
Proof. reflexivity. Qed.

(** A first text-typed part without a text makes the body throw too. *)
Example scan_part_without_text :
  scanLines [ headerAt "2026-02-18T08:00:00.000Z";
              userMessage (JArr [JObj [("type", JStr "text")]]);
              userMessage (JStr "later") ]
  = Some (JStr "later").
Proof. reflexivity. Qed.

(** The first line is the header, whatever its type: a name it carries
    is not the title. *)
Example scan_header_name :
  scanLines [ Some (JObj [("type", JStr "session_info");
                          ("name", JStr "Header name");
                          ("timestamp", JStr "2026-02-18T08:00:00.000Z")]);
              userMessage (JStr "hello") ]
  = Some (JStr "hello").
Proof. reflexivity. Qed.

(** ** C2: [memory_write] with target [note] and no file name *)

(** C2 does not hold of the code: the call with target [note] and no
    [filename] does not return the error text of the note branch; reading
    the identifier [filename], which the function never declares, throws
    a [ReferenceError]. *)
Theorem C2_memory_write_note :
  let o := snd (MemoryWrite.execute sampleConfig "550e8400-e29b-41d4"
                  "2026-02-18 09:00:00" "2026-02-18" noteWithoutFilename
                  emptyRoot) in
  noteWithoutFilename !! "filename" = None /\
  o = MemoryWrite.Throws (MemoryWrite.ReferenceError "filename") /\
  ~ MemoryWrite.returnsError o.
Proof.
  cbv zeta.
  rewrite (memory_write_note_throws sampleConfig _ _ _ noteWithoutFilename
             emptyRoot eq_refl).
  repeat split.
  intros (r & Hr & _). discriminate.
Qed.

(** * Further results *)

(** ** The [scratchpad] tool *)

(** X1: adding an item with a non-empty, single-line text appends exactly
    that item, open and stamped with the time and the first eight
    characters of the session id: the written file parses to the items
    that were there followed by the new one. *)
Theorem X1_scratchpad_add (config : MemoryConfig) (sessionId now t : string)
    (params : gmap string string) (fs : FileSystem) :
  params !! "action" = Some "add" ->
  params !! "text" = Some t ->
  t <> EmptyString ->
  noLineTerminator t ->
  noLineTerminator now ->
  noLineTerminator sessionId ->
  let old := orElse (readFileSafe fs (scratchpadFile config)) EmptyString in
  let r := ScratchpadTool.execute config sessionId now params fs in
  exists content,
    readFileSafe (fst r) (scratchpadFile config) = Some content /\
    parseScratchpad content =
    parseScratchpad old ++
    [ScratchpadTool.newItem t now (MemoryWrite.shortSessionId sessionId)].
Proof.
  intros Ha Ht Hne Hlt Hnow Hsid old r.
  destruct (add_file config sessionId now t params fs Ha Ht Hne Hlt Hnow
              Hsid) as [Hread Hvalid].
  eexists. split; [exact Hread|]. now apply roundtrip_core.
Qed.

Lemma X1_scratchpad_add_witness :
  exists content,
    readFileSafe
      (fst (ScratchpadTool.execute sampleConfig sampleSession sampleNow
              (addParams "Review PR") (sampleFiles mixedScratchpad)))
      (scratchpadFile sampleConfig) = Some content /\
    parseScratchpad content =
    parseScratchpad mixedScratchpad ++
    [ScratchpadTool.newItem "Review PR" sampleNow "01234567"].
Proof.
  apply (X1_scratchpad_add sampleConfig sampleSession sampleNow "Review PR"
           (addParams "Review PR") (sampleFiles mixedScratchpad));
    solve [reflexivity | discriminate].
Defined.

(** X2: [add], [done] and [undo] without a text, or with an empty one,
    answer with an error message that names the action and write
    nothing. *)
Theorem X2_scratchpad_text_required (config : MemoryConfig)
    (sessionId now action : string) (params : gmap string string)
    (fs : FileSystem) :
  params !! "action" = Some action ->
  action = "add" \/ action = "done" \/ action = "undo" ->
  MemoryWrite.truthyStr (params !! "text") = false ->
  let r := ScratchpadTool.execute config sessionId now params fs in
  files (fst r) = files fs /\
  ScratchpadTool.text (snd r) =
  "Error: 'text' is required for " +:+ action +:+ "." /\
  ScratchpadTool.details (snd r) = [].
Proof.
  intros Ha Hact Ht r. subst r.
  unfold ScratchpadTool.execute. cbv zeta. rewrite Ha, Ht.
  destruct Hact as [-> | [-> | ->]]; decide_actions; now repeat split.
Qed.

Lemma X2_scratchpad_text_required_witness :
  let r :=
    ScratchpadTool.execute sampleConfig sampleSession sampleNow
      (addParams EmptyString) (sampleFiles mixedScratchpad) in
  files (fst r) = files (sampleFiles mixedScratchpad) /\
  ScratchpadTool.text (snd r) = "Error: 'text' is required for add." /\
  ScratchpadTool.details (snd r) = [].
Proof.
  apply (X2_scratchpad_text_required sampleConfig sampleSession sampleNow
           "add" (addParams EmptyString) (sampleFiles mixedScratchpad));
    [reflexivity | now left | reflexivity].
Defined.

(** X3: [done] (and [undo]) changes the first item that is still open
    (still done) and whose text holds the given text whatever the case,
    and only that one: the written file parses to the same items, in the
    same order, with that item's state switched. *)
Theorem X3_scratchpad_mark_first (config : MemoryConfig)
    (sessionId now t : string) (toDone : bool)
    (params : gmap string string) (fs : FileSystem)
    (pre post : list ScratchpadItem) (item : ScratchpadItem) :
  params !! "action" = Some (if toDone then "done" else "undo") ->
  params !! "text" = Some t ->
  t <> EmptyString ->
  parseScratchpad
    (orElse (readFileSafe fs (scratchpadFile config)) EmptyString) =
  pre ++ item :: post ->
  Forall (fun i => done i = toDone \/
                   Js.includes (Js.toLowerCase (text i)) (Js.toLowerCase t)
                   = false) pre ->
  done item = negb toDone ->
  Js.includes (Js.toLowerCase (text item)) (Js.toLowerCase t) = true ->
  let r := ScratchpadTool.execute config sessionId now params fs in
  exists content,
    readFileSafe (fst r) (scratchpadFile config) = Some content /\
    parseScratchpad content =
    pre ++ {| done := toDone; text := text item; meta := meta item |} :: post.
Proof.
  intros Ha Ht Hne Hitems Hpre Hdone Hinc r. subst r.
  unfold ScratchpadTool.execute. cbv zeta. rewrite Ha, Ht.
  assert (ScratchpadTool.markFirst toDone (Js.toLowerCase t)
            (pre ++ item :: post) =
          Some (pre ++ ScratchpadTool.setDone toDone item :: post)) as Hmark.
  { apply markFirst_some.
    - eapply Forall_impl; [exact Hpre|]. intros i Hi.
      unfold ScratchpadTool.candidate. destruct Hi as [-> | ->].
      + now destruct toDone.
      + apply andb_false_r.
    - unfold ScratchpadTool.candidate. rewrite Hdone, Hinc.
      now destruct toDone. }
  assert (Forall roundTripItem
            (pre ++ ScratchpadTool.setDone toDone item :: post)) as Hvalid.
  { eapply markFirst_valid; [exact Hmark|]. rewrite <- Hitems.
    apply parse_valid. }
  rewrite (truthyStr_some t Hne).
  rewrite read_ensureDirs, Hitems.
  destruct toDone; decide_actions; cbn [negb orb orElse];
    change (String.eqb "done" "done") with true;
    change (String.eqb "undo" "done") with false;
    rewrite Hmark;
    (eexists; split; [apply read_after_write|]);
    now apply roundtrip_core.
Qed.

Lemma X3_scratchpad_mark_first_witness :
  exists content,
    readFileSafe
      (fst (ScratchpadTool.execute sampleConfig sampleSession sampleNow
              (doneParams "TASK") (sampleFiles mixedScratchpad)))
      (scratchpadFile sampleConfig) = Some content /\
    parseScratchpad content =
    [] ++ {| done := true; text := "Open task"; meta := EmptyString |} ::
    [{| done := true; text := "Done task"; meta := EmptyString |}].
Proof.
  apply (X3_scratchpad_mark_first sampleConfig sampleSession sampleNow
           "TASK" true (doneParams "TASK") (sampleFiles mixedScratchpad)
           [] [{| done := true; text := "Done task"; meta := EmptyString |}]
           {| done := false; text := "Open task"; meta := EmptyString |});
    solve [reflexivity | discriminate | constructor].
Defined.

(** X4: when no item is in the other state with the given text in it,
    [done] and [undo] write nothing and say that nothing matched. *)
Theorem X4_scratchpad_no_match (config : MemoryConfig)
    (sessionId now t : string) (toDone : bool)
    (params : gmap string string) (fs : FileSystem) :
  params !! "action" = Some (if toDone then "done" else "undo") ->
  params !! "text" = Some t ->
  t <> EmptyString ->
  Forall (fun i => done i = toDone \/
                   Js.includes (Js.toLowerCase (text i)) (Js.toLowerCase t)
                   = false)
    (parseScratchpad
       (orElse (readFileSafe fs (scratchpadFile config)) EmptyString)) ->
  let r := ScratchpadTool.execute config sessionId now params fs in
  files (fst r) = files fs /\
  ScratchpadTool.text (snd r) =
  "No matching " +:+ (if toDone then "open" else "done") +:+
  " item found for: " +:+ ScratchpadTool.quote +:+ t +:+
  ScratchpadTool.quote.
Proof.
  intros Ha Ht Hne Hnone r. subst r.
  unfold ScratchpadTool.execute. cbv zeta. rewrite Ha, Ht.
  rewrite (truthyStr_some t Hne), read_ensureDirs.
  assert (ScratchpadTool.markFirst toDone (Js.toLowerCase t)
            (parseScratchpad
               (orElse (readFileSafe fs (scratchpadFile config))
                  EmptyString)) = None) as Hmark.
  { apply markFirst_none. eapply Forall_impl; [exact Hnone|]. intros i Hi.
    unfold ScratchpadTool.candidate. destruct Hi as [-> | ->].
    - now destruct toDone.
    - apply andb_false_r. }
  destruct toDone; decide_actions; cbn [negb orb orElse];
    change (String.eqb "done" "done") with true;
    change (String.eqb "undo" "done") with false;
    cbn [orElse] in Hmark; rewrite Hmark; now split.
Qed.

Lemma X4_scratchpad_no_match_witness :
  let r :=
    ScratchpadTool.execute sampleConfig sampleSession sampleNow
      (doneParams "done") (sampleFiles mixedScratchpad) in
  files (fst r) = files (sampleFiles mixedScratchpad) /\
  ScratchpadTool.text (snd r) =
  "No matching " +:+ "open" +:+ " item found for: " +:+
  ScratchpadTool.quote +:+ "done" +:+ ScratchpadTool.quote.
Proof.
  apply (X4_scratchpad_no_match sampleConfig sampleSession sampleNow
           "done" true (doneParams "done") (sampleFiles mixedScratchpad));
    [reflexivity | reflexivity | discriminate |].
  vm_compute.
  constructor; [right; reflexivity|].
  constructor; [left; reflexivity|].
  constructor.
Defined.

(** X5: [clear_done] keeps exactly the open items, in their order, and
    reports the number of done items as removed. *)
Theorem X5_scratchpad_clear_done (config : MemoryConfig)
    (sessionId now : string) (params : gmap string string)
    (fs : FileSystem) :
  params !! "action" = Some "clear_done" ->
  let items :=
    parseScratchpad
      (orElse (readFileSafe fs (scratchpadFile config)) EmptyString) in
  let r := ScratchpadTool.execute config sessionId now params fs in
  (exists content,
     readFileSafe (fst r) (scratchpadFile config) = Some content /\
     parseScratchpad content = List.filter isOpen items) /\
  ScratchpadTool.details (snd r) =
  [("action", ScratchpadTool.DStr "clear_done");
   ("removed",
    ScratchpadTool.DNum (length (List.filter (fun i => done i) items)))].
Proof.
  intros Ha items r. subst r.
  unfold ScratchpadTool.execute. cbv zeta. rewrite Ha, read_ensureDirs.
  decide_actions. fold items. split.
  - eexists. split; [apply read_after_write|].
    apply roundtrip_core, filter_valid, parse_valid.
  - cbn [snd ScratchpadTool.details]. do 4 f_equal.
    pose proof (filter_open_length items). lia.
Qed.

Lemma X5_scratchpad_clear_done_witness :
  let r :=
    ScratchpadTool.execute sampleConfig sampleSession sampleNow
      clearParams (sampleFiles mixedScratchpad) in
  (exists content,
     readFileSafe (fst r) (scratchpadFile sampleConfig) = Some content /\
     parseScratchpad content =
     List.filter isOpen (parseScratchpad mixedScratchpad)) /\
  ScratchpadTool.details (snd r) =
  [("action", ScratchpadTool.DStr "clear_done");
   ("removed", ScratchpadTool.DNum 1)].
Proof.
  apply (X5_scratchpad_clear_done sampleConfig sampleSession sampleNow
           clearParams (sampleFiles mixedScratchpad)).
  reflexivity.
Defined.

(** X6: [clear_done] is idempotent: run again on its own result, it
    removes nothing and writes the same file. *)
Theorem X6_scratchpad_clear_done_twice (config : MemoryConfig)
    (sessionId now sessionId' now' : string)
    (params params' : gmap string string) (fs : FileSystem) :
  params !! "action" = Some "clear_done" ->
  params' !! "action" = Some "clear_done" ->
  let r := ScratchpadTool.execute config sessionId now params fs in
  let r' := ScratchpadTool.execute config sessionId' now' params' (fst r) in
  files (fst r') = files (fst r) /\
  ScratchpadTool.details (snd r') =
  [("action", ScratchpadTool.DStr "clear_done");
   ("removed", ScratchpadTool.DNum 0)].
Proof.
  intros Ha Ha' r r'.
  pose proof (clear_done_file config sessionId now params fs Ha) as Hread.
  cbv zeta in Hread. fold r in Hread. subst r'.
  unfold ScratchpadTool.execute. cbv zeta. rewrite Ha', read_ensureDirs.
  decide_actions. rewrite Hread. cbn [orElse].
  rewrite roundtrip_core by apply filter_valid, parse_valid.
  rewrite filter_open_all. split.
  - cbn [fst]. unfold MemoryWrite.gitCommit, MemoryWrite.writeFileSync.
    cbn [files]. rewrite files_ensureDirs.
    apply insert_id. exact Hread.
  - cbn [snd ScratchpadTool.details]. do 4 f_equal. lia.
Qed.

Lemma X6_scratchpad_clear_done_twice_witness :
  let r :=
    ScratchpadTool.execute sampleConfig sampleSession sampleNow
      clearParams (sampleFiles mixedScratchpad) in
  let r' :=
    ScratchpadTool.execute sampleConfig sampleSession sampleNow
      clearParams (fst r) in
  files (fst r') = files (fst r) /\
  ScratchpadTool.details (snd r') =
  [("action", ScratchpadTool.DStr "clear_done");
   ("removed", ScratchpadTool.DNum 0)].
Proof.
  apply (X6_scratchpad_clear_done_twice sampleConfig sampleSession sampleNow
           sampleSession sampleNow clearParams clearParams
           (sampleFiles mixedScratchpad)); reflexivity.
Defined.

(** X7: whatever the action and the text, the [scratchpad] tool changes
    no file other than the checklist file. *)
Theorem X7_scratchpad_frame (config : MemoryConfig) (sessionId now : string)
    (params : gmap string string) (fs : FileSystem) (p : string) :
  p <> scratchpadFile config ->
  readFileSafe
    (fst (ScratchpadTool.execute config sessionId now params fs)) p =
  readFileSafe fs p.
Proof.
  intros Hp. unfold ScratchpadTool.execute. cbv zeta.
  repeat match goal with
  | |- context [if ?c then _ else _] => destruct c
  | |- context [match ScratchpadTool.markFirst ?b ?n ?l with _ => _ end] =>
      destruct (ScratchpadTool.markFirst b n l)
  end;
  cbn [fst]; unfold MemoryWrite.gitCommit;
  rewrite ?read_other_after_write by congruence; reflexivity.
Qed.

Lemma X7_scratchpad_frame_witness :
  readFileSafe
    (fst (ScratchpadTool.execute sampleConfig sampleSession sampleNow
            (addParams "Review PR") (sampleFiles mixedScratchpad)))
    "/h/.pi/agent/memory/MEMORY.md" =
  readFileSafe (sampleFiles mixedScratchpad) "/h/.pi/agent/memory/MEMORY.md".
Proof.
  apply (X7_scratchpad_frame sampleConfig sampleSession sampleNow
           (addParams "Review PR") (sampleFiles mixedScratchpad)
           "/h/.pi/agent/memory/MEMORY.md").
  discriminate.
Defined.

(** X27: an item added with a non-empty, single-line text shows in the
    next memory context: the context holds the checklist section with
    the open items that were there followed by the new item. *)
Theorem X27_scratchpad_add_context (config : MemoryConfig)
    (sessionId now today yesterday t : string)
    (params : gmap string string) (fs : FileSystem) :
  params !! "action" = Some "add" ->
  params !! "text" = Some t ->
  t <> EmptyString ->
  noLineTerminator t ->
  noLineTerminator now ->
  noLineTerminator sessionId ->
  let old := orElse (readFileSafe fs (scratchpadFile config)) EmptyString in
  let r := ScratchpadTool.execute config sessionId now params fs in
  Js.includes
    (snd (buildMemoryContext config today yesterday (fst r)))
    ("## SCRATCHPAD.md (working context)" +:+ nl2 +:+
     serializeScratchpad
       (List.filter isOpen (parseScratchpad old) ++
        [ScratchpadTool.newItem t now
           (MemoryWrite.shortSessionId sessionId)])) = true.
Proof.
  intros Ha Ht Hne Hlt Hnow Hsid old r.
  destruct (add_file config sessionId now t params fs Ha Ht Hne Hlt Hnow
              Hsid) as [Hread Hvalid].
  fold old r in Hread, Hvalid.
  pose proof (roundtrip_core _ Hvalid) as Hparse.
  apply context_includes. rewrite buildSections_split, !in_app_iff.
  right. left. rewrite Hread.
  rewrite scratchpadSection_open.
  - rewrite Hparse, filter_open_app. now left.
  - rewrite Hparse. apply Exists_app. right. now left.
Qed.

Lemma X27_scratchpad_add_context_witness :
  Js.includes
    (snd (buildMemoryContext sampleConfig "2026-02-18" "2026-02-17"
            (fst (ScratchpadTool.execute sampleConfig sampleSession
                    sampleNow (addParams "Review PR")
                    (sampleFiles mixedScratchpad)))))
    ("## SCRATCHPAD.md (working context)" +:+ nl2 +:+
     serializeScratchpad
       (List.filter isOpen (parseScratchpad mixedScratchpad) ++
        [ScratchpadTool.newItem "Review PR" sampleNow "01234567"])) = true.
Proof.
  apply (X27_scratchpad_add_context sampleConfig sampleSession sampleNow
           "2026-02-18" "2026-02-17" "Review PR" (addParams "Review PR")
           (sampleFiles mixedScratchpad));
    solve [reflexivity | discriminate].
Defined.

(** X28: what [add] writes, [memory_read] shows: after an item is added
    with a non-empty, single-line text, reading the target [scratchpad]
    returns a text that parses to the items that were there followed by
    the new one. *)
Theorem X28_scratchpad_add_read (config : MemoryConfig)
    (sessionId now today t : string)
    (params query : gmap string string) (fs : FileSystem) :
  params !! "action" = Some "add" ->
  params !! "text" = Some t ->
  t <> EmptyString ->
  noLineTerminator t ->
  noLineTerminator now ->
  noLineTerminator sessionId ->
  query !! "target" = Some "scratchpad" ->
  let old := orElse (readFileSafe fs (scratchpadFile config)) EmptyString in
  let r := ScratchpadTool.execute config sessionId now params fs in
  let q := MemoryRead.execute config today query (fst r) in
  parseScratchpad (MemoryWrite.text (snd q)) =
  parseScratchpad old ++
  [ScratchpadTool.newItem t now (MemoryWrite.shortSessionId sessionId)].
Proof.
  intros Ha Ht Hne Hlt Hnow Hsid Hq old r q.
  destruct (add_file config sessionId now t params fs Ha Ht Hne Hlt Hnow
              Hsid) as [Hread Hvalid].
  fold old r in Hread, Hvalid. subst q.
  unfold MemoryRead.execute. cbv zeta. rewrite Hq, !read_ensureDirs, Hread.
  decide_actions. rewrite serialize_not_blank.
  cbn [snd MemoryRead.found MemoryWrite.text].
  now apply roundtrip_core.
Qed.

Lemma X28_scratchpad_add_read_witness :
  parseScratchpad
    (MemoryWrite.text
       (snd (MemoryRead.execute sampleConfig "2026-02-18"
               (readParams "scratchpad")
               (fst (ScratchpadTool.execute sampleConfig sampleSession
                       sampleNow (addParams "Review PR")
                       (sampleFiles mixedScratchpad)))))) =
  parseScratchpad mixedScratchpad ++
  [ScratchpadTool.newItem "Review PR" sampleNow "01234567"].
Proof.
  apply (X28_scratchpad_add_read sampleConfig sampleSession sampleNow
           "2026-02-18" "Review PR" (addParams "Review PR")
           (readParams "scratchpad") (sampleFiles mixedScratchpad));
    solve [reflexivity | discriminate].
Defined.

(** ** The checklist codec *)

(** X8: writing back what was parsed loses nothing the parser saw: for
    every content, parsing the serialisation of its items gives the same
    items again. *)
Theorem X8_parse_serialize_parse (content : string) :
  parseScratchpad (serializeScratchpad (parseScratchpad content)) =
  parseScratchpad content.
Proof. apply roundtrip_core, parse_valid. Qed.

(** X9: parsing is local to the lines: when the last line of a content is
    not a full-line comment, the items of that content followed by a
    newline and a second content are the items of the first followed by
    the items of the second. *)
Theorem X9_parse_concat (c1 c2 : string) :
  (forall l, last (Js.split Js.LF c1) = Some l ->
             Re.matches commentRe l = false) ->
  parseScratchpad (c1 +:+ Js.nl +:+ c2) =
  parseScratchpad c1 ++ parseScratchpad c2.
Proof.
  intros Hlast. rewrite !parseScratchpad_parseFrom.
  change (c1 +:+ Js.nl +:+ c2) with (c1 +:+ String Js.LF c2).
  rewrite split_app_sep, parseFrom_app. f_equal.
  destruct (split_last_line Js.LF c1) as [l Hl]. rewrite Hl.
  apply parseFrom_prev. unfold metaOf. now rewrite (Hlast l Hl).
Qed.

Lemma X9_parse_concat_witness :
  parseScratchpad (mixedScratchpad +:+ Js.nl +:+ doneScratchpad) =
  parseScratchpad mixedScratchpad ++ parseScratchpad doneScratchpad.
Proof.
  apply (X9_parse_concat mixedScratchpad doneScratchpad).
  intros l Hl. vm_compute in Hl. injection Hl as <-. reflexivity.
Defined.

(** X10: a line that ends with a carriage return is never an item, so a
    content whose lines all end with one, or are empty, has no items. *)
Theorem X10_parse_carriage_return (content : string) :
  Forall (fun l => l = EmptyString \/
                   Js.endsWith l (String Js.CR EmptyString) = true)
    (Js.split Js.LF content) ->
  parseScratchpad content = [].
Proof.
  intros H. rewrite parseScratchpad_parseFrom. apply parseFrom_no_item.
  eapply Forall_impl; [exact H|]. intros l [-> | Hl]; [reflexivity|].
  now apply carriage_return_no_item.
Qed.

Lemma X10_parse_carriage_return_witness :
  parseScratchpad
    ("# Scratchpad" +:+ String Js.CR Js.nl +:+ String Js.CR Js.nl +:+
     "- [ ] Open task" +:+ String Js.CR Js.nl) = [].
Proof.
  apply (X10_parse_carriage_return
           ("# Scratchpad" +:+ String Js.CR Js.nl +:+ String Js.CR Js.nl +:+
            "- [ ] Open task" +:+ String Js.CR Js.nl)).
  vm_compute.
  repeat match goal with
  | |- Forall _ (_ :: _) =>
      constructor; [first [left; reflexivity | right; reflexivity]|]
  end.
  constructor.
Defined.

(** X11: serialising is incremental: the output for a list followed by a
    second list is the output for the first followed by the output for
    the second without its header. *)
Theorem X11_serialize_app (a b : list ScratchpadItem) :
  serializeScratchpad (a ++ b) =
  serializeScratchpad a +:+
  Js.drop (String.length ("# Scratchpad" +:+ nl2)) (serializeScratchpad b).
Proof.
  rewrite (serialize_unlines b), drop_app_str.
  rewrite !serialize_unlines, map_app, concat_app, unlines_app.
  now rewrite !app_assoc.
Qed.

(** ** The [memory_write] tool *)

(** X12: for a target other than [note], the only file a write of
    [memory_write] changes is the one of its target, today's log for
    [daily] and the long-term file otherwise: every other file reads
    the same after the write as before. *)
Theorem X12_memory_write_frame (config : MemoryConfig)
    (sessionId now today : string) (params : gmap string string)
    (fs : FileSystem) (p : string) :
  let target := orElse (params !! "target") EmptyString in
  target <> "note" ->
  p <> writeTarget config today target ->
  readFileSafe
    (fst (MemoryWrite.execute config sessionId now today params fs)) p =
  readFileSafe fs p.
Proof.
  intros target Hnote Hp.
  destruct (memory_write_file config sessionId now today params fs Hnote)
    as (r & data & Hw & _). rewrite Hw. cbn [fst].
  rewrite read_other_after_write by (intros E; now apply Hp).
  apply read_ensureDirs.
Qed.

Lemma X12_memory_write_frame_witness :
  readFileSafe
    (fst (MemoryWrite.execute sampleConfig sampleSession sampleNow
            "2026-02-18" overwriteDaily (sampleFiles mixedScratchpad)))
    "/h/.pi/agent/memory/MEMORY.md" =
  readFileSafe (sampleFiles mixedScratchpad) "/h/.pi/agent/memory/MEMORY.md".
Proof.
  apply (X12_memory_write_frame sampleConfig sampleSession sampleNow
           "2026-02-18" overwriteDaily (sampleFiles mixedScratchpad)
           "/h/.pi/agent/memory/MEMORY.md"); discriminate.
Defined.

(** X13: a daily log is only ever appended to, whatever the mode, and so
    is the long-term file unless the mode is [overwrite]: the file
    written starts with what the file held, ends with the given content,
    and is not blank. *)
Theorem X13_memory_write_keeps_existing (config : MemoryConfig)
    (sessionId now today : string) (params : gmap string string)
    (fs : FileSystem) :
  let target := orElse (params !! "target") EmptyString in
  let content := orElse (params !! "content") EmptyString in
  let path := writeTarget config today target in
  let existing := orElse (readFileSafe fs path) EmptyString in
  target <> "note" ->
  target = "daily" \/ params !! "mode" <> Some "overwrite" ->
  let w := MemoryWrite.execute config sessionId now today params fs in
  exists data,
    readFileSafe (fst w) path = Some data /\
    Js.startsWith data existing = true /\
    Js.endsWith data content = true /\
    Js.trim data <> EmptyString.
Proof.
  intros target content path existing Hnote Hmode w.
  destruct (memory_write_file config sessionId now today params fs Hnote)
    as (r & data & Hw & _ & Hdata). subst w. rewrite Hw.
  exists data. split; [apply read_after_write|].
  destruct Hdata as [(_ & Hd & Hm) | (-> & _)];
    [destruct Hmode; contradiction|].
  fold target content path existing. repeat split.
  - rewrite !app_assoc. apply startsWith_app.
  - rewrite <- !app_assoc. apply endsWith_app.
  - apply stamped_not_blank.
Qed.

Lemma X13_memory_write_keeps_existing_witness :
  exists data,
    readFileSafe
      (fst (MemoryWrite.execute sampleConfig sampleSession sampleNow
              "2026-02-18" overwriteDaily (sampleFiles mixedScratchpad)))
      (writeTarget sampleConfig "2026-02-18" "daily") = Some data /\
    Js.startsWith data "Today content" = true /\
    Js.endsWith data "Fixed the parser" = true /\
    Js.trim data <> EmptyString.
Proof.
  apply (X13_memory_write_keeps_existing sampleConfig sampleSession
           sampleNow "2026-02-18" overwriteDaily
           (sampleFiles mixedScratchpad)).
  - discriminate.
  - left. reflexivity.
Defined.

(** X14: what [memory_write] writes to the long-term file or to today's
    log, [memory_read] returns for the same target: its text is the file
    as written, which ends with the content given, and its details name
    the file. *)
Theorem X14_memory_write_read (config : MemoryConfig)
    (sessionId now today target : string)
    (params query : gmap string string) (fs : FileSystem) :
  params !! "target" = Some target ->
  target = "daily" \/ target = "long_term" ->
  query !! "target" = Some target ->
  query !! "date" = None ->
  let w := MemoryWrite.execute config sessionId now today params fs in
  let r := MemoryRead.execute config today query (fst w) in
  readFileSafe (fst w) (writeTarget config today target) =
  Some (MemoryWrite.text (snd r)) /\
  Js.endsWith (MemoryWrite.text (snd r))
    (orElse (params !! "content") EmptyString) = true /\
  In ("path", writeTarget config today target)
     (MemoryWrite.details (snd r)).
Proof.
  intros Ht Htarget Hq Hd w r.
  assert (orElse (params !! "target") EmptyString <> "note") as Hnote.
  { rewrite Ht. cbn [orElse]. destruct Htarget as [-> | ->]; discriminate. }
  destruct (memory_write_data config sessionId now today params fs Hnote)
    as (res & data & Hw & Hends & Htrim).
  rewrite Ht in Hw. cbn [orElse] in Hw.
  subst r w. rewrite Hw. cbn [fst].
  unfold MemoryRead.execute. cbv zeta. rewrite Hq, Hd, !read_ensureDirs.
  pose proof (trim_nonEmpty_inv data Htrim) as Hne.
  destruct Htarget as [-> | ->]; decide_actions;
    unfold writeTarget; cbn [String.eqb Ascii.eqb Bool.eqb orElse];
    unfold writeTarget in Hw; cbn [String.eqb Ascii.eqb Bool.eqb] in Hw;
    rewrite read_after_write, Hne; cbn [snd MemoryWrite.text];
    (split; [reflexivity | split; [exact Hends | now left]]).
Qed.

Lemma X14_memory_write_read_witness :
  let w :=
    MemoryWrite.execute sampleConfig sampleSession sampleNow "2026-02-18"
      (writeParams "daily" "Fixed the parser")
      (sampleFiles mixedScratchpad) in
  let r := MemoryRead.execute sampleConfig "2026-02-18" (readParams "daily")
             (fst w) in
  readFileSafe (fst w) (writeTarget sampleConfig "2026-02-18" "daily") =
  Some (MemoryWrite.text (snd r)) /\
  Js.endsWith (MemoryWrite.text (snd r))
    (orElse (writeParams "daily" "Fixed the parser" !! "content")
       EmptyString) = true /\
  In ("path", writeTarget sampleConfig "2026-02-18" "daily")
     (MemoryWrite.details (snd r)).
Proof.
  apply (X14_memory_write_read sampleConfig sampleSession sampleNow
           "2026-02-18" "daily" (writeParams "daily" "Fixed the parser")
           (readParams "daily") (sampleFiles mixedScratchpad));
    solve [reflexivity | now left].
Defined.

(** X15: what [memory_write] writes to the long-term file or to today's
    log shows in the next memory context: the context holds the section
    of that file, its heading followed by the trimmed file. *)
Theorem X15_memory_write_context (config : MemoryConfig)
    (sessionId now today yesterday target : string)
    (params : gmap string string) (fs : FileSystem) :
  params !! "target" = Some target ->
  target = "daily" \/ target = "long_term" ->
  let w := MemoryWrite.execute config sessionId now today params fs in
  let heading :=
    if String.eqb target "daily"
    then "Daily log: " +:+ today +:+ " (today)"
    else "MEMORY.md (long-term)" in
  exists data,
    readFileSafe (fst w) (writeTarget config today target) = Some data /\
    Js.includes (snd (buildMemoryContext config today yesterday (fst w)))
      ("## " +:+ heading +:+ nl2 +:+ Js.trim data) = true.
Proof.
  intros Ht Htarget w heading.
  assert (orElse (params !! "target") EmptyString <> "note") as Hnote.
  { rewrite Ht. cbn [orElse]. destruct Htarget as [-> | ->]; discriminate. }
  destruct (memory_write_data config sessionId now today params fs Hnote)
    as (res & data & Hw & _ & Htrim).
  rewrite Ht in Hw. cbn [orElse] in Hw.
  exists data. subst w. rewrite Hw. cbn [fst].
  split; [apply read_after_write|].
  apply context_includes. rewrite buildSections_split.
  unfold leadingSections, dailySections.
  rewrite !in_app_iff.
  destruct Htarget as [-> | ->]; subst heading;
    unfold writeTarget; cbn [String.eqb Ascii.eqb Bool.eqb].
  - right. right. left.
    rewrite read_after_write, (fileSection_present _ _ Htrim). now left.
  - left. right.
    rewrite read_after_write, (fileSection_present _ _ Htrim). now left.
Qed.

Lemma X15_memory_write_context_witness :
  let w :=
    MemoryWrite.execute sampleConfig sampleSession sampleNow "2026-02-18"
      (writeParams "long_term" "Prefers tabs")
      (sampleFiles mixedScratchpad) in
  exists data,
    readFileSafe (fst w) (writeTarget sampleConfig "2026-02-18" "long_term")
    = Some data /\
    Js.includes
      (snd (buildMemoryContext sampleConfig "2026-02-18" "2026-02-17"
              (fst w)))
      ("## " +:+ "MEMORY.md (long-term)" +:+ nl2 +:+ Js.trim data) = true.
Proof.
  apply (X15_memory_write_context sampleConfig sampleSession sampleNow
           "2026-02-18" "2026-02-17" "long_term"
           (writeParams "long_term" "Prefers tabs")
           (sampleFiles mixedScratchpad));
    solve [reflexivity | now right].
Defined.

(** ** The memory context *)

(** X16: the memory context is empty exactly when nothing qualifies:
    every context file, the long-term file and the two daily logs are
    absent or blank, and the checklist has no open item. *)
Theorem X16_buildMemoryContext_empty_iff (config : MemoryConfig)
    (today yesterday : string) (fs : FileSystem) :
  snd (buildMemoryContext config today yesterday fs) = EmptyString <->
  Forall (fun fileName =>
            absentOrBlank fs (Path.join [memoryDir config; fileName]))
         (contextFiles config) /\
  absentOrBlank fs (memoryFile config) /\
  (forall content,
     readFileSafe fs (scratchpadFile config) = Some content ->
     Forall (fun i => done i = true) (parseScratchpad content)) /\
  absentOrBlank fs (dailyPath (dailyDir config) today) /\
  absentOrBlank fs (dailyPath (dailyDir config) yesterday).
Proof.
  split.
  - rewrite buildMemoryContext_sections, buildSections_split.
    intros H. apply assemble_empty in H.
    apply List.app_eq_nil in H as [Hlead H].
    apply List.app_eq_nil in H as [Hsp Hdaily].
    apply List.app_eq_nil in Hlead as [Hctx Hlong].
    apply List.app_eq_nil in Hdaily as [Ht Hy].
    repeat split.
    + now apply concat_sections_nil.
    + now apply fileSection_nil in Hlong.
    + intros content E.
      change (readFileSafe (ensureDirs config fs) (scratchpadFile config))
        with (readFileSafe fs (scratchpadFile config)) in Hsp.
      rewrite E in Hsp. now apply scratchpadSection_nil.
    + now apply fileSection_nil in Ht.
    + now apply fileSection_nil in Hy.
  - intros (Hctx & Hlong & Hsp & Ht & Hy).
    now apply buildMemoryContext_nothing.
Qed.

Lemma X16_buildMemoryContext_empty_iff_witness :
  Forall (fun fileName =>
            absentOrBlank blankFiles
              (Path.join [memoryDir sampleConfig; fileName]))
         (contextFiles sampleConfig) /\
  absentOrBlank blankFiles (memoryFile sampleConfig) /\
  (forall content,
     readFileSafe blankFiles (scratchpadFile sampleConfig) = Some content ->
     Forall (fun i => done i = true) (parseScratchpad content)) /\
  absentOrBlank blankFiles (dailyPath (dailyDir sampleConfig) "2026-02-18") /\
  absentOrBlank blankFiles (dailyPath (dailyDir sampleConfig) "2026-02-17").
Proof.
  apply (proj1 (X16_buildMemoryContext_empty_iff sampleConfig "2026-02-18"
                  "2026-02-17" blankFiles)).
  reflexivity.
Defined.

(** X17: the memory context depends on nothing but the files it is
    built from, the configured context files, the long-term file, the
    checklist and the logs of today and yesterday: two file systems
    that agree on these files give the same context. *)
Theorem X17_buildMemoryContext_frame (config : MemoryConfig)
    (today yesterday : string) (fs1 fs2 : FileSystem) :
  Forall (fun p => readFileSafe fs1 p = readFileSafe fs2 p)
         (contextPaths config today yesterday) ->
  snd (buildMemoryContext config today yesterday fs1) =
  snd (buildMemoryContext config today yesterday fs2).
Proof.
  intros H. rewrite !buildMemoryContext_sections.
  f_equal. now apply (sections_agree config today yesterday fs1 fs2).
Qed.

Lemma X17_buildMemoryContext_frame_witness :
  snd (buildMemoryContext sampleConfig "2026-02-18" "2026-02-17"
         (sampleFiles mixedScratchpad)) =
  snd (buildMemoryContext sampleConfig "2026-02-18" "2026-02-17"
         (MemoryWrite.writeFileSync "/h/.pi/agent/memory/notes/work.md"
            "A note" (sampleFiles mixedScratchpad))).
Proof.
  apply (X17_buildMemoryContext_frame sampleConfig "2026-02-18" "2026-02-17"
           (sampleFiles mixedScratchpad)
           (MemoryWrite.writeFileSync "/h/.pi/agent/memory/notes/work.md"
              "A note" (sampleFiles mixedScratchpad))).
  vm_compute. repeat constructor.
Defined.

(** ** The session scanner *)

(** X18: [scanSession] gives a record exactly for the logs that can be
    read, whose first line parses to a header with a time stamp, and
    whose time stamp is not older than the look-back window; a time
    stamp that is no date counts as not older. *)
Theorem X18_scanSession_accepts (dateTime : json -> option Z) (now : Z)
    (logs : gmap string (list (option json))) (filePath : string) :
  is_Some (scanSession dateTime now logs filePath) <->
  exists header rest,
    logs !! filePath = Some (Some header :: rest) /\
    truthy (getOpt (Some header) "timestamp") = true /\
    isStale dateTime (now - LOOKBACK_MS) (getOpt (Some header) "timestamp")
    = false.
Proof.
  split.
  - intros [info Hscan].
    destruct (logs !! filePath) as [lines|] eqn:Hlines;
      [|unfold scanSession in Hscan; now rewrite Hlines in Hscan].
    destruct (scanSession_accepted _ _ _ _ _ _ Hlines Hscan)
      as (header & rest & -> & Hts & Hstale & _).
    now exists header, rest.
  - intros (header & rest & Hlines & Hts & Hstale).
    destruct (scanSession_header dateTime now logs filePath header rest
                Hlines Hts Hstale) as (info & -> & _).
    now exists info.
Qed.

Lemma X18_scanSession_accepts_witness :
  exists header rest,
    sampleLogs !! "plain.jsonl" = Some (Some header :: rest) /\
    truthy (getOpt (Some header) "timestamp") = true /\
    isStale clockTime (nowMs - LOOKBACK_MS) (getOpt (Some header) "timestamp")
    = false.
Proof.
  apply (proj1 (X18_scanSession_accepts clockTime nowMs sampleLogs
                  "plain.jsonl")).
  eexists. reflexivity.
Defined.

(** X19: the record of an accepted log names the scanned file, its title
    is never empty (the placeholder stands in), its time stamp is never
    missing, and it is a child exactly when it names a parent session. *)
Theorem X19_scanSession_record (dateTime : json -> option Z) (now : Z)
    (logs : gmap string (list (option json))) (filePath : string)
    (info : SessionInfo) :
  scanSession dateTime now logs filePath = Some info ->
  file info = filePath /\
  truthy (Some (title info)) = true /\
  truthy (timestamp info) = true /\
  (isChild info = true <-> parentSession info <> None).
Proof.
  intros Hscan.
  destruct (logs !! filePath) as [lines|] eqn:Hlines;
    [|unfold scanSession in Hscan; now rewrite Hlines in Hscan].
  destruct (scanSession_accepted _ _ _ _ _ _ Hlines Hscan)
    as (header & rest & -> & Hts & Hstale & _).
  destruct (scanSession_header dateTime now logs filePath header rest
              Hlines Hts Hstale)
    as (info' & Hscan' & Hfile & Htime & Htitle & Hchild & Hparent).
  rewrite Hscan in Hscan'. injection Hscan' as <-.
  repeat split.
  - exact Hfile.
  - rewrite Htitle. apply finalTitle_truthy.
  - now rewrite Htime.
  - rewrite Hchild, Hparent. intros H. rewrite H.
    destruct (getOpt (Some header) "parentSession"); [discriminate|].
    discriminate.
  - rewrite Hchild, Hparent.
    destruct (truthy (getOpt (Some header) "parentSession"));
      [reflexivity | congruence].
Qed.

Lemma X19_scanSession_record_witness :
  file (sessionRecord "plain.jsonl") = "plain.jsonl" /\
  truthy (Some (title (sessionRecord "plain.jsonl"))) = true /\
  truthy (timestamp (sessionRecord "plain.jsonl")) = true /\
  (isChild (sessionRecord "plain.jsonl") = true <->
   parentSession (sessionRecord "plain.jsonl") <> None).
Proof.
  apply (X19_scanSession_record clockTime nowMs sampleLogs "plain.jsonl"
           (sessionRecord "plain.jsonl")).
  reflexivity.
Defined.

(** X20: a line after the header that does not parse is skipped by both
    loops: the result is the one for the log without that line. *)
Theorem X20_scanSession_skips_unparsable (dateTime : json -> option Z)
    (now : Z) (logs : gmap string (list (option json))) (filePath : string)
    (header : json) (pre post : list (option json)) :
  scanSession dateTime now
    (<[filePath := Some header :: pre ++ None :: post]> logs) filePath =
  scanSession dateTime now
    (<[filePath := Some header :: pre ++ post]> logs) filePath.
Proof.
  unfold scanSession. rewrite !lookup_insert_eq, !firstPass_header.
  destruct (get (Some header) "timestamp") as [ts|]; [|reflexivity].
  destruct (truthy ts && isStale dateTime (now - LOOKBACK_MS) ts);
    [reflexivity|].
  rewrite !firstPass_rest by lia. rewrite fold_title_unparsable.
  change (Some header :: pre ++ None :: post)
    with ((Some header :: pre) ++ None :: post).
  rewrite secondPass_unparsable. reflexivity.
Qed.

(** ** Housekeeping titles *)

(** X21: a title that starts with a slash is housekeeping exactly when,
    once the title is in lower case, the slash is followed by one or
    more word characters and nothing else: a bare slash, or a command
    followed by an argument, is not.  So a slash followed by word
    characters only is housekeeping. *)
Theorem X21_isHousekeeping_slash (s : string) :
  (isHousekeeping (String "/" s) = true <->
   s <> EmptyString /\ Js.all Js.isWordChar (Js.toLowerCase s) = true) /\
  (s <> EmptyString -> Js.all Js.isWordChar s = true ->
   isHousekeeping (String "/" s) = true).
Proof.
  assert (isHousekeeping (String "/" s) = true <->
          s <> EmptyString /\
          Js.all Js.isWordChar (Js.toLowerCase s) = true) as Hiff.
  { unfold isHousekeeping. cbv zeta.
    change (Js.toLowerCase (String "/" s))
      with (String "/" (Js.toLowerCase s)).
    unfold housekeepingPatterns. cbn [existsb]. unfold patternTest.
    cbn [toEnd body].
    rewrite !test_void_head by reflexivity.
    rewrite matches_void_head by reflexivity.
    cbn [orb]. rewrite orb_false_r, slash_command.
    split; intros [Hne Hall]; (split; [|exact Hall]).
    - intros ->. now apply Hne.
    - intros E. apply Hne. now destruct s. }
  split; [exact Hiff|].
  intros Hne Hall. apply Hiff. split; [exact Hne|].
  now rewrite all_word_lower.
Qed.

Lemma X21_isHousekeeping_slash_witness :
  ("reload" <> EmptyString /\
   Js.all Js.isWordChar (Js.toLowerCase "reload") = true) /\
  isHousekeeping "/Reload" = true.
Proof.
  split.
  - apply (proj1 (proj1 (X21_isHousekeeping_slash "reload"))). reflexivity.
  - apply (proj2 (X21_isHousekeeping_slash "Reload"));
      solve [reflexivity | discriminate].
Defined.

(** X22: a title that is housekeeping by one of the phrases it starts
    with stays housekeeping whatever is written after it; only the
    placeholder title and the slash commands must match to their end. *)
Theorem X22_isHousekeeping_extends (t u : string) :
  isHousekeeping t = true ->
  Js.toLowerCase t <> "(untitled)" ->
  Js.startsWith t "/" = false ->
  isHousekeeping (t +:+ u) = true.
Proof.
  unfold isHousekeeping. cbv zeta. rewrite toLowerCase_app.
  intros H Huntitled Hslash.
  apply existsb_exists in H as (p & Hin & Hp).
  apply existsb_exists. exists p. split; [exact Hin|].
  unfold housekeepingPatterns in Hin. cbn [In] in Hin.
  unfold patternTest in *.
  destruct Hin as [<- | [<- | [<- | [<- | [<- | [<- | []]]]]]];
    cbn [toEnd body] in *; try (now apply test_app).
  - apply matches_lang, lang_lit_inv in Hp. contradiction.
  - apply matches_lang, lang_seq_inv in Hp as (s1 & s2 & E & H1 & _).
    apply lang_lit_inv in H1 as ->.
    destruct t as [|c t]; [discriminate|].
    cbn [Js.toLowerCase] in E. injection E as Ec _.
    apply lowerChar_slash in Ec as ->. discriminate.
Qed.

Lemma X22_isHousekeeping_extends_witness :
  isHousekeeping ("Review daily" +:+ " standup notes for the release") = true.
Proof.
  apply (X22_isHousekeeping_extends "Review daily"
           " standup notes for the release");
    solve [reflexivity | discriminate].
Defined.

(** ** Search *)

(** X23: below the limit the search is complete: when fewer line results
    are returned than the limit (any number; left out, it is 20), every
    line that holds the query, whatever the case, in a file that is not
    empty, whose name ends in [.md] and which is listed in one of the
    three directories, is among the line results. *)
Theorem X23_searchMemory_complete (config : MemoryConfig) (query : string)
    (maxResults : option number) (fs : FileSystem) :
  let limit := orElse maxResults (integer 20) in
  let needle := Js.toLowerCase query in
  let r := Search.searchMemory config query maxResults fs in
  ltLength (length (Search.lineResults r)) limit = true ->
  forall dir prefix names f res,
    In (dir, prefix) (searchedDirs config) ->
    readdirSync fs dir = Some names ->
    In f names -> Js.endsWith f ".md" = true ->
    matchingLine fs needle (Path.join [dir; f])
      (Search.displayName prefix f) res ->
    In res (Search.lineResults r).
Proof.
  intros limit needle r Hlen dir prefix names f res Hd Hn Hf Hmd Hres.
  subst r. unfold Search.searchMemory in *. cbv zeta in *.
  fold limit needle in Hlen |- *.
  set (st0 := {| Search.fileMatches := []; Search.lineResults := [] |}) in *.
  set (st1 := Search.searchDir fs needle limit (memoryDir config)
                EmptyString st0) in *.
  set (st2 := Search.searchDir fs needle limit (dailyDir config)
                "daily" st1) in *.
  pose proof (searchDir_grows fs needle limit (dailyDir config) "daily" st1)
    as G2.
  pose proof (searchDir_grows fs needle limit (notesDir config) "notes" st2)
    as G3.
  fold st2 in G2.
  pose proof (grows_length _ _ G2) as L2.
  pose proof (grows_length _ _ G3) as L3.
  unfold searchedDirs in Hd. cbn [In] in Hd.
  destruct Hd as [[= <- <-] | [[= <- <-] | [[= <- <-] | []]]].
  - apply (grows_In _ _ _ G3), (grows_In _ _ _ G2).
    apply (searchDir_complete fs needle limit _ _ f names); auto.
    fold st1. eapply ltLength_mono; [|exact Hlen]. lia.
  - apply (grows_In _ _ _ G3).
    apply (searchDir_complete fs needle limit _ _ f names); auto.
    fold st2. eapply ltLength_mono; [|exact Hlen]. lia.
  - now apply (searchDir_complete fs needle limit _ _ f names).
Qed.

Lemma X23_searchMemory_complete_witness :
  In {| Search.file := "notes/work.md"; Search.line := 0 + 1;
        Search.text := Js.trimEnd "target in notes" |}
     (Search.lineResults
        (Search.searchMemory searchConfig "TARGET" None searchRoot)).
Proof.
  apply (X23_searchMemory_complete searchConfig "TARGET" None searchRoot
           ltac:(reflexivity)
           "/h/.pi/agent/memory/notes" "notes" ["work.md"] "work.md").
  - right. right. left. reflexivity.
  - reflexivity.
  - left. reflexivity.
  - reflexivity.
  - exists "target in notes", 0, "target in notes".
    repeat split; solve [reflexivity | discriminate].
Defined.

(** X24: the file matches name no file twice, and each of them is the
    display name of a file whose name ends in [.md], listed in one of
    the three directories, and holds the query whatever the case. *)
Theorem X24_searchMemory_fileMatches (config : MemoryConfig)
    (query : string) (maxResults : option number) (fs : FileSystem) :
  let r := Search.searchMemory config query maxResults fs in
  NoDup (Search.fileMatches r) /\
  Forall (fileMatchFrom fs config (Js.toLowerCase query))
         (Search.fileMatches r).
Proof.
  intros r. subst r. unfold Search.searchMemory. cbv zeta.
  repeat apply searchDir_names;
    try (unfold searchedDirs; cbn [In]; now auto).
  split; constructor.
Qed.

(** ** Configuration *)

(** X25: whatever the environment, no configured context file is empty,
    carries white space at either end, or holds a comma. *)
Theorem X25_buildConfig_contextFiles (env : gmap string string) :
  Forall (fun f => f <> EmptyString /\ Js.trim f = f /\ noComma f)
         (contextFiles (buildConfig env)).
Proof.
  unfold buildConfig. cbn [contextFiles].
  apply Forall_forall. intros f Hf.
  apply list_elem_of_In, filter_In in Hf as [Hf Hne].
  apply in_map_iff in Hf as (e & <- & He).
  pose proof (split_parts ","
                (orElse (env !! "PI_CONTEXT_FILES") EmptyString)) as Hparts.
  rewrite Forall_forall in Hparts.
  specialize (Hparts e (proj2 (list_elem_of_In _ _) He)).
  repeat split.
  - now apply nonEmpty_true.
  - apply trim_idem.
  - unfold noComma, Js.trim. now apply all_trimEnd, all_trimStart.
Qed.

(** ** Session ids *)

(** X26: the short session id is the start of the id, of at most eight
    characters, and the id itself when it has no more than eight. *)
Theorem X26_shortSessionId (sessionId : string) :
  Js.startsWith sessionId (MemoryWrite.shortSessionId sessionId) = true /\
  String.length (MemoryWrite.shortSessionId sessionId) <= 8 /\
  (String.length sessionId <= 8 ->
   MemoryWrite.shortSessionId sessionId = sessionId).
Proof.
  unfold MemoryWrite.shortSessionId. repeat split.
  - apply slice0_prefix.
  - apply slice0_length.
  - apply slice0_short.
Qed.

Lemma X26_shortSessionId_witness :
  MemoryWrite.shortSessionId "abc" = "abc".
Proof.
  apply (proj2 (proj2 (X26_shortSessionId "abc"))). simpl. lia.
Defined.
